(** * Territory control system: data-access, authentication, schema and backup logic

    A shallow embedding of the Python sources
    (models/, services/auth_service.py, database/schema_validator.py,
    database/backup.py) together with the properties the specification
    states about them.

    Conventions of the embedding.
    - A Python [str] is a [string] of bytes (UTF-8); an optional attribute
      ([x: int = None]) is an [option].
    - A model object is a record of its persisted attributes; a table row is
      the same record with [id = Some _].  The display-only attributes
      filled by joins are not part of the record.
    - The constructors of the model classes raise TypeError (the call
      [super().__init__(id)] against [BaseModel.__init__(self, **kwargs)]).
      The definitions of the models' sections give a method on an object
      that is there and up to the point where it would build another: a
      look-up is its SELECT and the row fetched.  Module [Raises] gives the
      methods that build an object with the constructor as written.
    - The gateway is a state monad over [Db].  A table is [None] when it
      does not exist: a statement against it makes sqlite3 raise, and
      [DatabaseManager.execute] answers [None] (no cursor).  The migration
      scripts are not among the sources, so no constraint of the schema
      other than the existence of a table makes a statement fail.
    - Where the outcome depends on something the sources leave open, the
      module of the source gives the plain case and a second module the
      general one: [Os] for an [os.remove] that may fail, [SetOrder] for the
      order of a Python set, [SameFile] for paths that lead to one file.
    - Instants (file times, the clock) are integer seconds.
    - [print] output is not part of the state. *)

From Stdlib Require Import List String Ascii ZArith Lia Bool DecimalString.
From Stdlib Require Import Permutation Sorting.Sorted.
Import ListNotations.
Open Scope string_scope.
Open Scope Z_scope.
Open Scope list_scope.

Set Implicit Arguments.

(** ** Python primitives used by the sources *)
Module Py.

(** Values handed to the generic required-field helper. *)
Inductive value : Type :=
| VNone
| VInt (z : Z)
| VStr (s : string).

Definition of_int (o : option Z) : value :=
  match o with Some z => VInt z | None => VNone end.

Definition of_str (o : option string) : value :=
  match o with Some s => VStr s | None => VNone end.

(** Truthiness: [if x:] on an optional int, an optional str, a list. *)
Definition truthy_int (o : option Z) : bool :=
  match o with Some z => negb (z =? 0) | None => false end.

Definition truthy_str (s : string) : bool :=
  negb (s =? "")%string.

Definition truthy_ostr (o : option string) : bool :=
  match o with Some s => truthy_str s | None => false end.

Definition truthy_list {A} (l : list A) : bool :=
  match l with [] => false | _ :: _ => true end.

(** [x in [..]] on strings. *)
Definition str_in (s : string) (l : list string) : bool :=
  existsb (String.eqb s) l.

(** [sep.join(l)] *)
Definition join (sep : string) (l : list string) : string :=
  String.concat sep l.

(** ASCII white space as [bytes.fromhex] sees it. *)
Definition isspace (c : ascii) : bool :=
  let n := nat_of_ascii c in
  ((9 <=? n) && (n <=? 13) || (n =? 32))%nat.

(** White space of a [str]: the separators 28 to 31 count too (of the
    characters outside ASCII none is modelled). *)
Definition str_isspace (c : ascii) : bool :=
  let n := nat_of_ascii c in
  (isspace c || (28 <=? n) && (n <=? 31))%nat.

(** [s.strip() == ''] *)
Fixpoint blank (s : string) : bool :=
  match s with
  | EmptyString => true
  | String c s' => str_isspace c && blank s'
  end.

(** ['@' in s] and the like. *)
Fixpoint contains_char (c : ascii) (s : string) : bool :=
  match s with
  | EmptyString => false
  | String d s' => Ascii.eqb c d || contains_char c s'
  end.

(** [s.startswith(p)], [s.endswith(p)] *)
Definition startswith (p s : string) : bool :=
  String.prefix p s.

Definition endswith (p s : string) : bool :=
  let n := String.length s in
  let k := String.length p in
  (k <=? n)%nat && (String.substring (n - k) k s =? p)%string.

(** [f"{i:02d}"] for a non-negative [i]: decimal, zero-padded to two digits. *)
Definition fmt_02d (i : nat) : string :=
  let d := NilZero.string_of_uint (Nat.to_uint i) in
  if (String.length d <? 2)%nat then ("0" ++ d)%string else d.

End Py.

(** ** utils/validation.py *)
Module Validation.

(** [validate_required]: the value is missing when it is [None] or a
    blank string. *)
Definition missing (v : Py.value) : bool :=
  match v with
  | Py.VNone => true
  | Py.VStr s => Py.blank s
  | Py.VInt _ => false
  end.

(** Modelled from the spec: [validate_required_fields], imported by every
    model from utils/validation.py but not defined there.  The spec calls
    it the entity's required-field check; it is applied to the object and
    a list of (attribute, message) pairs and gives the messages of the
    attributes that are missing in the sense of [validate_required] of
    the same file.  The attribute values are looked up at the call. *)
Definition validate_required_fields (fields : list (Py.value * string)) : list string :=
  map snd (filter (fun f => missing (fst f)) fields).

End Validation.

(** ** The model objects (persisted attributes) *)

Module Imovel.
Record t : Type := mk {
  id : option Z;
  rua_id : option Z;
  numero : string;
  tipo : string;
  nome : option string;
  total_unidades : option Z;
  tipo_portaria : option string;
  tipo_acesso : option string;
  observacoes : option string
}.

Definition with_id (self : t) (i : option Z) : t :=
  mk i (rua_id self) (numero self) (tipo self) (nome self) (total_unidades self)
     (tipo_portaria self) (tipo_acesso self) (observacoes self).

Definition tipos_validos : list string :=
  ["residencial"; "comercial"; "predio"; "vila"]%string.

Definition validate (self : t) : list string :=
  Validation.validate_required_fields
    [ (Py.of_int (rua_id self), "Rua é obrigatória");
      (Py.VStr (numero self), "Número é obrigatório");
      (Py.VStr (tipo self), "Tipo é obrigatório") ]%string
  ++ (if Py.truthy_str (tipo self) && negb (Py.str_in (tipo self) tipos_validos)
      then [("Tipo deve ser um dos seguintes: " ++ Py.join ", " tipos_validos)%string]
      else [])
  ++ (if Py.str_in (tipo self) ["predio"; "vila"]%string
         && negb (Py.truthy_int (total_unidades self))
      then ["Total de unidades é obrigatório para prédios e vilas"]%string
      else []).
End Imovel.

Module Unidade.
Record t : Type := mk {
  id : option Z;
  imovel_id : option Z;
  numero : string;
  observacoes : option string
}.

Definition with_id (self : t) (i : option Z) : t :=
  mk i (imovel_id self) (numero self) (observacoes self).

Definition validate (self : t) : list string :=
  Validation.validate_required_fields
    [ (Py.of_int (imovel_id self), "Imóvel é obrigatório");
      (Py.VStr (numero self), "Número da unidade é obrigatório") ]%string.
End Unidade.

Module Usuario.
Definition NIVEL_ADMIN : Z := 3.
Definition NIVEL_GESTOR : Z := 2.
Definition NIVEL_BASICO : Z := 1.

Record t : Type := mk {
  id : option Z;
  nome : string;
  email : string;
  senha_hash : option string;
  nivel_permissao : option Z;
  ativo : bool;
  data_criacao : option string
}.

Definition with_id (self : t) (i : option Z) : t :=
  mk i (nome self) (email self) (senha_hash self) (nivel_permissao self)
     (ativo self) (data_criacao self).

Definition nivel_valido (n : Z) : bool :=
  existsb (Z.eqb n) [NIVEL_BASICO; NIVEL_GESTOR; NIVEL_ADMIN].

Definition validate (self : t) : list string :=
  Validation.validate_required_fields
    [ (Py.VStr (nome self), "Nome é obrigatório");
      (Py.VStr (email self), "Email é obrigatório");
      (Py.of_int (nivel_permissao self), "Nível de permissão é obrigatório") ]%string
  ++ (if Py.truthy_str (email self) && negb (Py.contains_char "@"%char (email self))
      then ["Email inválido"]%string else [])
  ++ (match nivel_permissao self with
      | Some n => if nivel_valido n then [] else ["Nível de permissão inválido"]%string
      | None => []
      end)
  ++ (match id self with
      | None => if Py.truthy_ostr (senha_hash self) then []
                else ["Senha é obrigatória para novos usuários"]%string
      | Some _ => []
      end).
End Usuario.

Module Atendimento.
Record t : Type := mk {
  id : option Z;
  imovel_id : option Z;
  unidade_id : option Z;
  data : string;
  resultado : option string;
  observacoes : option string;
  data_registro : option string
}.

Definition with_id (self : t) (i : option Z) : t :=
  mk i (imovel_id self) (unidade_id self) (data self) (resultado self)
     (observacoes self) (data_registro self).

Definition resultados_validos : list string :=
  ["positivo"; "ocupante-ausente"; "recusou-atendimento"; "visitado"]%string.

Definition validate (self : t) : list string :=
  Validation.validate_required_fields
    [ (Py.of_int (imovel_id self), "Imóvel é obrigatório");
      (Py.VStr (data self), "Data é obrigatória") ]%string
  ++ (match resultado self with
      | Some r =>
          if Py.truthy_str r && negb (Py.str_in r resultados_validos)
          then [("Resultado deve ser um dos seguintes: "
                   ++ Py.join ", " resultados_validos)%string]
          else []
      | None => []
      end).
End Atendimento.

Module Designacao.
Record t : Type := mk {
  id : option Z;
  territorio_id : option Z;
  saida_campo_id : option Z;
  data_designacao : string;
  data_devolucao : option string;
  responsavel : option string;
  status : string
}.

Definition with_id (self : t) (i : option Z) : t :=
  mk i (territorio_id self) (saida_campo_id self) (data_designacao self)
     (data_devolucao self) (responsavel self) (status self).

Definition with_status (self : t) (s : string) : t :=
  mk (id self) (territorio_id self) (saida_campo_id self) (data_designacao self)
     (data_devolucao self) (responsavel self) s.

Definition status_validos : list string := ["ativo"; "concluido"]%string.

Definition validate (self : t) : list string :=
  Validation.validate_required_fields
    [ (Py.of_int (territorio_id self), "Território é obrigatório");
      (Py.of_int (saida_campo_id self), "Saída de campo é obrigatória");
      (Py.VStr (data_designacao self), "Data de designação é obrigatória");
      (Py.VStr (status self), "Status é obrigatório") ]%string
  ++ (if Py.str_in (status self) status_validos then []
      else ["Status deve ser 'ativo' ou 'concluido'"]%string).
End Designacao.

(** Rows of the two tables the authentication service writes. *)
Module Sessao.
Record t : Type := mk {
  usuario_id : option Z;
  token : string;
  ip_address : option string;
  user_agent : option string;
  data_expiracao : Z
}.
End Sessao.

Module LogAtividade.
Record t : Type := mk {
  usuario_id : option Z;
  tipo_acao : string;
  descricao : string
}.
End LogAtividade.

(** ** database/db_manager.py: the gateway *)
Module DatabaseManager.

(** The statements the modelled code issues, by kind and table. *)
Inductive Stmt : Type :=
| SELECT (table : string)
| INSERT (table : string)
| UPDATE (table : string)
| DELETE (table : string).

Definition is_write (s : Stmt) : bool :=
  match s with
  | SELECT _ => false
  | _ => true
  end.

(** The store: each table (absent when [None]) and the statements handed
    to [execute] so far, oldest first. *)
Record Db : Type := mkDb {
  imoveis : option (list Imovel.t);
  unidades : option (list Unidade.t);
  usuarios : option (list Usuario.t);
  atendimentos : option (list Atendimento.t);
  designacoes : option (list Designacao.t);
  sessoes : option (list Sessao.t);
  log_atividades : option (list LogAtividade.t);
  issued : list Stmt
}.

Definition set_imoveis (db : Db) (x : option (list Imovel.t)) : Db :=
  mkDb x (unidades db) (usuarios db) (atendimentos db) (designacoes db)
       (sessoes db) (log_atividades db) (issued db).
Definition set_unidades (db : Db) (x : option (list Unidade.t)) : Db :=
  mkDb (imoveis db) x (usuarios db) (atendimentos db) (designacoes db)
       (sessoes db) (log_atividades db) (issued db).
Definition set_usuarios (db : Db) (x : option (list Usuario.t)) : Db :=
  mkDb (imoveis db) (unidades db) x (atendimentos db) (designacoes db)
       (sessoes db) (log_atividades db) (issued db).
Definition set_atendimentos (db : Db) (x : option (list Atendimento.t)) : Db :=
  mkDb (imoveis db) (unidades db) (usuarios db) x (designacoes db)
       (sessoes db) (log_atividades db) (issued db).
Definition set_designacoes (db : Db) (x : option (list Designacao.t)) : Db :=
  mkDb (imoveis db) (unidades db) (usuarios db) (atendimentos db) x
       (sessoes db) (log_atividades db) (issued db).
Definition set_sessoes (db : Db) (x : option (list Sessao.t)) : Db :=
  mkDb (imoveis db) (unidades db) (usuarios db) (atendimentos db) (designacoes db)
       x (log_atividades db) (issued db).
Definition set_log_atividades (db : Db) (x : option (list LogAtividade.t)) : Db :=
  mkDb (imoveis db) (unidades db) (usuarios db) (atendimentos db) (designacoes db)
       (sessoes db) x (issued db).
Definition set_issued (db : Db) (x : list Stmt) : Db :=
  mkDb (imoveis db) (unidades db) (usuarios db) (atendimentos db) (designacoes db)
       (sessoes db) (log_atividades db) x.

(** Computations against the store. *)
Definition M (A : Type) : Type := Db -> A * Db.

Definition ret {A} (a : A) : M A := fun db => (a, db).

Definition bind {A B} (c : M A) (k : A -> M B) : M B :=
  fun db => let (a, db') := c db in k a db'.

(** [execute] records the statement before running it. *)
Definition issue (s : Stmt) : M unit :=
  fun db => (tt, set_issued db (issued db ++ [s])).

(** [commit]: every statement of the model is applied at once, so there is
    nothing left to flush. *)
Definition commit : M unit := ret tt.

(** [cursor.lastrowid] of an INSERT: sqlite gives a rowid table one more
    than the largest id in use. *)
Definition lastrowid {A} (id : A -> option Z) (rows : list A) : Z :=
  1 + fold_right Z.max 0 (map (fun r => match id r with Some i => i | None => 0 end) rows).

(** [execute("SELECT ...")]: the matching rows, or no cursor. *)
Definition select {A} (name : string) (table : Db -> option (list A))
           (cond : A -> bool) : M (option (list A)) :=
  bind (issue (SELECT name)) (fun _ db =>
    (match table db with
     | Some rows => Some (filter cond rows)
     | None => None
     end, db)).

(** [execute("INSERT ...")]: the new row gets the next id; the cursor
    carries it as [lastrowid]. *)
Definition insert {A} (name : string) (table : Db -> option (list A))
           (put : Db -> option (list A) -> Db)
           (id : A -> option Z) (row : Z -> A) : M (option Z) :=
  bind (issue (INSERT name)) (fun _ db =>
    match table db with
    | Some rows =>
        let i := lastrowid id rows in
        (Some i, put db (Some (rows ++ [row i])))
    | None => (None, db)
    end).

(** [execute("UPDATE ... WHERE id = ?")]: rewrites the rows with that id. *)
Definition update {A} (name : string) (table : Db -> option (list A))
           (put : Db -> option (list A) -> Db)
           (id : A -> option Z) (i : Z) (f : A -> A) : M (option unit) :=
  bind (issue (UPDATE name)) (fun _ db =>
    match table db with
    | Some rows =>
        (Some tt,
         put db (Some (map (fun r => match id r with
                                     | Some j => if j =? i then f r else r
                                     | None => r
                                     end) rows)))
    | None => (None, db)
    end).

End DatabaseManager.

Import DatabaseManager.

Notation "x <- c ;; k" := (bind c (fun x => k))
  (at level 61, c at next level, right associativity).
Notation "c ;;; k" := (bind c (fun _ => k))
  (at level 61, right associativity).

(** [ORDER BY] and [list.sort]: a stable insertion sort; [le a b] says that
    [a] may stand before [b]. *)
Section Sort.
Variable A : Type.
Variable le : A -> A -> bool.

Fixpoint insert_sorted (x : A) (l : list A) : list A :=
  match l with
  | [] => [x]
  | y :: l' => if le x y then x :: l else y :: insert_sorted x l'
  end.

Definition sort_by (l : list A) : list A :=
  fold_right insert_sorted [] l.
End Sort.

(** [cursor.fetchone()] *)
Definition fetchone {A} (cursor : option (list A)) : option A :=
  match cursor with
  | Some (row :: _) => Some row
  | _ => None
  end.

(** [cursor.fetchall()] under [if cursor: ... return []] *)
Definition fetchall {A} (cursor : option (list A)) : list A :=
  match cursor with
  | Some rows => rows
  | None => []
  end.

Definition id_is (i : Z) (o : option Z) : bool :=
  match o with Some j => j =? i | None => false end.

(** ** models/imovel/unidade.py *)

Definition Unidade_save (self : Unidade.t) : M (bool * Unidade.t) :=
  if Py.truthy_list (Unidade.validate self) then ret (false, self)
  else
    match Unidade.id self with
    | None =>
        cursor <- insert "unidades" unidades set_unidades Unidade.id
                         (fun i => Unidade.with_id self (Some i)) ;;
        match cursor with
        | Some i => commit ;;; ret (true, Unidade.with_id self (Some i))
        | None => ret (false, self)
        end
    | Some i =>
        cursor <- update "unidades" unidades set_unidades Unidade.id i
                         (fun _ => self) ;;
        match cursor with
        | Some _ => commit ;;; ret (true, self)
        | None => ret (false, self)
        end
    end.

(** ** models/imovel/imovel.py *)

(** One of the two loops of [_criar_unidades]: a unit per [i], its result
    dropped.  The unit is taken as built; with the constructor as the
    sources have it the loop is [Raises.criar_numeradas]. *)
Fixpoint criar_numeradas (prefixo : string) (imovel_id : option Z) (range : list nat)
  : M unit :=
  match range with
  | [] => ret tt
  | i :: rest =>
      _ <- Unidade_save (Unidade.mk None imovel_id (prefixo ++ Py.fmt_02d i)%string None) ;;
      criar_numeradas prefixo imovel_id rest
  end.

(** [None]: [range(1, None + 1)] raises TypeError. *)
Definition Imovel__criar_unidades (self : Imovel.t) : M (option bool) :=
  match Imovel.total_unidades self with
  | None => ret None
  | Some n =>
      let range := seq 1 (Z.to_nat n) in
      (if (Imovel.tipo self =? "predio")%string
       then criar_numeradas "Apto " (Imovel.id self) range
       else criar_numeradas "Casa " (Imovel.id self) range) ;;;
      ret (Some true)
  end.

Definition gera_unidades (self : Imovel.t) : bool :=
  Py.str_in (Imovel.tipo self) ["predio"; "vila"]%string
  && Py.truthy_int (Imovel.total_unidades self)
  && match Imovel.total_unidades self with Some n => 0 <? n | None => false end.

Definition Imovel_save (self : Imovel.t) : M (bool * Imovel.t) :=
  if Py.truthy_list (Imovel.validate self) then ret (false, self)
  else
    match Imovel.id self with
    | None =>
        cursor <- insert "imoveis" imoveis set_imoveis Imovel.id
                         (fun i => Imovel.with_id self (Some i)) ;;
        match cursor with
        | Some i =>
            let self' := Imovel.with_id self (Some i) in
            commit ;;;
            (if gera_unidades self'
             then Imovel__criar_unidades self' ;;; ret tt
             else ret tt) ;;;
            ret (true, self')
        | None => ret (false, self)
        end
    | Some i =>
        cursor <- update "imoveis" imoveis set_imoveis Imovel.id i (fun _ => self) ;;
        match cursor with
        | Some _ => commit ;;; ret (true, self)
        | None => ret (false, self)
        end
    end.

(** ** models/usuario/usuario.py *)

(** The SELECT of [get_by_email] and the row it fetches, before an object
    is built from it ([Raises.Usuario_get_by_email] is the whole method). *)
Definition Usuario_get_by_email (email : string) : M (option Usuario.t) :=
  cursor <- select "usuarios" usuarios (fun u => (Usuario.email u =? email)%string) ;;
  ret (fetchone cursor).

(** The columns the INSERT and the UPDATE write; [data_criacao] is left to
    the table. *)
Definition usuario_row (self : Usuario.t) (i : Z) (data_criacao : option string)
  : Usuario.t :=
  Usuario.mk (Some i) (Usuario.nome self) (Usuario.email self) (Usuario.senha_hash self)
             (Usuario.nivel_permissao self) (Usuario.ativo self) data_criacao.

Definition Usuario_save (self : Usuario.t) : M (bool * Usuario.t) :=
  if Py.truthy_list (Usuario.validate self) then ret (false, self)
  else
    match Usuario.id self with
    | None =>
        existing <- Usuario_get_by_email (Usuario.email self) ;;
        match existing with
        | Some _ => ret (false, self)
        | None =>
            cursor <- insert "usuarios" usuarios set_usuarios Usuario.id
                             (fun i => usuario_row self i None) ;;
            match cursor with
            | Some i => commit ;;; ret (true, Usuario.with_id self (Some i))
            | None => ret (false, self)
            end
        end
    | Some i =>
        existing <- Usuario_get_by_email (Usuario.email self) ;;
        if match existing with
           | Some e => negb (id_is i (Usuario.id e))
           | None => false
           end
        then ret (false, self)
        else
          cursor <- update "usuarios" usuarios set_usuarios Usuario.id i
                           (fun r => usuario_row self i (Usuario.data_criacao r)) ;;
          match cursor with
          | Some _ => commit ;;; ret (true, self)
          | None => ret (false, self)
          end
    end.

(** ** models/atendimento/atendimento.py *)

Definition atendimento_row (self : Atendimento.t) (i : Z) (data_registro : option string)
  : Atendimento.t :=
  Atendimento.mk (Some i) (Atendimento.imovel_id self) (Atendimento.unidade_id self)
                 (Atendimento.data self) (Atendimento.resultado self)
                 (Atendimento.observacoes self) data_registro.

Definition Atendimento_save (self : Atendimento.t) : M (bool * Atendimento.t) :=
  if Py.truthy_list (Atendimento.validate self) then ret (false, self)
  else
    match Atendimento.id self with
    | None =>
        cursor <- insert "atendimentos" atendimentos set_atendimentos Atendimento.id
                         (fun i => atendimento_row self i None) ;;
        match cursor with
        | Some i => commit ;;; ret (true, Atendimento.with_id self (Some i))
        | None => ret (false, self)
        end
    | Some i =>
        cursor <- update "atendimentos" atendimentos set_atendimentos Atendimento.id i
                         (fun r => atendimento_row self i (Atendimento.data_registro r)) ;;
        match cursor with
        | Some _ => commit ;;; ret (true, self)
        | None => ret (false, self)
        end
    end.

(** ** models/designacao/designacao.py *)

Definition Designacao_save (self : Designacao.t) : M (bool * Designacao.t) :=
  if Py.truthy_list (Designacao.validate self) then ret (false, self)
  else
    match Designacao.id self with
    | None =>
        cursor <- insert "designacoes" designacoes set_designacoes Designacao.id
                         (fun i => Designacao.with_id self (Some i)) ;;
        match cursor with
        | Some i => commit ;;; ret (true, Designacao.with_id self (Some i))
        | None => ret (false, self)
        end
    | Some i =>
        cursor <- update "designacoes" designacoes set_designacoes Designacao.id i
                         (fun _ => self) ;;
        match cursor with
        | Some _ => commit ;;; ret (true, self)
        | None => ret (false, self)
        end
    end.

(** [concluir]: the object is marked before the statement runs. *)
Definition Designacao_concluir (self : Designacao.t) : M (bool * Designacao.t) :=
  match Designacao.id self with
  | Some i =>
      let self' := Designacao.with_status self "concluido" in
      cursor <- update "designacoes" designacoes set_designacoes Designacao.id i
                       (fun r => Designacao.with_status r "concluido") ;;
      match cursor with
      | Some _ => commit ;;; ret (true, self')
      | None => ret (false, self')
      end
  | None => ret (false, self)
  end.

(** ** Password hashes: models/usuario/usuario.py and services/auth_service.py *)

(** A [bytes] object is the string of its bytes, so [senha.encode('utf-8')]
    is the identity on the model's strings. *)
Definition bytes : Type := string.

Definition encode_utf8 (s : string) : bytes := s.

(** [s.split(sep)] for a one-character separator: never empty. *)
Fixpoint split_on (sep : ascii) (s : string) : list string :=
  match s with
  | EmptyString => [EmptyString]
  | String c s' =>
      if Ascii.eqb c sep then EmptyString :: split_on sep s'
      else match split_on sep s' with
           | p :: ps => String c p :: ps
           | [] => [String c EmptyString]
           end
  end.

(** The value of a hexadecimal digit. *)
Definition hexval (c : ascii) : option N :=
  let n := N_of_ascii c in
  if ((48 <=? n) && (n <=? 57))%N then Some (n - 48)%N
  else if ((97 <=? n) && (n <=? 102))%N then Some (n - 87)%N
  else if ((65 <=? n) && (n <=? 70))%N then Some (n - 55)%N
  else None.

Definition is_hex (c : ascii) : bool :=
  match hexval c with Some _ => true | None => false end.

(** [bytes.fromhex(s)]: two digits per byte, ASCII white space skipped
    before each byte and at the end; [None] is ValueError. *)
Fixpoint fromhex (s : string) : option bytes :=
  match s with
  | EmptyString => Some EmptyString
  | String c s' =>
      if Py.isspace c then fromhex s'
      else
        match hexval c, s' with
        | Some hi, String d s'' =>
            match hexval d with
            | Some lo =>
                match fromhex s'' with
                | Some bs => Some (String (ascii_of_N (16 * hi + lo)) bs)
                | None => None
                end
            | None => None
            end
        | _, _ => None
        end
  end.

(** [b.hex()] *)
Definition hexdigit (n : N) : ascii :=
  if (n <? 10)%N then ascii_of_N (48 + n) else ascii_of_N (87 + n).

Fixpoint hex (b : bytes) : string :=
  match b with
  | EmptyString => EmptyString
  | String c b' =>
      String (hexdigit (N_of_ascii c / 16)) (String (hexdigit (N_of_ascii c mod 16)) (hex b'))
  end.

(** What the body of a [try] gives: a value, or the exception it raised. *)
Inductive raised : Type :=
| AttributeError
| ValueError.

Section Hashlib.

(** [hashlib.pbkdf2_hmac('sha256', password, salt, iterations)] *)
Variable pbkdf2_hmac_sha256 : bytes -> bytes -> Z -> bytes.

Definition DEFAULT_PASSWORD_ITERATIONS : Z := 100000.

(** The [try] body shared by [Usuario.verificar_senha] and
    [AuthService._verificar_senha]. *)
Definition verificar_try (senha : string) (senha_hash : option string) : raised + bool :=
  match senha_hash with
  | None => inl AttributeError
  | Some h =>
      match split_on ":"%char h with
      | [salt_str; hash_str] =>
          match fromhex salt_str with
          | None => inl ValueError
          | Some salt =>
              match fromhex hash_str with
              | None => inl ValueError
              | Some hash_stored =>
                  inr (pbkdf2_hmac_sha256 (encode_utf8 senha) salt
                                          DEFAULT_PASSWORD_ITERATIONS
                       =? hash_stored)%string
              end
          end
      | _ => inl ValueError
      end
  end.

(** [except Exception: return False] *)
Definition except_false (r : raised + bool) : bool :=
  match r with
  | inr b => b
  | inl _ => false
  end.

Definition AuthService__verificar_senha (senha : string) (senha_hash : option string)
  : bool :=
  except_false (verificar_try senha senha_hash).

Definition Usuario_verificar_senha (self : Usuario.t) (senha : string) : bool :=
  if negb (Py.truthy_ostr (Usuario.senha_hash self)) then false
  else except_false (verificar_try senha (Usuario.senha_hash self)).

(** [definir_senha], the salt being what [os.urandom(32)] gave. *)
Definition Usuario_definir_senha (self : Usuario.t) (salt : bytes) (senha : string)
  : Usuario.t :=
  let senha_hash :=
    pbkdf2_hmac_sha256 (encode_utf8 senha) salt DEFAULT_PASSWORD_ITERATIONS in
  Usuario.mk (Usuario.id self) (Usuario.nome self) (Usuario.email self)
             (Some (hex salt ++ ":" ++ hex senha_hash)%string)
             (Usuario.nivel_permissao self) (Usuario.ativo self)
             (Usuario.data_criacao self).

(** *** services/auth_service.py *)

(** What a call draws from outside the store: the token of
    [secrets.token_hex(32)] and the clock, in seconds. *)
Record Env : Type := mkEnv {
  token_hex : string;
  now : Z
}.

Definition DEFAULT_SESSION_TIMEOUT_MINUTES : Z := 30.

Definition insert_plain {A} (name : string) (table : Db -> option (list A))
           (put : Db -> option (list A) -> Db) (row : A) : M (option unit) :=
  issue (INSERT name) ;;;
  fun db => match table db with
            | Some rows => (Some tt, put db (Some (rows ++ [row])))
            | None => (None, db)
            end.

(** [criar_sessao]: the source file ends inside this function, after the
    INSERT is handed to the gateway; the token is what it returns by its
    signature and docstring.  [data_expiracao] is kept as the instant in
    seconds rather than its [strftime] text. *)
Definition AuthService_criar_sessao (env : Env) (usuario_id : option Z)
           (ip_address user_agent : option string) (timeout_minutes : option Z)
  : M string :=
  let token := token_hex env in
  let timeout_minutes :=
    if Py.truthy_int timeout_minutes
    then match timeout_minutes with Some t => t | None => 0 end
    else DEFAULT_SESSION_TIMEOUT_MINUTES in
  let data_expiracao := now env + 60 * timeout_minutes in
  insert_plain "sessoes" sessoes set_sessoes
               (Sessao.mk usuario_id token ip_address user_agent data_expiracao) ;;;
  ret token.

Definition AuthService__registrar_login (usuario_id : option Z) : M bool :=
  cursor <- insert_plain "log_atividades" log_atividades set_log_atividades
              (LogAtividade.mk usuario_id "login" "Login realizado com sucesso") ;;
  match cursor with
  | Some _ => commit ;;; ret true
  | None => ret false
  end.

(** [UPDATE usuarios SET ultima_atividade = CURRENT_TIMESTAMP WHERE id = ?]:
    the column is not one the user model carries, so the rows of the model
    keep their attributes; the cursor is not looked at. *)
Definition toca_ultima_atividade (usuario_id : option Z) : M unit :=
  match usuario_id with
  | Some i => update "usuarios" usuarios set_usuarios Usuario.id i (fun r => r) ;;; ret tt
  | None => issue (UPDATE "usuarios")
  end.

(** The user record of a successful login: [dict(usuario)] with the
    ['token'] key added. *)
Definition AuthService_authenticate (env : Env) (email senha : string)
  : M (bool * option (Usuario.t * string)) :=
  cursor <- select "usuarios" usuarios
              (fun u => (Usuario.email u =? email)%string && Usuario.ativo u) ;;
  match cursor with
  | None => ret (false, None)
  | Some _ =>
      match fetchone cursor with
      | None => ret (false, None)
      | Some usuario =>
          if negb (AuthService__verificar_senha senha (Usuario.senha_hash usuario))
          then ret (false, None)
          else
            toca_ultima_atividade (Usuario.id usuario) ;;;
            commit ;;;
            token <- AuthService_criar_sessao env (Usuario.id usuario) None None None ;;
            AuthService__registrar_login (Usuario.id usuario) ;;;
            ret (true, Some (usuario, token))
      end
  end.

End Hashlib.

(** ** database/schema_validator.py *)
Module SchemaValidator.

(** A table of the live schema as [sqlite_master] and [PRAGMA table_info]
    show it: its name, its columns (name, type) and the names of its
    indexes. *)
Record Table : Type := mkTable {
  name : string;
  columns : list (string * string);
  indices : list string
}.

Definition Schema : Type := list Table.

Definition lower (c : ascii) : ascii :=
  let n := nat_of_ascii c in
  if ((65 <=? n) && (n <=? 90))%nat then ascii_of_nat (n + 32) else c.

Fixpoint lower_str (s : string) : string :=
  match s with
  | EmptyString => EmptyString
  | String c s' => String (lower c) (lower_str s')
  end.

(** [name LIKE 'sqlite_%']: "sqlite" in any case, one more character, then
    anything. *)
Definition like_sqlite (n : string) : bool :=
  (lower_str (String.substring 0 6 n) =? "sqlite")%string && (7 <=? String.length n)%nat.

Definition _get_existing_tables (db : Schema) : list string :=
  map name (filter (fun t => negb (like_sqlite (name t))) db).

Definition _get_table_columns (db : Schema) (table_name : string)
  : list (string * string) :=
  match find (fun t => (name t =? table_name)%string) db with
  | Some t => columns t
  | None => []
  end.

Definition _get_table_indices (db : Schema) (table_name : string) : list string :=
  flat_map indices (filter (fun t => (name t =? table_name)%string) db).

Definition _get_expected_tables : list (string * list (string * string)) :=
  [ ("territorios",
     [("id", "INTEGER"); ("nome", "TEXT"); ("descricao", "TEXT");
      ("ultima_visita", "TEXT"); ("data_criacao", "TEXT")]);
    ("ruas",
     [("id", "INTEGER"); ("territorio_id", "INTEGER"); ("nome", "TEXT")]);
    ("imoveis",
     [("id", "INTEGER"); ("rua_id", "INTEGER"); ("numero", "TEXT");
      ("tipo", "TEXT"); ("nome", "TEXT"); ("total_unidades", "INTEGER");
      ("tipo_portaria", "TEXT"); ("tipo_acesso", "TEXT"); ("observacoes", "TEXT")]);
    ("unidades",
     [("id", "INTEGER"); ("imovel_id", "INTEGER"); ("numero", "TEXT");
      ("observacoes", "TEXT")]);
    ("saidas_campo",
     [("id", "INTEGER"); ("nome", "TEXT"); ("data", "TEXT");
      ("dia_semana", "TEXT"); ("horario", "TEXT"); ("dirigente", "TEXT");
      ("data_criacao", "TEXT")]);
    ("designacoes",
     [("id", "INTEGER"); ("territorio_id", "INTEGER"); ("saida_campo_id", "INTEGER");
      ("data_designacao", "TEXT"); ("data_devolucao", "TEXT");
      ("responsavel", "TEXT"); ("status", "TEXT")]);
    ("atendimentos",
     [("id", "INTEGER"); ("imovel_id", "INTEGER"); ("unidade_id", "INTEGER");
      ("data", "TEXT"); ("resultado", "TEXT"); ("observacoes", "TEXT");
      ("data_registro", "TEXT")]);
    ("historico_predios_vilas",
     [("id", "INTEGER"); ("imovel_id", "INTEGER"); ("data", "TEXT");
      ("descricao", "TEXT"); ("data_registro", "TEXT")]);
    ("designacoes_predios_vilas",
     [("id", "INTEGER"); ("imovel_id", "INTEGER"); ("responsavel", "TEXT");
      ("saida_campo_id", "INTEGER"); ("data_designacao", "TEXT");
      ("data_devolucao", "TEXT"); ("status", "TEXT")]);
    ("usuarios",
     [("id", "INTEGER"); ("nome", "TEXT"); ("email", "TEXT");
      ("senha_hash", "TEXT"); ("nivel_permissao", "INTEGER");
      ("ativo", "INTEGER"); ("data_criacao", "TEXT")]);
    ("log_atividades",
     [("id", "INTEGER"); ("usuario_id", "INTEGER"); ("tipo_acao", "TEXT");
      ("descricao", "TEXT"); ("data_hora", "TEXT"); ("entidade", "TEXT");
      ("entidade_id", "INTEGER")]);
    ("notificacoes",
     [("id", "INTEGER"); ("usuario_id", "INTEGER"); ("tipo", "TEXT");
      ("titulo", "TEXT"); ("mensagem", "TEXT"); ("status", "TEXT");
      ("data_criacao", "TEXT"); ("data_leitura", "TEXT"); ("link", "TEXT");
      ("entidade", "TEXT"); ("entidade_id", "INTEGER")]);
    ("relatorios",
     [("id", "INTEGER"); ("nome", "TEXT"); ("tipo", "TEXT");
      ("filtros", "TEXT"); ("usuario_id", "INTEGER"); ("data_criacao", "TEXT");
      ("ultima_execucao", "TEXT")]) ]%string.

Definition indices_map : list (string * list string) :=
  [ ("usuarios", ["idx_usuarios_email"]);
    ("log_atividades", ["idx_log_usuario_id"; "idx_log_data_hora"]);
    ("notificacoes", ["idx_notificacoes_usuario_id"; "idx_notificacoes_status"]);
    ("ruas", ["idx_ruas_territorio_id"]);
    ("imoveis", ["idx_imoveis_rua_id"]);
    ("unidades", ["idx_unidades_imovel_id"]);
    ("designacoes", ["idx_designacoes_territorio_id"; "idx_designacoes_saida_campo_id"]);
    ("atendimentos", ["idx_atendimentos_imovel_id"]);
    ("historico_predios_vilas", ["idx_historico_imovel_id"]);
    ("designacoes_predios_vilas", ["idx_designacoes_predios_vilas_imovel_id"]);
    ("relatorios", ["idx_relatorios_usuario_id"; "idx_relatorios_tipo";
                    "idx_relatorios_ultima_execucao"]) ]%string.

(** [d.get(key, [])] *)
Definition dict_get {V} (d : list (string * list V)) (key : string) : list V :=
  match find (fun kv => (fst kv =? key)%string) d with
  | Some kv => snd kv
  | None => []
  end.

Definition _get_expected_indices (table_name : string) : list string :=
  dict_get indices_map table_name.

(** [set(a) - set(b)] and [set(a) & set(b)] over lists without repeats;
    the elements are kept in the order of [a] (Python leaves the order of
    a set open). *)
Definition set_minus (a b : list string) : list string :=
  filter (fun x => negb (Py.str_in x b)) a.

Definition set_inter (a b : list string) : list string :=
  filter (fun x => Py.str_in x b) a.

(** [str] of a list of strings, as the f-string prints it. *)
Definition repr_list (l : list string) : string :=
  ("[" ++ Py.join ", " (map (fun s => "'" ++ s ++ "'") l) ++ "]")%string.

Definition validate_schema (db : Schema) : bool * list string :=
  let expected_tables := _get_expected_tables in
  let existing_tables := _get_existing_tables db in
  let missing_tables := set_minus (map fst expected_tables) existing_tables in
  let problemas1 :=
    if Py.truthy_list missing_tables
    then [("Tabelas ausentes: " ++ Py.join ", " missing_tables)%string]
    else [] in
  let problemas2 :=
    flat_map
      (fun table_name =>
         let existing_columns := _get_table_columns db table_name in
         let expected_columns := dict_get expected_tables table_name in
         let expected_column_names := map fst expected_columns in
         let existing_column_names := map fst existing_columns in
         let missing_columns := set_minus expected_column_names existing_column_names in
         if Py.truthy_list missing_columns
         then [("Tabela '" ++ table_name ++ "': colunas ausentes: "
                  ++ Py.join ", " missing_columns)%string]
         else [])
      (set_inter (map fst expected_tables) existing_tables) in
  let problemas3 :=
    flat_map
      (fun table_name =>
         let expected_indices := _get_expected_indices table_name in
         let existing_indices := _get_table_indices db table_name in
         let missing_indices :=
           filter (fun idx => negb (Py.str_in idx existing_indices)) expected_indices in
         if Py.truthy_list missing_indices
         then [("Tabela '" ++ table_name ++ "': índices ausentes: "
                  ++ repr_list missing_indices)%string]
         else [])
      existing_tables in
  let problemas := problemas1 ++ problemas2 ++ problemas3 in
  ((List.length problemas =? 0)%nat, problemas).

(** What [cursor.execute(sql)] can do with a script. *)
Inductive exec_result : Type :=
| Executed (db' : Schema)
| SqliteError
| Raised (msg : string).

Section Scripts.

(** [open(file_path).read()] of a schema file by its name: the text, or
    the message of the exception. *)
Variable read_file : string -> string + string.

(** The engine on a script. *)
Variable sqlite_execute : string -> Schema -> exec_result.

(** [DatabaseManager.execute(query)]: a [sqlite3.Error] is printed and
    answered with [None]; any other exception passes through. *)
Definition execute (query : string) (db : Schema) : (string + option unit) * Schema :=
  match sqlite_execute query db with
  | Executed db' => (inr (Some tt), db')
  | SqliteError => (inr None, db)
  | Raised msg => (inl msg, db)
  end.

Definition schema_files : list string :=
  ["schema_base.sql"; "schema_usuarios.sql"; "schema_relatorios.sql"]%string.

Definition erro_ao_executar (schema_file msg : string) : string :=
  ("Erro ao executar " ++ schema_file ++ ": " ++ msg)%string.

Definition executado (schema_file : string) : string :=
  ("Executado arquivo de esquema: " ++ schema_file)%string.

(** The loop over the schema files: [inl acoes] when the [except]
    branch returned, [inr acoes] when the loop ran to its end.  The
    cursor of [execute] is dropped, as in the source. *)
Fixpoint executar_arquivos (files : list string) (db : Schema) (acoes : list string)
  : (list string + list string) * Schema :=
  match files with
  | [] => (inr acoes, db)
  | schema_file :: rest =>
      match read_file schema_file with
      | inl msg => (inl (acoes ++ [erro_ao_executar schema_file msg]), db)
      | inr schema_sql =>
          match execute schema_sql db with
          | (inl msg, db') => (inl (acoes ++ [erro_ao_executar schema_file msg]), db')
          | (inr _, db') => executar_arquivos rest db' (acoes ++ [executado schema_file])
          end
      end
  end.

Definition fix_schema_issues (db : Schema) : (bool * list string) * Schema :=
  let (is_valid, problemas) := validate_schema db in
  if is_valid
  then ((true, ["O esquema do banco de dados já está correto, nenhuma ação necessária."]%string),
        db)
  else
    match executar_arquivos schema_files db [] with
    | (inl acoes, db') => ((false, acoes), db')
    | (inr acoes, db') =>
        let (is_valid_now, problemas_restantes) := validate_schema db' in
        if is_valid_now
        then ((true,
               acoes ++ ["Todos os problemas de esquema foram corrigidos com sucesso."]%string),
              db')
        else ((false,
               acoes
               ++ ["Alguns problemas de esquema persistem após a tentativa de correção:"]%string
               ++ map (fun p => ("- " ++ p)%string) problemas_restantes),
              db')
    end.

End Scripts.

End SchemaValidator.

(** ** database/backup.py *)
Module Backup.

(** The two keys of [config['database']] the pruning reads with [.get]. *)
Record Config : Type := mkConfig {
  backup_retention_days : option Z;
  max_backup_files : option Z
}.

(** A directory entry: its name and its modification time in seconds. *)
Record File : Type := mkFile {
  filename : string;
  mtime : Z
}.

(** [os.listdir] order. *)
Definition Dir : Type := list File.

(** The file system the functions touch: the live database file (its
    modification time) and the backup directory, each absent when [None]. *)
Record FS : Type := mkFS {
  db_file : option Z;
  backup_dir : option Dir
}.

Definition is_backup (f : File) : bool :=
  Py.startswith "backup_" (filename f) && Py.endswith ".db" (filename f).

(** [os.remove(path)] inside its own [try]: a path that is not there
    raises, the [except] prints, and the directory is as before. *)
Definition remove (path : string) (d : Dir) : Dir :=
  filter (fun f => negb (filename f =? path)%string) d.

(** [shutil.copy2(src, dst)]: [dst] gets the content and the times of
    [src], in place when it exists. *)
Definition copy2 (src_mtime : Z) (dst : string) (d : Dir) : Dir :=
  if existsb (fun f => (filename f =? dst)%string) d
  then map (fun f => if (filename f =? dst)%string then mkFile dst src_mtime else f) d
  else d ++ [mkFile dst src_mtime].

(** [x or default] on an argument that may be [None] or [0]. *)
Definition or_config (arg : option Z) (configured : option Z) (default : Z) : Z :=
  if Py.truthy_int arg
  then match arg with Some v => v | None => default end
  else match configured with Some v => v | None => default end.

(** More recent first; equal times keep their order. *)
Definition newer_first (a b : File) : bool := mtime b <=? mtime a.

Definition clean_old_backups (config : Config) (now : Z) (backup_dir : option Dir)
           (max_days max_files : option Z) : option Dir :=
  let max_days := or_config max_days (backup_retention_days config) 30 in
  let max_files := or_config max_files (max_backup_files config) 10 in
  match backup_dir with
  | None => None
  | Some d =>
      let backups := filter is_backup d in
      let d1 :=
        if 0 <? max_days
        then
          let cutoff_time := now - max_days * 86400 in
          fold_left (fun acc f => if mtime f <? cutoff_time
                                  then remove (filename f) acc else acc)
                    backups d
        else d in
      let d2 :=
        if 0 <? max_files
        then
          let sorted := sort_by newer_first backups in
          fold_left (fun acc f => remove (filename f) acc)
                    (skipn (Z.to_nat max_files) sorted) d1
        else d1 in
      Some d2
  end.

(** [create_backup]: [timestamp] is [datetime.now()] as the file name
    carries it; [vacuum] is the time at which VACUUM rewrote the database
    file, or [None] when sqlite3 refused it (the backup goes on). *)
Definition create_backup (config : Config) (now : Z) (timestamp : string)
           (vacuum : option Z) (fs : FS) : option string * FS :=
  match db_file fs with
  | None => (None, fs)
  | Some m =>
      let d := match backup_dir fs with Some d => d | None => [] end in
      let backup_filename := ("backup_" ++ timestamp ++ ".db")%string in
      let m' := match vacuum with Some t => t | None => m end in
      let d' := copy2 m' backup_filename d in
      (Some backup_filename,
       mkFS (Some m') (clean_old_backups config now (Some d') None None))
  end.

End Backup.

(** ** Further operations of the models *)

(** [execute("DELETE ... WHERE id = ?")]: drops the rows with that id. *)
Definition delete_rows {A} (name : string) (table : Db -> option (list A))
           (put : Db -> option (list A) -> Db)
           (id : A -> option Z) (i : Z) : M (option unit) :=
  issue (DELETE name) ;;;
  fun db => match table db with
            | Some rows => (Some tt, put db (Some (filter (fun r => negb (id_is i (id r))) rows)))
            | None => (None, db)
            end.

(** The shape shared by every [delete] method. *)
Definition delete_by_id {A} (name : string) (table : Db -> option (list A))
           (put : Db -> option (list A) -> Db)
           (id : A -> option Z) (self_id : option Z) : M bool :=
  match self_id with
  | Some i =>
      cursor <- delete_rows name table put id i ;;
      match cursor with
      | Some _ => commit ;;; ret true
      | None => ret false
      end
  | None => ret false
  end.

(** The SELECT of [get_by_id] and the row it fetches, before an object is
    built from it ([Raises.Unidade_get_by_id] is the whole method). *)
Definition Unidade_get_by_id (unidade_id : Z) : M (option Unidade.t) :=
  cursor <- select "unidades" unidades (fun u => id_is unidade_id (Unidade.id u)) ;;
  ret (fetchone cursor).

Definition Unidade_delete (self : Unidade.t) : M bool :=
  delete_by_id "unidades" unidades set_unidades Unidade.id (Unidade.id self).

(** The SELECT of [get_by_id] and the row it fetches, before an object is
    built from it ([Raises.Usuario_get_by_id] is the whole method). *)
Definition Usuario_get_by_id (usuario_id : Z) : M (option Usuario.t) :=
  cursor <- select "usuarios" usuarios (fun u => id_is usuario_id (Usuario.id u)) ;;
  ret (fetchone cursor).

Definition Usuario_delete (self : Usuario.t) : M bool :=
  delete_by_id "usuarios" usuarios set_usuarios Usuario.id (Usuario.id self).

(** ** Integers handed to the engine *)

(** sqlite3 binds a Python [int] as a 64-bit INTEGER; on a larger one the
    driver raises OverflowError, which is no [sqlite3.Error] and passes
    through [execute].  The gateway of the model runs every statement, so
    what is proved of a statement that binds an integer attribute is
    stated for attributes within that range. *)
Definition int64 (z : Z) : Prop := - 2 ^ 63 <= z < 2 ^ 63.

Definition bindable (o : option Z) : Prop :=
  match o with
  | Some z => int64 z
  | None => True
  end.

(** ** The methods that build a model object *)

(** Every model class opens its [__init__] with [super().__init__(id)],
    and [BaseModel.__init__(self, **kwargs)] takes keyword arguments only:
    the call raises TypeError before an attribute is set, whatever the
    arguments.  No method catches it.  The definitions of the sections
    above stop short of that: a look-up there is the SELECT and the row it
    fetched, and the loop of [_criar_unidades] there takes the object as
    built.  The definitions of this module add the constructor as the
    sources have it, and so give what the method returns or raises. *)
Module Raises.

(** An exception that leaves the method. *)
Inductive uncaught : Type :=
| TypeError.

(** [BaseModel.__init__(self, **kwargs)] called with [positional]
    arguments after [self]. *)
Definition BaseModel___init__ (positional : nat) : uncaught + unit :=
  match positional with
  | O => inr tt
  | S _ => inl TypeError
  end.

(** [Unidade(id, imovel_id, numero, observacoes)] *)
Definition Unidade___init__ (id imovel_id : option Z) (numero : string)
           (observacoes : option string) : uncaught + Unidade.t :=
  match BaseModel___init__ 1 with
  | inl e => inl e
  | inr _ => inr (Unidade.mk id imovel_id numero observacoes)
  end.

Definition Unidade_from_db_row (row : Unidade.t) : uncaught + Unidade.t :=
  Unidade___init__ (Unidade.id row) (Unidade.imovel_id row) (Unidade.numero row)
                   (Unidade.observacoes row).

(** [Usuario(id, nome, email, senha_hash, nivel_permissao, ativo, data_criacao)] *)
Definition Usuario___init__ (id : option Z) (nome email : string)
           (senha_hash : option string) (nivel_permissao : option Z) (ativo : bool)
           (data_criacao : option string) : uncaught + Usuario.t :=
  match BaseModel___init__ 1 with
  | inl e => inl e
  | inr _ => inr (Usuario.mk id nome email senha_hash nivel_permissao ativo data_criacao)
  end.

Definition Usuario_from_db_row (row : Usuario.t) : uncaught + Usuario.t :=
  Usuario___init__ (Usuario.id row) (Usuario.nome row) (Usuario.email row)
                   (Usuario.senha_hash row) (Usuario.nivel_permissao row)
                   (Usuario.ativo row) (Usuario.data_criacao row).

(** [if row: return X.from_db_row(row)] and [return None] after it. *)
Definition found {A} (from_db_row : A -> uncaught + A) (row : option A)
  : uncaught + option A :=
  match row with
  | Some r =>
      match from_db_row r with
      | inl e => inl e
      | inr object => inr (Some object)
      end
  | None => inr None
  end.

(** [[X.from_db_row(row) for row in rows]] *)
Fixpoint each {A} (from_db_row : A -> uncaught + A) (rows : list A)
  : uncaught + list A :=
  match rows with
  | [] => inr []
  | r :: rest =>
      match from_db_row r with
      | inl e => inl e
      | inr object =>
          match each from_db_row rest with
          | inl e => inl e
          | inr objects => inr (object :: objects)
          end
      end
  end.

(** *** models/imovel/unidade.py *)

Definition Unidade_get_by_id (unidade_id : Z) : M (uncaught + option Unidade.t) :=
  cursor <- select "unidades" unidades (fun u => id_is unidade_id (Unidade.id u)) ;;
  ret (found Unidade_from_db_row (fetchone cursor)).

Definition Unidade_get_by_imovel (imovel_id : Z) : M (uncaught + list Unidade.t) :=
  cursor <- select "unidades" unidades (fun u => id_is imovel_id (Unidade.imovel_id u)) ;;
  ret (each Unidade_from_db_row
            (sort_by (fun a b => String.leb (Unidade.numero a) (Unidade.numero b))
                     (fetchall cursor))).

(** *** models/imovel/imovel.py *)

(** One of the two loops of [_criar_unidades]: the unit of each [i] is
    built, then saved, its result dropped. *)
Fixpoint criar_numeradas (prefixo : string) (imovel_id : option Z) (range : list nat)
  : M (uncaught + unit) :=
  match range with
  | [] => ret (inr tt)
  | i :: rest =>
      match Unidade___init__ None imovel_id (prefixo ++ Py.fmt_02d i)%string None with
      | inl e => ret (inl e)
      | inr unidade =>
          Unidade_save unidade ;;;
          criar_numeradas prefixo imovel_id rest
      end
  end.

(** [None]: [range(1, None + 1)] raises TypeError. *)
Definition Imovel__criar_unidades (self : Imovel.t) : M (uncaught + bool) :=
  match Imovel.total_unidades self with
  | None => ret (inl TypeError)
  | Some n =>
      let range := seq 1 (Z.to_nat n) in
      r <- (if (Imovel.tipo self =? "predio")%string
            then criar_numeradas "Apto " (Imovel.id self) range
            else criar_numeradas "Casa " (Imovel.id self) range) ;;
      ret (match r with
           | inl e => inl e
           | inr _ => inr true
           end)
  end.

(** [save]: what it returns or raises, and the object after the call
    ([self.id] is assigned before the units are created). *)
Definition Imovel_save (self : Imovel.t) : M ((uncaught + bool) * Imovel.t) :=
  if Py.truthy_list (Imovel.validate self) then ret (inr false, self)
  else
    match Imovel.id self with
    | None =>
        cursor <- insert "imoveis" imoveis set_imoveis Imovel.id
                         (fun i => Imovel.with_id self (Some i)) ;;
        match cursor with
        | Some i =>
            let self' := Imovel.with_id self (Some i) in
            commit ;;;
            if gera_unidades self'
            then
              r <- Imovel__criar_unidades self' ;;
              ret (match r with
                   | inl e => inl e
                   | inr _ => inr true
                   end, self')
            else ret (inr true, self')
        | None => ret (inr false, self)
        end
    | Some i =>
        cursor <- update "imoveis" imoveis set_imoveis Imovel.id i (fun _ => self) ;;
        match cursor with
        | Some _ => commit ;;; ret (inr true, self)
        | None => ret (inr false, self)
        end
    end.

(** *** models/usuario/usuario.py *)

Definition Usuario_get_by_id (usuario_id : Z) : M (uncaught + option Usuario.t) :=
  cursor <- select "usuarios" usuarios (fun u => id_is usuario_id (Usuario.id u)) ;;
  ret (found Usuario_from_db_row (fetchone cursor)).

Definition Usuario_get_by_email (email : string) : M (uncaught + option Usuario.t) :=
  cursor <- select "usuarios" usuarios (fun u => (Usuario.email u =? email)%string) ;;
  ret (found Usuario_from_db_row (fetchone cursor)).

(** [verificar_credenciais]; an object is true ([BaseModel] defines neither
    [__bool__] nor [__len__]). *)
Definition Usuario_verificar_credenciais
           (pbkdf2_hmac_sha256 : bytes -> bytes -> Z -> bytes)
           (email senha : string) : M (uncaught + option Usuario.t) :=
  usuario <- Usuario_get_by_email email ;;
  ret (match usuario with
       | inl e => inl e
       | inr (Some u) =>
           if Usuario_verificar_senha pbkdf2_hmac_sha256 u senha && Usuario.ativo u
           then inr (Some u) else inr None
       | inr None => inr None
       end).

Definition Usuario_save (self : Usuario.t) : M ((uncaught + bool) * Usuario.t) :=
  if Py.truthy_list (Usuario.validate self) then ret (inr false, self)
  else
    match Usuario.id self with
    | None =>
        existing <- Usuario_get_by_email (Usuario.email self) ;;
        match existing with
        | inl e => ret (inl e, self)
        | inr (Some _) => ret (inr false, self)
        | inr None =>
            cursor <- insert "usuarios" usuarios set_usuarios Usuario.id
                             (fun i => usuario_row self i None) ;;
            match cursor with
            | Some i => commit ;;; ret (inr true, Usuario.with_id self (Some i))
            | None => ret (inr false, self)
            end
        end
    | Some i =>
        existing <- Usuario_get_by_email (Usuario.email self) ;;
        match existing with
        | inl e => ret (inl e, self)
        | inr existing =>
            if match existing with
               | Some e => negb (id_is i (Usuario.id e))
               | None => false
               end
            then ret (inr false, self)
            else
              cursor <- update "usuarios" usuarios set_usuarios Usuario.id i
                               (fun r => usuario_row self i (Usuario.data_criacao r)) ;;
              match cursor with
              | Some _ => commit ;;; ret (inr true, self)
              | None => ret (inr false, self)
              end
        end
    end.

End Raises.

(** ** Further operations of the backup module *)

Module Restore.

(** [restore_backup] copies whole files between paths, so here a file is
    its path and its content. Paths are compared as strings; the binding
    nearest the head of the list is the file at that path. Failures of the
    operating system other than the two below (permissions, a full disk)
    are not modelled. *)
Section Files.
Variable Content : Type.

Definition Files : Type := list (string * Content).

Fixpoint read (path : string) (fs : Files) : option Content :=
  match fs with
  | [] => None
  | (p, c) :: rest => if (p =? path)%string then Some c else read path rest
  end.

(** [os.path.exists(path)] *)
Definition path_exists (path : string) (fs : Files) : bool :=
  match read path fs with Some _ => true | None => false end.

(** [shutil.copy2(src, dst)]: raises [SameFileError] when [src] and [dst]
    are the same file and [FileNotFoundError] when [src] is not there
    ([None]); otherwise [dst] has the content of [src]. *)
Definition copy2 (src dst : string) (fs : Files) : option Files :=
  if (src =? dst)%string then None
  else match read src fs with
       | Some c => Some ((dst, c) :: fs)
       | None => None
       end.

(** The [except] branch: put the safety copy back when there is one; a
    failure of that copy is printed and swallowed. *)
Definition recover (temp_backup db_path : string) (fs : Files) : Files :=
  if path_exists temp_backup fs
  then match copy2 temp_backup db_path fs with
       | Some fs' => fs'
       | None => fs
       end
  else fs.

(** [restore_backup(backup_path, db_path)], with [timestamp] the value of
    [datetime.now().strftime(...)] and [db_path] already resolved. *)
Definition restore_backup (timestamp backup_path db_path : string) (fs : Files)
  : bool * Files :=
  if negb (path_exists backup_path fs) then (false, fs)
  else
    let temp_backup := (db_path ++ ".before_restore_" ++ timestamp)%string in
    let saved := if path_exists db_path fs
                 then copy2 db_path temp_backup fs
                 else Some fs in
    match saved with
    | Some fs1 =>
        match copy2 backup_path db_path fs1 with
        | Some fs2 => (true, fs2)
        | None => (false, recover temp_backup db_path fs1)
        end
    | None => (false, recover temp_backup db_path fs)
    end.

End Files.
End Restore.

(** [list_backups]: of the dictionary built for each backup file the model
    keeps the name, the time stamp read off the name and the modification
    time ([path], [size] and [size_readable] are left out). Slicing a
    string never raises, so the time stamp always comes from the name.
    The slices count bytes, which are the characters of an ASCII name. *)
Record BackupInfo : Type := mkBackupInfo {
  info_filename : string;
  info_timestamp : string;
  info_mtime : Z
}.

(** [s[i:j]] and [s[i:]] for indices that are not negative. *)
Definition slice (i j : nat) (s : string) : string := String.substring i (j - i) s.

Definition slice_from (i : nat) (s : string) : string :=
  String.substring i (String.length s) s.

Definition timestamp_from_name (filename : string) : string :=
  let date_str := slice 7 15 filename in
  let time_str := slice 16 22 filename in
  (slice 0 4 date_str ++ "-" ++ slice 4 6 date_str ++ "-" ++ slice_from 6 date_str
   ++ " " ++ slice 0 2 time_str ++ ":" ++ slice 2 4 time_str ++ ":"
   ++ slice_from 4 time_str)%string.

Definition backup_info (f : Backup.File) : BackupInfo :=
  mkBackupInfo (Backup.filename f) (timestamp_from_name (Backup.filename f))
               (Backup.mtime f).

Definition newer_info_first (a b : BackupInfo) : bool := info_mtime b <=? info_mtime a.

Definition list_backups (backup_dir : option Backup.Dir) : list BackupInfo :=
  match backup_dir with
  | None => []
  | Some d => sort_by newer_info_first (map backup_info (filter Backup.is_backup d))
  end.

(** [os.remove] can fail (the entry is a directory, the file is in use,
    the permission is missing).  Each call of [clean_old_backups] sits in
    its own [try], so the failure is printed, the entry stays and the loop
    goes on.  [can_remove] says of a name whether [os.remove] succeeds on
    it; [Backup.clean_old_backups] is the case in which it always does. *)
Module Os.
Section Remove.
Variable can_remove : string -> bool.

Definition remove (path : string) (d : Backup.Dir) : Backup.Dir :=
  if can_remove path then Backup.remove path d else d.

Definition clean_old_backups (config : Backup.Config) (now : Z)
           (backup_dir : option Backup.Dir) (max_days max_files : option Z)
  : option Backup.Dir :=
  let max_days := Backup.or_config max_days (Backup.backup_retention_days config) 30 in
  let max_files := Backup.or_config max_files (Backup.max_backup_files config) 10 in
  match backup_dir with
  | None => None
  | Some d =>
      let backups := filter Backup.is_backup d in
      let d1 :=
        if 0 <? max_days
        then
          let cutoff_time := now - max_days * 86400 in
          fold_left (fun acc f => if Backup.mtime f <? cutoff_time
                                  then remove (Backup.filename f) acc else acc)
                    backups d
        else d in
      let d2 :=
        if 0 <? max_files
        then
          let sorted := sort_by Backup.newer_first backups in
          fold_left (fun acc f => remove (Backup.filename f) acc)
                    (skipn (Z.to_nat max_files) sorted) d1
        else d1 in
      Some d2
  end.

End Remove.
End Os.

(** ** The order of a Python set *)

(** [validate_schema] joins the elements of a set into its messages and
    loops over a set, and Python leaves the order of a set open.
    [iter_set] gives the order in which a set with these elements is
    gone through: some arrangement of them.
    [SchemaValidator.validate_schema] is the case of the manifest order. *)
Module SetOrder.
Import SchemaValidator.
Section Order.
Variable iter_set : list string -> list string.

Definition validate_schema (db : Schema) : bool * list string :=
  let expected_tables := _get_expected_tables in
  let existing_tables := _get_existing_tables db in
  let missing_tables := set_minus (map fst expected_tables) existing_tables in
  let problemas1 :=
    if Py.truthy_list missing_tables
    then [("Tabelas ausentes: " ++ Py.join ", " (iter_set missing_tables))%string]
    else [] in
  let problemas2 :=
    flat_map
      (fun table_name =>
         let existing_columns := _get_table_columns db table_name in
         let expected_columns := dict_get expected_tables table_name in
         let expected_column_names := map fst expected_columns in
         let existing_column_names := map fst existing_columns in
         let missing_columns := set_minus expected_column_names existing_column_names in
         if Py.truthy_list missing_columns
         then [("Tabela '" ++ table_name ++ "': colunas ausentes: "
                  ++ Py.join ", " (iter_set missing_columns))%string]
         else [])
      (iter_set (set_inter (map fst expected_tables) existing_tables)) in
  let problemas3 :=
    flat_map
      (fun table_name =>
         let expected_indices := _get_expected_indices table_name in
         let existing_indices := _get_table_indices db table_name in
         let missing_indices :=
           filter (fun idx => negb (Py.str_in idx existing_indices)) expected_indices in
         if Py.truthy_list missing_indices
         then [("Tabela '" ++ table_name ++ "': índices ausentes: "
                  ++ repr_list missing_indices)%string]
         else [])
      existing_tables in
  let problemas := problemas1 ++ problemas2 ++ problemas3 in
  ((List.length problemas =? 0)%nat, problemas).

End Order.
End SetOrder.

(** ** Paths that lead to one file *)

(** Two paths may lead to one file: another spelling of the path, a
    symbolic link, a hard link.  [shutil.copy2] raises [SameFileError] on
    such a pair, and what is written through one path is read through the
    other.  [file_of] gives the file a path leads to, and the files are
    kept by that; [Restore] is the case in which every path is a file of
    its own. *)
Module SameFile.
Section Paths.
Variable Content : Type.
Variable file_of : string -> string.

Definition Files : Type := list (string * Content).

Definition read (path : string) (fs : Files) : option Content :=
  Restore.read (file_of path) fs.

Definition path_exists (path : string) (fs : Files) : bool :=
  match read path fs with Some _ => true | None => false end.

Definition copy2 (src dst : string) (fs : Files) : option Files :=
  if (file_of src =? file_of dst)%string then None
  else match read src fs with
       | Some c => Some ((file_of dst, c) :: fs)
       | None => None
       end.

Definition recover (temp_backup db_path : string) (fs : Files) : Files :=
  if path_exists temp_backup fs
  then match copy2 temp_backup db_path fs with
       | Some fs' => fs'
       | None => fs
       end
  else fs.

Definition restore_backup (timestamp backup_path db_path : string) (fs : Files)
  : bool * Files :=
  if negb (path_exists backup_path fs) then (false, fs)
  else
    let temp_backup := (db_path ++ ".before_restore_" ++ timestamp)%string in
    let saved := if path_exists db_path fs
                 then copy2 db_path temp_backup fs
                 else Some fs in
    match saved with
    | Some fs1 =>
        match copy2 backup_path db_path fs1 with
        | Some fs2 => (true, fs2)
        | None => (false, recover temp_backup db_path fs1)
        end
    | None => (false, recover temp_backup db_path fs)
    end.

End Paths.
End SameFile.

(** * Properties *)

Import SchemaValidator.
Import Backup.

(** ** Helper facts about the gateway and the sort *)

Lemma filter_none {A} (f : A -> bool) (l : list A) :
  (forall x, In x l -> f x = false) -> filter f l = [].
Proof.
  induction l as [|a l IH]; intros H; simpl; [reflexivity|].
  rewrite (H a (or_introl eq_refl)). apply IH. intros x Hx. apply H. now right.
Qed.

Lemma filter_all {A} (f : A -> bool) (l : list A) :
  (forall x, In x l -> f x = true) -> filter f l = l.
Proof.
  induction l as [|a l IH]; intros H; simpl; [reflexivity|].
  rewrite (H a (or_introl eq_refl)). f_equal. apply IH. intros x Hx. apply H. now right.
Qed.

Lemma id_is_true (i : Z) (o : option Z) : id_is i o = true <-> o = Some i.
Proof.
  destruct o as [j|]; simpl; split; intros H; try discriminate.
  - apply Z.eqb_eq in H. now subst.
  - injection H as ->. apply Z.eqb_refl.
Qed.

Lemma id_is_false (i : Z) (o : option Z) : o <> Some i -> id_is i o = false.
Proof.
  intros H. destruct (id_is i o) eqn:E; [|reflexivity].
  apply id_is_true in E. contradiction.
Qed.

Lemma lastrowid_above {A} (id : A -> option Z) (rows : list A) (r : A) (j : Z) :
  In r rows -> id r = Some j -> j < lastrowid id rows.
Proof.
  unfold lastrowid. induction rows as [|a l IH]; intros Hin Hj; [contradiction|].
  cbn [fold_right map]. destruct Hin as [->|Hin].
  - rewrite Hj. lia.
  - specialize (IH Hin Hj). lia.
Qed.

Lemma NoDup_snoc {A} (l : list A) (x : A) :
  NoDup l -> ~ In x l -> NoDup (l ++ [x]).
Proof.
  induction l as [|a l IH]; intros Hnd Hx; simpl.
  - constructor; [intros []|constructor].
  - apply NoDup_cons_iff in Hnd. destruct Hnd as [Ha Hnd].
    constructor.
    + intros Hin. apply in_app_or in Hin. destruct Hin as [Hin|[->|[]]].
      * contradiction.
      * apply Hx. now left.
    + apply IH; [exact Hnd|]. intros Hin. apply Hx. now right.
Qed.

Lemma lastrowid_not_in {A} (id : A -> option Z) (rows : list A) :
  ~ In (Some (lastrowid id rows)) (map id rows).
Proof.
  intros Hin. apply in_map_iff in Hin. destruct Hin as [r [Hr Hin]].
  pose proof (lastrowid_above id rows r Hin Hr). lia.
Qed.

Lemma fetchone_filter_none {A} (f : A -> bool) (rows : list A) :
  fetchone (Some (filter f rows)) = None -> forall r, In r rows -> f r = false.
Proof.
  intros H r Hr. destruct (f r) eqn:E; [|reflexivity].
  assert (Hin : In r (filter f rows)) by (apply filter_In; now split).
  simpl in H. destruct (filter f rows); [contradiction|discriminate].
Qed.

Lemma NoDup_map_inj {A B} (f : A -> B) (l : list A) (a b : A) :
  NoDup (map f l) -> In a l -> In b l -> f a = f b -> a = b.
Proof.
  induction l as [|x l IH]; intros Hnd Ha Hb Hf; [contradiction|].
  simpl in Hnd. apply NoDup_cons_iff in Hnd. destruct Hnd as [Hx Hnd].
  destruct Ha as [->|Ha], Hb as [->|Hb]; auto.
  - exfalso. apply Hx. rewrite Hf. now apply in_map.
  - exfalso. apply Hx. rewrite <- Hf. now apply in_map.
Qed.

Lemma str_in_In (x : string) (l : list string) : Py.str_in x l = true <-> In x l.
Proof.
  unfold Py.str_in. rewrite existsb_exists. split.
  - intros [y [Hy E]]. apply String.eqb_eq in E. now subst.
  - intros H. exists x. split; [exact H | apply String.eqb_refl].
Qed.

(** ** C1: saving a building raises before a unit is created *)

Definition empty_db : Db :=
  mkDb (Some []) (Some []) (Some []) (Some []) (Some []) (Some []) (Some []) [].

Definition predio5 : Imovel.t :=
  Imovel.mk None (Some 1) "127" "predio" (Some "Edificio Central"%string) (Some 5)
            None None None.

(** The loops of [_criar_unidades] stop at the first unit: [Unidade(...)]
    raises before anything is handed to the gateway. *)
Lemma criar_numeradas_raises (prefixo : string) (imovel_id : option Z)
      (i : nat) (rest : list nat) (db : Db) :
  Raises.criar_numeradas prefixo imovel_id (i :: rest) db = (inl Raises.TypeError, db).
Proof. reflexivity. Qed.

Lemma criar_unidades_raises (self : Imovel.t) (n : Z) (db : Db) :
  Imovel.total_unidades self = Some n -> 0 < n ->
  Raises.Imovel__criar_unidades self db = (inl Raises.TypeError, db).
Proof.
  intros Htot Hn. unfold Raises.Imovel__criar_unidades. rewrite Htot.
  destruct (Z.to_nat n) as [|k] eqn:Ek; [lia|].
  cbn [seq]. unfold bind.
  destruct (Imovel.tipo self =? "predio")%string;
    rewrite criar_numeradas_raises; reflexivity.
Qed.

(** C1 (code bug): for every newly saved Property (id unset) of kind
    "predio" with a positive total-unit-count (5 in the claim) that passes
    validation (its integers within the 64 bits of the engine), with the
    property table in place, save does not return:
    it raises TypeError, from the constructor of the first Unit.  By then
    the Property has been inserted and committed under a new id, which the
    object carries; no Unit row has been created, the INSERT of the
    Property is the only statement handed to the gateway, and
    get_by_imovel on the new id returns the empty list (unless older rows
    carry that id, on which it raises as well). *)
Theorem C1_predio_save_raises_without_units :
  forall (self : Imovel.t) (db : Db) (rows : list Imovel.t) (n : Z),
    Imovel.id self = None ->
    Imovel.tipo self = "predio"%string ->
    Imovel.total_unidades self = Some n ->
    0 < n ->
    int64 n ->
    bindable (Imovel.rua_id self) ->
    Imovel.validate self = [] ->
    imoveis db = Some rows ->
    exists i : Z,
      ~ In (Some i) (map Imovel.id rows)
      /\ fst (Raises.Imovel_save self db)
         = (inl Raises.TypeError, Imovel.with_id self (Some i))
      /\ imoveis (snd (Raises.Imovel_save self db))
         = Some (rows ++ [Imovel.with_id self (Some i)])
      /\ unidades (snd (Raises.Imovel_save self db)) = unidades db
      /\ issued (snd (Raises.Imovel_save self db)) = issued db ++ [INSERT "imoveis"]
      /\ forall urows : list Unidade.t,
           unidades db = Some urows ->
           (fst (Raises.Unidade_get_by_imovel i (snd (Raises.Imovel_save self db))) = inr []
            <-> forall u, In u urows -> Unidade.imovel_id u <> Some i).
Proof.
  intros self db rows n Hid Htipo Htot Hn _ _ Hval Himo.
  exists (lastrowid Imovel.id rows). split; [apply lastrowid_not_in|].
  set (i := lastrowid Imovel.id rows).
  assert (Hgera : gera_unidades (Imovel.with_id self (Some i)) = true).
  { unfold gera_unidades. cbn [Imovel.with_id Imovel.tipo Imovel.total_unidades].
    rewrite Htipo, Htot. cbn [Py.truthy_int].
    assert (E1 : (n =? 0) = false) by (apply Z.eqb_neq; lia).
    assert (E2 : (0 <? n) = true) by (apply Z.ltb_lt; lia).
    rewrite E1, E2. reflexivity. }
  assert (Hsave :
            Raises.Imovel_save self db
            = ((inl Raises.TypeError, Imovel.with_id self (Some i)),
               set_imoveis (set_issued db (issued db ++ [INSERT "imoveis"]))
                           (Some (rows ++ [Imovel.with_id self (Some i)])))).
  { unfold Raises.Imovel_save. rewrite Hval, Hid. cbn [Py.truthy_list].
    unfold bind at 1. unfold insert, bind, issue. cbn [imoveis set_issued].
    rewrite Himo. fold i. unfold commit, ret. rewrite Hgera.
    rewrite (@criar_unidades_raises (Imovel.with_id self (Some i)) n); [reflexivity| |exact Hn].
    exact Htot. }
  rewrite Hsave. cbn [fst snd].
  split; [reflexivity|]. split; [reflexivity|]. split; [reflexivity|].
  split; [reflexivity|].
  intros urows Hu. unfold Raises.Unidade_get_by_imovel, select, bind, issue, ret.
  cbn [fst snd unidades set_imoveis set_issued]. rewrite Hu. cbn [fetchall].
  split.
  - intros Hres u Hin Hu_id.
    assert (Hf : In u (filter (fun u0 => id_is i (Unidade.imovel_id u0)) urows))
      by (apply filter_In; split; [exact Hin|now apply id_is_true]).
    destruct (filter (fun u0 => id_is i (Unidade.imovel_id u0)) urows) as [|a l];
      [contradiction|].
    cbn [sort_by fold_right] in Hres.
    destruct (fold_right _ _ l) as [|b l']; simpl in Hres; [discriminate Hres|].
    destruct (String.leb (Unidade.numero a) (Unidade.numero b)); discriminate Hres.
  - intros Hnone. rewrite filter_none; [reflexivity|].
    intros u Hin. apply id_is_false. now apply Hnone.
Qed.

Lemma C1_predio_save_raises_witness :
  exists i : Z,
    fst (Raises.Imovel_save predio5 empty_db)
    = (inl Raises.TypeError, Imovel.with_id predio5 (Some i))
    /\ imoveis (snd (Raises.Imovel_save predio5 empty_db))
       = Some [Imovel.with_id predio5 (Some i)]
    /\ unidades (snd (Raises.Imovel_save predio5 empty_db)) = Some [].
Proof.
  assert (H5 : int64 5) by (unfold int64; lia).
  assert (H1 : bindable (Imovel.rua_id predio5)) by (simpl; unfold int64; lia).
  destruct (@C1_predio_save_raises_without_units predio5 empty_db [] 5
              eq_refl eq_refl eq_refl eq_refl H5 H1 eq_refl eq_refl)
    as [i [_ [Ha [Hb [Hc _]]]]].
  exists i. split; [exact Ha|]. split; [exact Hb|exact Hc].
Defined.

(** ** C2: a failed validation leaves the store alone *)

(** The four entities of the claim behind one interface. *)
Inductive Model : Type :=
| AnImovel (x : Imovel.t)
| AnUsuario (x : Usuario.t)
| AnAtendimento (x : Atendimento.t)
| ADesignacao (x : Designacao.t).

Definition Model_validate (e : Model) : list string :=
  match e with
  | AnImovel x => Imovel.validate x
  | AnUsuario x => Usuario.validate x
  | AnAtendimento x => Atendimento.validate x
  | ADesignacao x => Designacao.validate x
  end.

Definition lift_save {A} (wrap : A -> Model) (c : M (bool * A)) : M (bool * Model) :=
  r <- c ;; ret (fst r, wrap (snd r)).

Definition Model_save (e : Model) : M (bool * Model) :=
  match e with
  | AnImovel x => lift_save AnImovel (Imovel_save x)
  | AnUsuario x => lift_save AnUsuario (Usuario_save x)
  | AnAtendimento x => lift_save AnAtendimento (Atendimento_save x)
  | ADesignacao x => lift_save ADesignacao (Designacao_save x)
  end.

Lemma truthy_list_nonempty {A} (l : list A) : l <> [] -> Py.truthy_list l = true.
Proof. destruct l; [contradiction|reflexivity]. Qed.

(** C2: for every entity (Property, User, ServiceRecord, Assignment) whose
    validate() gives a non-empty list of messages, save returns false and
    the store afterwards is the store before: no table changed and no
    statement (so no INSERT and no UPDATE) was handed to the gateway. *)
Theorem C2_invalid_entity_is_not_saved :
  forall (e : Model) (db : Db),
    Model_validate e <> [] ->
    Model_save e db = ((false, e), db).
Proof.
  intros e db H.
  destruct e as [x|x|x|x]; simpl in H |- *;
    unfold lift_save, bind;
    [ unfold Imovel_save | unfold Usuario_save
    | unfold Atendimento_save | unfold Designacao_save ];
    rewrite (truthy_list_nonempty H); reflexivity.
Qed.

Definition usuario_sem_nome : Usuario.t :=
  Usuario.mk None "" "ana@example.org" (Some "00:00"%string) (Some 1) true None.

Lemma C2_invalid_entity_witness :
  Model_validate (AnUsuario usuario_sem_nome) <> []
  /\ Model_save (AnUsuario usuario_sem_nome) empty_db
     = ((false, AnUsuario usuario_sem_nome), empty_db).
Proof.
  assert (H : Model_validate (AnUsuario usuario_sem_nome) <> []) by (vm_compute; discriminate).
  split; [exact H|].
  exact (C2_invalid_entity_is_not_saved (AnUsuario usuario_sem_nome) empty_db H).
Defined.

(** ** The stored format [salt_hex:hash_hex] *)

(** A hex field as [bytes.fromhex] reads it: runs of two hex digits, white
    space allowed before each pair and at the end. *)
Inductive hex_field : string -> Prop :=
| hex_end : hex_field EmptyString
| hex_space (c : ascii) (s : string) :
    Py.isspace c = true -> hex_field s -> hex_field (String c s)
| hex_pair (c d : ascii) (s : string) :
    is_hex c = true -> is_hex d = true -> hex_field s ->
    hex_field (String c (String d s)).

(** The stored value has the format: two hex fields around one colon. *)
Definition bem_formado (stored : option string) : Prop :=
  exists salt_str hash_str,
    stored = Some (salt_str ++ ":" ++ hash_str)%string
    /\ hex_field salt_str /\ hex_field hash_str.

Lemma is_hex_not_space (c : ascii) : is_hex c = true -> Py.isspace c = false.
Proof.
  destruct c as [[] [] [] [] [] [] [] []]; vm_compute; intros H;
    first [reflexivity | discriminate H].
Qed.

Lemma fromhex_hex_field (n : nat) :
  forall s bs, (String.length s <= n)%nat -> fromhex s = Some bs -> hex_field s.
Proof.
  induction n as [|n IH]; intros s bs Hlen H.
  - destruct s; [constructor | simpl in Hlen; lia].
  - destruct s as [|c s]; [constructor|].
    simpl in H, Hlen. destruct (Py.isspace c) eqn:Ec.
    + apply hex_space; [exact Ec|]. apply (IH s bs); [lia | exact H].
    + destruct (hexval c) as [hi|] eqn:Eh; [|discriminate].
      destruct s as [|d s]; [discriminate|].
      destruct (hexval d) as [lo|] eqn:El; [|discriminate].
      destruct (fromhex s) as [bs'|] eqn:Er; [|discriminate].
      apply hex_pair.
      * unfold is_hex. now rewrite Eh.
      * unfold is_hex. now rewrite El.
      * apply (IH s bs'); [simpl in Hlen; lia | exact Er].
Qed.

Lemma hex_field_fromhex (s : string) :
  hex_field s -> exists bs, fromhex s = Some bs.
Proof.
  induction 1 as [|c s Hc _ [bs IH]|c d s Hc Hd _ [bs IH]].
  - now exists EmptyString.
  - exists bs. simpl. now rewrite Hc.
  - unfold is_hex in Hc, Hd.
    destruct (hexval c) as [hi|] eqn:Eh; [|discriminate].
    destruct (hexval d) as [lo|] eqn:El; [|discriminate].
    exists (String (ascii_of_N (16 * hi + lo)) bs).
    simpl. rewrite is_hex_not_space by (unfold is_hex; now rewrite Eh).
    now rewrite Eh, El, IH.
Qed.

Lemma hex_field_no_colon (s : string) :
  hex_field s -> Py.contains_char ":"%char s = false.
Proof.
  assert (Hsp : forall c, Py.isspace c = true -> Ascii.eqb ":"%char c = false).
  { intros c Hc. destruct (Ascii.eqb ":"%char c) eqn:E; [|reflexivity].
    apply Ascii.eqb_eq in E. subst c. discriminate Hc. }
  assert (Hhx : forall c, is_hex c = true -> Ascii.eqb ":"%char c = false).
  { intros c Hc. destruct (Ascii.eqb ":"%char c) eqn:E; [|reflexivity].
    apply Ascii.eqb_eq in E. subst c. discriminate Hc. }
  induction 1 as [|c s Hc _ IH|c d s Hc Hd _ IH]; cbn [Py.contains_char].
  - reflexivity.
  - now rewrite (Hsp c Hc).
  - now rewrite (Hhx c Hc), (Hhx d Hd).
Qed.

(** [split] and [join] are inverse, and no part holds the separator. *)
Lemma split_on_nonempty (sep : ascii) (s : string) : split_on sep s <> [].
Proof.
  destruct s as [|c s]; simpl; [discriminate|].
  destruct (Ascii.eqb c sep); [discriminate|].
  destruct (split_on sep s); discriminate.
Qed.

Lemma split_on_join (sep : ascii) (s : string) :
  Py.join (String sep EmptyString) (split_on sep s) = s.
Proof.
  unfold Py.join. induction s as [|c s IH]; [reflexivity|].
  simpl. destruct (Ascii.eqb c sep) eqn:E.
  - apply Ascii.eqb_eq in E. subst c.
    destruct (split_on sep s) as [|p ps] eqn:Es.
    + now apply split_on_nonempty in Es.
    + simpl. simpl in IH. now rewrite IH.
  - destruct (split_on sep s) as [|p ps] eqn:Es.
    + now apply split_on_nonempty in Es.
    + destruct ps as [|q qs]; simpl in IH |- *; now rewrite IH.
Qed.

Lemma split_on_parts (sep : ascii) (s : string) :
  Forall (fun p => Py.contains_char sep p = false) (split_on sep s).
Proof.
  induction s as [|c s IH]; simpl; [repeat constructor|].
  destruct (Ascii.eqb c sep) eqn:E.
  - constructor; [reflexivity | exact IH].
  - destruct (split_on sep s) as [|p ps]; [repeat constructor|].
    + simpl. rewrite Ascii.eqb_sym. now rewrite E.
    + inversion IH as [|? ? Hp Hps]; subst. constructor; [|exact Hps].
      simpl. rewrite Ascii.eqb_sym. now rewrite E, Hp.
Qed.

Lemma split_on_free (sep : ascii) (s : string) :
  Py.contains_char sep s = false -> split_on sep s = [s].
Proof.
  induction s as [|c s IH]; simpl; [reflexivity|].
  intros H. apply orb_false_iff in H. destruct H as [Hc Hs].
  rewrite Ascii.eqb_sym, Hc. now rewrite (IH Hs).
Qed.

Lemma split_on_app (sep : ascii) (a b : string) :
  Py.contains_char sep a = false ->
  split_on sep (a ++ String sep b)%string = a :: split_on sep b.
Proof.
  induction a as [|c a IH]; simpl; intros H.
  - now rewrite Ascii.eqb_refl.
  - apply orb_false_iff in H. destruct H as [Hc Ha].
    rewrite Ascii.eqb_sym, Hc. now rewrite (IH Ha).
Qed.

Lemma split_two (a b : string) :
  Py.contains_char ":"%char a = false -> Py.contains_char ":"%char b = false ->
  split_on ":"%char (a ++ ":" ++ b)%string = [a; b].
Proof.
  intros Ha Hb. change (a ++ ":" ++ b)%string with (a ++ String ":"%char b)%string.
  rewrite split_on_app by exact Ha. now rewrite split_on_free.
Qed.

Lemma split_two_inv (s a b : string) :
  split_on ":"%char s = [a; b] -> s = (a ++ ":" ++ b)%string.
Proof.
  intros H. rewrite <- (split_on_join ":"%char s) at 1. now rewrite H.
Qed.

Lemma hex_char_roundtrip (c : ascii) :
  let hi := (N_of_ascii c / 16)%N in
  let lo := (N_of_ascii c mod 16)%N in
  hexval (hexdigit hi) = Some hi /\ hexval (hexdigit lo) = Some lo
  /\ ascii_of_N (16 * hi + lo) = c
  /\ Py.isspace (hexdigit hi) = false.
Proof.
  destruct c as [[] [] [] [] [] [] [] []]; vm_compute; repeat split.
Qed.

(** [bytes.fromhex(b.hex()) == b] *)
Lemma fromhex_hex (b : bytes) : fromhex (hex b) = Some b.
Proof.
  induction b as [|c b IH]; [reflexivity|].
  destruct (hex_char_roundtrip c) as [Hhi [Hlo [Hc Hsp]]].
  cbn [hex fromhex]. rewrite Hsp, Hhi, Hlo, IH, Hc. reflexivity.
Qed.

Lemma hex_no_colon (b : bytes) : Py.contains_char ":"%char (hex b) = false.
Proof.
  apply hex_field_no_colon. apply fromhex_hex_field with (n := String.length (hex b)) (bs := b).
  - lia.
  - apply fromhex_hex.
Qed.

Section HashlibFacts.

Variable pbkdf2 : bytes -> bytes -> Z -> bytes.

(** The password's hash under the stored salt is the stored hash. *)
Definition hash_confere (senha : string) (stored : option string) : Prop :=
  exists salt_str hash_str salt hash_stored,
    stored = Some (salt_str ++ ":" ++ hash_str)%string
    /\ fromhex salt_str = Some salt
    /\ fromhex hash_str = Some hash_stored
    /\ pbkdf2 (encode_utf8 senha) salt DEFAULT_PASSWORD_ITERATIONS = hash_stored.

Lemma verificar_try_inr (senha : string) (stored : option string) (b : bool) :
  verificar_try pbkdf2 senha stored = inr b ->
  bem_formado stored /\ (b = true -> hash_confere senha stored).
Proof.
  unfold verificar_try. destruct stored as [h|]; [|discriminate].
  destruct (split_on ":"%char h) as [|salt_str [|hash_str [|x xs]]] eqn:Es;
    try discriminate.
  destruct (fromhex salt_str) as [salt|] eqn:E1; [|discriminate].
  destruct (fromhex hash_str) as [hash_stored|] eqn:E2; [|discriminate].
  intros Hb. injection Hb as Hb. apply split_two_inv in Es. subst h.
  split.
  - exists salt_str, hash_str. split; [reflexivity|]. split.
    + apply fromhex_hex_field with (n := String.length salt_str) (bs := salt); [lia|exact E1].
    + apply fromhex_hex_field with (n := String.length hash_str) (bs := hash_stored);
        [lia|exact E2].
  - intros ->. apply String.eqb_eq in Hb.
    exists salt_str, hash_str, salt, hash_stored. auto.
Qed.

Lemma verificar_try_confere (senha : string) (stored : option string) :
  hash_confere senha stored -> verificar_try pbkdf2 senha stored = inr true.
Proof.
  intros [salt_str [hash_str [salt [hash_stored [-> [E1 [E2 Hh]]]]]]].
  unfold verificar_try. rewrite split_two.
  - rewrite E1, E2, Hh. now rewrite String.eqb_refl.
  - apply hex_field_no_colon.
    apply fromhex_hex_field with (n := String.length salt_str) (bs := salt); [lia|exact E1].
  - apply hex_field_no_colon.
    apply fromhex_hex_field with (n := String.length hash_str) (bs := hash_stored);
      [lia|exact E2].
Qed.

Lemma verificar_true_iff (senha : string) (stored : option string) :
  AuthService__verificar_senha pbkdf2 senha stored = true <-> hash_confere senha stored.
Proof.
  unfold AuthService__verificar_senha. split.
  - destruct (verificar_try pbkdf2 senha stored) as [e|b] eqn:E; simpl;
      [discriminate|]. intros ->. now apply (verificar_try_inr _ _ E).
  - intros H. now rewrite (verificar_try_confere H).
Qed.

(** A password set with [definir_senha] is accepted by [verificar_senha],
    whatever the salt. *)
Lemma definir_then_verificar (self : Usuario.t) (salt : bytes) (senha : string) :
  AuthService__verificar_senha pbkdf2 senha
    (Usuario.senha_hash (Usuario_definir_senha pbkdf2 self salt senha)) = true.
Proof.
  apply verificar_true_iff. cbn [Usuario_definir_senha Usuario.senha_hash].
  exists (hex salt), (hex (pbkdf2 (encode_utf8 senha) salt DEFAULT_PASSWORD_ITERATIONS)),
         salt, (pbkdf2 (encode_utf8 senha) salt DEFAULT_PASSWORD_ITERATIONS).
  split; [reflexivity|]. split; [apply fromhex_hex|]. split; [apply fromhex_hex|reflexivity].
Qed.

Lemma malformed_is_false (senha : string) (stored : option string) :
  ~ bem_formado stored -> AuthService__verificar_senha pbkdf2 senha stored = false.
Proof.
  intros Hbad. unfold AuthService__verificar_senha.
  destruct (verificar_try pbkdf2 senha stored) as [e|b] eqn:E; [reflexivity|].
  exfalso. apply Hbad. now apply (verificar_try_inr _ _ E).
Qed.

(** The model's method and the service's helper agree: the early return
    on an empty hash is what the [except] gives as well. *)
Lemma Usuario_verificar_senha_eq (self : Usuario.t) (senha : string) :
  Usuario_verificar_senha pbkdf2 self senha
  = AuthService__verificar_senha pbkdf2 senha (Usuario.senha_hash self).
Proof.
  unfold Usuario_verificar_senha, AuthService__verificar_senha.
  destruct (Usuario.senha_hash self) as [[|c h]|]; reflexivity.
Qed.

End HashlibFacts.

(** A hash function for examples: the salt followed by the password. *)
Definition toy_pbkdf2 (password salt : bytes) (iterations : Z) : bytes :=
  (salt ++ password)%string.

(** ** C3: authenticate *)

(** C3: with emails unique in the user table, authenticate(email, senha)
    returns (true, the user's record with the session token added) exactly
    when an active user with that email exists and the password's PBKDF2
    hash under the stored salt equals the stored hash; in every other case
    (no such user, the user inactive, a wrong password, or no user table)
    it returns (false, None). *)
Theorem C3_authenticate_exactly_when :
  forall (pbkdf2 : bytes -> bytes -> Z -> bytes) (env : Env)
         (email senha : string) (db : Db),
    NoDup (map Usuario.email (fetchall (usuarios db))) ->
    let res := fst (AuthService_authenticate pbkdf2 env email senha db) in
    (forall u,
        In u (fetchall (usuarios db)) ->
        Usuario.email u = email -> Usuario.ativo u = true ->
        hash_confere pbkdf2 senha (Usuario.senha_hash u) ->
        res = (true, Some (u, token_hex env)))
    /\ ((forall u,
            In u (fetchall (usuarios db)) ->
            Usuario.email u = email -> Usuario.ativo u = true ->
            ~ hash_confere pbkdf2 senha (Usuario.senha_hash u)) ->
        res = (false, None)).
Proof.
  intros pbkdf2 env email senha db Huniq res. subst res.
  destruct db as [im un us at_ de se lo iss].
  unfold AuthService_authenticate, bind, select, issue, ret. simpl in Huniq |- *.
  destruct us as [rows|]; simpl in Huniq |- *.
  2:{ split; [intros u []|reflexivity]. }
  destruct (filter (fun u => (Usuario.email u =? email)%string && Usuario.ativo u) rows)
    as [|e l] eqn:Hsel.
  - split; [|reflexivity].
    intros u Hu Hem Hat _. exfalso.
    assert (Hin : In u (filter (fun u => (Usuario.email u =? email)%string && Usuario.ativo u) rows)).
    { apply filter_In. split; [exact Hu|]. rewrite Hem, Hat, String.eqb_refl. reflexivity. }
    rewrite Hsel in Hin. exact Hin.
  - assert (He : In e rows /\ Usuario.email e = email /\ Usuario.ativo e = true).
    { assert (Hin : In e (filter (fun u => (Usuario.email u =? email)%string && Usuario.ativo u) rows))
        by (rewrite Hsel; now left).
      apply filter_In in Hin. destruct Hin as [Hin Hc].
      apply andb_true_iff in Hc. destruct Hc as [Hc1 Hc2].
      apply String.eqb_eq in Hc1. auto. }
    destruct He as [He_in [He_em He_at]].
    destruct (AuthService__verificar_senha pbkdf2 senha (Usuario.senha_hash e)) eqn:Hv; simpl.
    + apply verificar_true_iff in Hv. split.
      * intros u Hu Hem _ _.
        assert (u = e) by (apply (NoDup_map_inj Usuario.email rows); congruence).
        subst u.
        unfold toca_ultima_atividade, AuthService_criar_sessao, AuthService__registrar_login,
          insert_plain, update, bind, issue, commit, ret.
        destruct (Usuario.id e); simpl; destruct se, lo; reflexivity.
      * intros Hno. exfalso. exact (Hno e He_in He_em He_at Hv).
    + split; [|reflexivity].
      intros u Hu Hem _ Hconf.
      assert (u = e) by (apply (NoDup_map_inj Usuario.email rows); congruence).
      subst u. apply verificar_true_iff in Hconf. congruence.
Qed.

Definition bia : Usuario.t :=
  Usuario.mk (Some 1) "Bia" "bia@example.org" (Some "0102:01026162"%string) (Some 3) true None.

Definition db_bia : Db :=
  mkDb (Some []) (Some []) (Some [bia]) (Some []) (Some []) (Some []) (Some []) [].

Definition env0 : Env := mkEnv "c0ffee" 1000.

Lemma C3_authenticate_witness :
  fst (AuthService_authenticate toy_pbkdf2 env0 "bia@example.org" "ab" db_bia)
  = (true, Some (bia, "c0ffee"%string))
  /\ fst (AuthService_authenticate toy_pbkdf2 env0 "bia@example.org" "errada" db_bia)
     = (false, None).
Proof.
  assert (Huniq : NoDup (map Usuario.email (fetchall (usuarios db_bia)))).
  { simpl. repeat constructor. intros []. }
  split.
  - destruct (C3_authenticate_exactly_when toy_pbkdf2 env0 "bia@example.org" "ab" db_bia Huniq)
      as [Hyes _].
    apply (Hyes bia); [now left|reflexivity|reflexivity|].
    apply verificar_true_iff. reflexivity.
  - destruct (C3_authenticate_exactly_when toy_pbkdf2 env0 "bia@example.org" "errada"
                db_bia Huniq) as [_ Hno].
    apply Hno. intros u [<-|[]] _ _ Hconf.
    apply verificar_true_iff in Hconf. discriminate Hconf.
Defined.

(** ** C4: a script that fails inside the gateway does not stop the repair *)

(** C4 (what the code does): when the schema is invalid, the three files
    can be read, and the first script makes sqlite3 raise inside
    DatabaseManager.execute while the other two run, fix_schema_issues does
    not stop at the first script: it logs all three as executed, runs the
    second and the third, and only then validates again. *)
Theorem C4_sqlite_error_does_not_stop :
  forall (read_file : string -> string + string)
         (sqlite_execute : string -> Schema -> exec_result)
         (db db2 db3 : Schema) (sql1 sql2 sql3 : string),
    fst (validate_schema db) = false ->
    read_file "schema_base.sql"%string = inr sql1 ->
    read_file "schema_usuarios.sql"%string = inr sql2 ->
    read_file "schema_relatorios.sql"%string = inr sql3 ->
    sqlite_execute sql1 db = SqliteError ->
    sqlite_execute sql2 db = Executed db2 ->
    sqlite_execute sql3 db2 = Executed db3 ->
    exists ok rest,
      fix_schema_issues read_file sqlite_execute db
      = ((ok, [executado "schema_base.sql"; executado "schema_usuarios.sql";
               executado "schema_relatorios.sql"] ++ rest), db3).
Proof.
  intros read_file sqlite_execute db db2 db3 sql1 sql2 sql3 Hbad R1 R2 R3 E1 E2 E3.
  unfold fix_schema_issues.
  destruct (validate_schema db) as [is_valid problemas]. simpl in Hbad. subst is_valid.
  unfold schema_files. cbn [executar_arquivos].
  rewrite R1. unfold execute. rewrite E1. rewrite R2, E2, R3, E3. cbn [app].
  destruct (validate_schema db3) as [[|] restantes]; eexists; eexists; reflexivity.
Qed.

(** A migration directory whose files hold their own name, and an engine
    that refuses the base script and records every other script as a table. *)
Definition toy_read_file (schema_file : string) : string + string := inr schema_file.

Definition toy_sqlite_execute (sql : string) (db : Schema) : exec_result :=
  if (sql =? "schema_base.sql")%string then SqliteError
  else Executed (db ++ [mkTable sql [] []]).

Lemma C4_sqlite_error_witness :
  exists ok rest,
    fix_schema_issues toy_read_file toy_sqlite_execute []
    = ((ok, [executado "schema_base.sql"; executado "schema_usuarios.sql";
             executado "schema_relatorios.sql"] ++ rest),
       [mkTable "schema_usuarios.sql" [] []; mkTable "schema_relatorios.sql" [] []]).
Proof.
  exact (@C4_sqlite_error_does_not_stop toy_read_file toy_sqlite_execute
           [] _ _ "schema_base.sql" "schema_usuarios.sql" "schema_relatorios.sql"
           eq_refl eq_refl eq_refl eq_refl eq_refl eq_refl eq_refl).
Defined.

(** The failures that do stop the loop are the ones that reach the
    [except] of fix_schema_issues: a file that cannot be read, or an
    exception of the engine that is not a [sqlite3.Error]. *)
Lemma raised_exception_stops (read_file : string -> string + string)
      (sqlite_execute : string -> Schema -> exec_result)
      (db : Schema) (acoes : list string) (schema_file msg : string) (rest : list string) :
  read_file schema_file = inl msg ->
  executar_arquivos read_file sqlite_execute (schema_file :: rest) db acoes
  = (inl (acoes ++ [erro_ao_executar schema_file msg]), db).
Proof.
  intros H. cbn [executar_arquivos]. now rewrite H.
Qed.

(** ** The stable sort orders and permutes *)
Section SortFacts.
Variable A : Type.
Variable le : A -> A -> bool.
Hypothesis le_total : forall a b, le a b = false -> le b a = true.
Hypothesis le_trans : forall a b c, le a b = true -> le b c = true -> le a c = true.

Let before (a b : A) : Prop := le a b = true.

Lemma insert_sorted_perm (x : A) (l : list A) :
  Permutation (x :: l) (insert_sorted le x l).
Proof.
  induction l as [|y l IH]; simpl; [reflexivity|].
  destruct (le x y); [reflexivity|].
  rewrite perm_swap. now constructor.
Qed.

Lemma sort_by_perm (l : list A) : Permutation l (sort_by le l).
Proof.
  induction l as [|x l IH]; simpl; [constructor|].
  rewrite <- insert_sorted_perm. now constructor.
Qed.

Lemma insert_sorted_ordered (x : A) (l : list A) :
  StronglySorted before l -> StronglySorted before (insert_sorted le x l).
Proof.
  induction 1 as [|y l Hl IH Hy]; simpl.
  - constructor; constructor.
  - destruct (le x y) eqn:E.
    + constructor; [constructor; assumption|].
      constructor; [exact E|].
      eapply Forall_impl; [|exact Hy]. intros z Hz. exact (le_trans E Hz).
    + constructor; [exact IH|].
      apply Forall_forall. intros z Hz.
      apply (Permutation_in _ (Permutation_sym (insert_sorted_perm x l))) in Hz.
      destruct Hz as [<-|Hz].
      * now apply le_total.
      * rewrite Forall_forall in Hy. now apply Hy.
Qed.

Lemma sort_by_ordered (l : list A) : StronglySorted before (sort_by le l).
Proof.
  induction l as [|x l IH]; simpl; [constructor|].
  now apply insert_sorted_ordered.
Qed.

Lemma ordered_app (l1 l2 : list A) :
  StronglySorted before (l1 ++ l2) ->
  forall a b, In a l1 -> In b l2 -> le a b = true.
Proof.
  induction l1 as [|x l1 IH]; simpl; intros H a b Ha Hb; [contradiction|].
  inversion H as [|? ? Hs Hx]; subst.
  destruct Ha as [<-|Ha].
  - rewrite Forall_forall in Hx. apply Hx. apply in_or_app. now right.
  - now apply IH.
Qed.

(** What comes after the first [n] of the sorted list may stand after
    each of them. *)
Lemma sort_by_head_before_tail (n : nat) (l : list A) (a b : A) :
  In a (firstn n (sort_by le l)) -> In b (skipn n (sort_by le l)) -> le a b = true.
Proof.
  apply ordered_app. rewrite firstn_skipn. apply sort_by_ordered.
Qed.
End SortFacts.

(** ** Facts about the backup directory *)
Lemma substring_all (p : string) : String.substring 0 (String.length p) p = p.
Proof. induction p as [|c p IH]; simpl; [reflexivity | now rewrite IH]. Qed.

Lemma str_length_app (a b : string) :
  String.length (a ++ b)%string = (String.length a + String.length b)%nat.
Proof. induction a as [|c a IH]; simpl; [reflexivity | now rewrite IH]. Qed.

Lemma str_app_assoc (a b c : string) : ((a ++ b) ++ c = a ++ (b ++ c))%string.
Proof. induction a as [|x a IH]; simpl; [reflexivity | now rewrite IH]. Qed.

Lemma endswith_app (x p : string) : Py.endswith p (x ++ p)%string = true.
Proof.
  unfold Py.endswith. rewrite str_length_app.
  apply andb_true_iff. split.
  - apply Nat.leb_le. lia.
  - replace (String.length x + String.length p - String.length p)%nat
      with (String.length x) by lia.
    apply String.eqb_eq.
    induction x as [|c x IH]; simpl; [apply substring_all | exact IH].
Qed.

Lemma startswith_app (p x : string) : Py.startswith p (p ++ x)%string = true.
Proof.
  unfold Py.startswith. induction p as [|c p IH]; simpl.
  - now destruct x.
  - destruct (ascii_dec c c) as [_|n]; [exact IH | now contradiction n].
Qed.

Lemma backup_name_is_backup (timestamp : string) (m : Z) :
  is_backup (mkFile ("backup_" ++ timestamp ++ ".db") m) = true.
Proof.
  unfold is_backup. cbn [filename]. rewrite startswith_app.
  rewrite <- str_app_assoc. now rewrite endswith_app.
Qed.

(** The names of [rs] are gone from the directory. *)
Definition names_out (rs : list File) (f : File) : bool :=
  negb (Py.str_in (filename f) (map filename rs)).

Lemma filter_filter {A} (p q : A -> bool) (l : list A) :
  filter p (filter q l) = filter (fun x => q x && p x) l.
Proof.
  induction l as [|a l IH]; simpl; [reflexivity|].
  destruct (q a); simpl; [destruct (p a)|]; now rewrite IH.
Qed.

Lemma fold_left_remove (rs : list File) (d : Dir) :
  fold_left (fun acc f => remove (filename f) acc) rs d = filter (names_out rs) d.
Proof.
  revert d. induction rs as [|r rs IH]; intros d; simpl.
  - symmetry. now apply filter_all.
  - rewrite IH. unfold remove. rewrite filter_filter. apply filter_ext.
    intros f. unfold names_out. simpl. now rewrite negb_orb.
Qed.

Lemma fold_left_age_silent (cutoff : Z) (l : list File) (d : Dir) :
  (forall f, In f l -> cutoff <= mtime f) ->
  fold_left (fun acc f => if mtime f <? cutoff then remove (filename f) acc else acc) l d = d.
Proof.
  revert d. induction l as [|a l IH]; intros d H; simpl; [reflexivity|].
  assert (Ha : (mtime a <? cutoff) = false)
    by (apply Z.ltb_ge; apply H; now left).
  rewrite Ha. apply IH. intros f Hf. apply H. now right.
Qed.

Lemma filter_partition_perm {A} (p : A -> bool) (l : list A) :
  Permutation l (filter p l ++ filter (fun x => negb (p x)) l).
Proof.
  induction l as [|a l IH]; simpl; [constructor|].
  destruct (p a); simpl.
  - now constructor.
  - now apply Permutation_cons_app.
Qed.

Lemma NoDup_map_NoDup {A B} (f : A -> B) (l : list A) : NoDup (map f l) -> NoDup l.
Proof.
  induction l as [|a l IH]; simpl; intros H; [constructor|].
  apply NoDup_cons_iff in H. destruct H as [Ha H].
  constructor; [|now apply IH]. intros Hin. apply Ha. now apply in_map.
Qed.

Lemma distinct_names_filter (keep : File -> bool) (d : Dir) :
  NoDup (map filename d) -> NoDup (map filename (filter keep d)).
Proof.
  intros Hd. induction d as [|a d IH]; simpl; [constructor|].
  simpl in Hd. apply NoDup_cons_iff in Hd. destruct Hd as [Ha Hd].
  destruct (keep a); simpl; [|now apply IH].
  constructor; [|now apply IH].
  intros Hin. apply Ha. apply in_map_iff in Hin. destruct Hin as [x [Hx Hin]].
  apply filter_In in Hin. rewrite <- Hx. apply in_map. tauto.
Qed.

Lemma newer_first_total (a b : File) : newer_first a b = false -> newer_first b a = true.
Proof. unfold newer_first. intros H. apply Z.leb_gt in H. apply Z.leb_le. lia. Qed.

Lemma newer_first_trans (a b c : File) :
  newer_first a b = true -> newer_first b c = true -> newer_first a c = true.
Proof.
  unfold newer_first. intros H1 H2. apply Z.leb_le in H1, H2. apply Z.leb_le. lia.
Qed.

Lemma names_out_false (rs : list File) (f : File) :
  names_out rs f = false <-> exists r, In r rs /\ filename r = filename f.
Proof.
  unfold names_out. rewrite negb_false_iff, str_in_In, in_map_iff.
  split; intros [r [H1 H2]]; exists r; now split.
Qed.

(** The count rule on a directory with distinct names: the backups split
    into the ones that stay and the ones past the first [k] of the sorted
    list, and none that stays is older than one that goes. *)
Lemma count_pruning (k : nat) (d : Dir) :
  NoDup (map filename d) ->
  let backups := filter is_backup d in
  let removed := skipn k (sort_by newer_first backups) in
  let d' := filter (names_out removed) d in
  Permutation backups (filter is_backup d' ++ removed)
  /\ (forall r f, In r removed -> In f (filter is_backup d') -> mtime r <= mtime f)
  /\ filter (fun f => negb (is_backup f)) d' = filter (fun f => negb (is_backup f)) d.
Proof.
  intros Hnd backups removed d'.
  pose proof (sort_by_perm newer_first backups) as Hperm.
  assert (Hnb : NoDup (map filename backups)) by (now apply distinct_names_filter).
  assert (Hrem_in : forall r, In r removed -> In r backups).
  { intros r Hr. apply (Permutation_in _ (Permutation_sym Hperm)).
    rewrite <- (firstn_skipn k). apply in_or_app. now right. }
  assert (Hkept : filter is_backup d' = filter (names_out removed) backups).
  { unfold d', backups. rewrite !filter_filter. apply filter_ext.
    intros f. apply andb_comm. }
  assert (Hgone : forall f, In f backups -> names_out removed f = false -> In f removed).
  { intros f Hf Hout. apply names_out_false in Hout. destruct Hout as [r [Hr Hname]].
    assert (r = f) by (apply (NoDup_map_inj filename backups); auto).
    now subst. }
  split; [|split].
  - rewrite Hkept.
    rewrite (filter_partition_perm (names_out removed) backups) at 1.
    apply Permutation_app_head. apply NoDup_Permutation.
    + apply NoDup_filter. now apply (NoDup_map_NoDup filename).
    + assert (Hs : NoDup (sort_by newer_first backups)).
      { apply (Permutation_NoDup Hperm). now apply (NoDup_map_NoDup filename). }
      rewrite <- (firstn_skipn k) in Hs. now apply NoDup_app_remove_l in Hs.
    + intros f. rewrite filter_In. split.
      * intros [Hf Hout]. apply negb_true_iff in Hout. now apply Hgone.
      * intros Hf. split; [now apply Hrem_in|]. apply negb_true_iff.
        apply names_out_false. now exists f.
  - intros r f Hr Hf. rewrite Hkept in Hf. apply filter_In in Hf.
    destruct Hf as [Hf Hout].
    assert (Hhead : In f (firstn k (sort_by newer_first backups))).
    { apply (Permutation_in _ Hperm) in Hf.
      rewrite <- (firstn_skipn k) in Hf. apply in_app_or in Hf.
      destruct Hf as [Hf|Hf]; [exact Hf|].
      exfalso. assert (Hno : names_out removed f = false)
        by (apply names_out_false; now exists f).
      congruence. }
    pose proof (@sort_by_head_before_tail _ newer_first newer_first_total
                  newer_first_trans k backups f r Hhead Hr) as Hle.
    unfold newer_first in Hle. now apply Z.leb_le in Hle.
  - unfold d'. rewrite filter_filter. apply filter_ext_in.
    intros f Hf. destruct (is_backup f) eqn:Eb; [now rewrite andb_false_r|].
    rewrite andb_true_r. destruct (names_out removed f) eqn:Eo; [reflexivity|].
    apply names_out_false in Eo. destruct Eo as [r [Hr Hname]].
    assert (r = f).
    { apply (NoDup_map_inj filename d); auto.
      apply Hrem_in in Hr. apply filter_In in Hr. tauto. }
    subst r. apply Hrem_in in Hr. apply filter_In in Hr. destruct Hr as [_ Hr].
    congruence.
Qed.

(** ** C5: one backup on top of twelve *)

(** The file [create_backup] writes, and the time it carries. *)
Definition copied_mtime (vacuum : option Z) (m : Z) : Z :=
  match vacuum with Some t => t | None => m end.

Definition new_backup (timestamp : string) (m : Z) : File :=
  mkFile ("backup_" ++ timestamp ++ ".db") m.

Lemma copy2_fresh (m : Z) (dst : string) (d : Dir) :
  ~ In dst (map filename d) -> copy2 m dst d = d ++ [mkFile dst m].
Proof.
  intros H. unfold copy2.
  destruct (existsb (fun f => (filename f =? dst)%string) d) eqn:E; [|reflexivity].
  exfalso. apply H. apply existsb_exists in E. destruct E as [f [Hf E]].
  apply String.eqb_eq in E. subst dst. now apply in_map.
Qed.

(** C5 (amended): starting from 12 existing backup files (names distinct,
    none of them the name of the new file) and a retention count of 10, one
    create_backup() call leaves exactly 10 backup files in the backup
    directory: of the 13 files, the 12 and the new one, it removes three,
    and none of the three is newer than a file that stays (assuming no file
    exceeds the age threshold). *)
Theorem C5_create_backup_keeps_ten_newest :
  forall (config : Config) (now : Z) (timestamp : string) (vacuum : option Z)
         (fs : FS) (m : Z) (d : Dir),
    db_file fs = Some m ->
    backup_dir fs = Some d ->
    NoDup (map filename d) ->
    List.length (filter is_backup d) = 12%nat ->
    ~ In (filename (new_backup timestamp (copied_mtime vacuum m))) (map filename d) ->
    or_config None (max_backup_files config) 10 = 10 ->
    (forall f, In f (new_backup timestamp (copied_mtime vacuum m) :: d) ->
               is_backup f = true ->
               now - or_config None (backup_retention_days config) 30 * 86400 <= mtime f) ->
    exists (d' : Dir) (removed : list File),
      backup_dir (snd (create_backup config now timestamp vacuum fs)) = Some d'
      /\ List.length (filter is_backup d') = 10%nat
      /\ List.length removed = 3%nat
      /\ Permutation (filter is_backup d ++ [new_backup timestamp (copied_mtime vacuum m)])
                     (filter is_backup d' ++ removed)
      /\ (forall r f, In r removed -> In f (filter is_backup d') -> mtime r <= mtime f)
      /\ filter (fun f => negb (is_backup f)) d' = filter (fun f => negb (is_backup f)) d.
Proof.
  intros config now timestamp vacuum fs m d Hdb Hdir Hnd H12 Hfresh Hmax Hage.
  set (new := new_backup timestamp (copied_mtime vacuum m)) in *.
  set (dn := d ++ [new]).
  assert (Hnew : is_backup new = true) by apply backup_name_is_backup.
  assert (Hbk : filter is_backup dn = filter is_backup d ++ [new]).
  { unfold dn. rewrite filter_app. simpl. now rewrite Hnew. }
  assert (Hndn : NoDup (map filename dn)).
  { unfold dn. rewrite map_app. simpl. now apply NoDup_snoc. }
  destruct (count_pruning 10 dn Hndn) as [Hperm [Hold Hrest]].
  exists (filter (names_out (skipn 10 (sort_by newer_first (filter is_backup dn)))) dn),
         (skipn 10 (sort_by newer_first (filter is_backup dn))).
  assert (Hlen : List.length (skipn 10 (sort_by newer_first (filter is_backup dn))) = 3%nat).
  { rewrite length_skipn.
    rewrite <- (Permutation_length (sort_by_perm newer_first (filter is_backup dn))).
    rewrite Hbk, length_app, H12. reflexivity. }
  split; [|split; [|split; [|split; [|split]]]].
  - unfold create_backup. rewrite Hdb, Hdir. cbn [snd backup_dir].
    fold (copied_mtime vacuum m).
    change (mkFile ("backup_" ++ timestamp ++ ".db") (copied_mtime vacuum m)) with new.
    rewrite copy2_fresh by exact Hfresh. fold new. fold dn.
    unfold clean_old_backups. rewrite Hmax. f_equal.
    change (0 <? 10) with true. cbv iota. change (Z.to_nat 10) with 10%nat.
    rewrite fold_left_remove.
    assert (Hsilent :
              forall c, c = now - or_config None (backup_retention_days config) 30 * 86400 ->
              fold_left (fun acc f => if mtime f <? c then remove (filename f) acc else acc)
                        (filter is_backup dn) dn = dn).
    { intros c ->. apply fold_left_age_silent. intros f Hf.
      apply filter_In in Hf. destruct Hf as [Hf Hb]. apply Hage; [|exact Hb].
      unfold dn in Hf. apply in_app_or in Hf. destruct Hf as [Hf|[<-|[]]];
        [now right | now left]. }
    change (d ++ [mkFile ("backup_" ++ timestamp ++ ".db") (copied_mtime vacuum m)])
      with dn.
    destruct (0 <? or_config None (backup_retention_days config) 30);
      [rewrite (Hsilent _ eq_refl)|]; reflexivity.
  - assert (H13 : List.length (filter is_backup dn) = 13%nat)
      by (rewrite Hbk, length_app, H12; reflexivity).
    apply Permutation_length in Hperm. rewrite length_app, Hlen, H13 in Hperm. lia.
  - exact Hlen.
  - rewrite <- Hbk. exact Hperm.
  - exact Hold.
  - rewrite Hrest. unfold dn. rewrite filter_app. simpl. rewrite Hnew. simpl.
    apply app_nil_r.
Qed.

(** Twelve backups, oldest first, the live database, and the call. *)
Definition doze_backups : Dir :=
  [ mkFile "backup_01.db" 1001; mkFile "backup_02.db" 1002; mkFile "backup_03.db" 1003;
    mkFile "backup_04.db" 1004; mkFile "backup_05.db" 1005; mkFile "backup_06.db" 1006;
    mkFile "backup_07.db" 1007; mkFile "backup_08.db" 1008; mkFile "backup_09.db" 1009;
    mkFile "backup_10.db" 1010; mkFile "backup_11.db" 1011; mkFile "backup_12.db" 1012 ].

Definition fs_doze : FS := mkFS (Some 1500) (Some doze_backups).

Definition config_padrao : Config := mkConfig None None.

Definition depois_do_backup : FS :=
  snd (create_backup config_padrao 2000 "20240102_030405" (Some 1999) fs_doze).

Lemma C5_create_backup_witness :
  exists (d' : Dir) (removed : list File),
    backup_dir depois_do_backup = Some d'
    /\ List.length (filter is_backup d') = 10%nat
    /\ List.length removed = 3%nat.
Proof.
  assert (Hnd : NoDup (map filename doze_backups)).
  { simpl. repeat (constructor; [simpl; intuition discriminate|]). constructor. }
  assert (Hfresh : ~ In (filename (new_backup "20240102_030405" (copied_mtime (Some 1999) 1500)))
                        (map filename doze_backups)).
  { simpl. intuition discriminate. }
  assert (Hage : forall f,
             In f (new_backup "20240102_030405" (copied_mtime (Some 1999) 1500) :: doze_backups) ->
             is_backup f = true ->
             2000 - or_config None (backup_retention_days config_padrao) 30 * 86400 <= mtime f).
  { intros f Hf _. simpl in Hf.
    repeat (destruct Hf as [<-|Hf]; [vm_compute; discriminate|]). contradiction. }
  destruct (@C5_create_backup_keeps_ten_newest config_padrao 2000 "20240102_030405"
              (Some 1999) fs_doze 1500 doze_backups
              eq_refl eq_refl Hnd eq_refl Hfresh eq_refl Hage)
    as [d' [removed [H1 [H2 [H3 _]]]]].
  exists d', removed. split; [exact H1|]. split; [exact H2|exact H3].
Defined.

(** C5 as stated fails: after the call ten backups are left, and the third
    oldest of the twelve is gone with the two oldest. *)
Lemma C5_counterexample :
  option_map (map filename) (backup_dir depois_do_backup)
  = Some [ "backup_04.db"; "backup_05.db"; "backup_06.db"; "backup_07.db";
           "backup_08.db"; "backup_09.db"; "backup_10.db"; "backup_11.db";
           "backup_12.db"; "backup_20240102_030405.db" ]%string
  /\ Py.str_in "backup_03.db" (map filename doze_backups) = true
  /\ option_map (fun d => Py.str_in "backup_03.db" (map filename d))
                (backup_dir depois_do_backup) = Some false.
Proof. repeat split; vm_compute; reflexivity. Qed.

(** ** C6: the validator reports only what is absent *)

Lemma set_minus_incl (a b : list string) : incl a b -> set_minus a b = [].
Proof.
  intros H. apply filter_none. intros x Hx.
  apply negb_false_iff. apply str_in_In. now apply H.
Qed.

Lemma flat_map_nil {A B} (f : A -> list B) (l : list A) :
  (forall x, In x l -> f x = []) -> flat_map f l = [].
Proof.
  induction l as [|a l IH]; intros H; simpl; [reflexivity|].
  rewrite (H a (or_introl eq_refl)). apply IH. intros x Hx. apply H. now right.
Qed.

(** Every table with an expected index is a table of the manifest. *)
Lemma expected_indices_in_manifest (t : string) :
  _get_expected_indices t <> [] -> In t (map fst _get_expected_tables).
Proof.
  unfold _get_expected_indices, dict_get, indices_map. cbn [find fst snd].
  repeat match goal with
         | |- context [String.eqb ?k t] =>
             destruct (String.eqb k t) eqn:Heq;
             [apply String.eqb_eq in Heq; subst t; intros _; simpl; tauto | clear Heq]
         end.
  intros H. exfalso. apply H. reflexivity.
Qed.

(** The live schema holds everything the manifest names. *)
Definition contains_manifest (db : Schema) : Prop :=
  forall t,
    In t (map fst _get_expected_tables) ->
    In t (_get_existing_tables db)
    /\ incl (map fst (dict_get _get_expected_tables t)) (map fst (_get_table_columns db t))
    /\ incl (_get_expected_indices t) (_get_table_indices db t).

(** C6: validate_schema reports only absence.  For every database whose
    schema has every table of the manifest, every manifest column of each
    of them and every expected index, it returns (True, []), whatever
    further tables, columns or indexes the schema holds. *)
Theorem C6_validate_schema_only_absence :
  forall db : Schema,
    contains_manifest db ->
    validate_schema db = (true, []).
Proof.
  intros db H. unfold validate_schema.
  assert (H1 : set_minus (map fst _get_expected_tables) (_get_existing_tables db) = []).
  { apply set_minus_incl. intros t Ht. now apply H. }
  rewrite H1. cbn [Py.truthy_list app].
  rewrite flat_map_nil.
  2:{ intros t Ht. unfold set_inter in Ht. apply filter_In in Ht. destruct Ht as [Ht _].
      rewrite set_minus_incl; [reflexivity|]. now apply H. }
  rewrite flat_map_nil; [reflexivity|].
  intros t Ht.
  destruct (_get_expected_indices t) as [|i is_] eqn:Ei; [reflexivity|].
  assert (Hm : In t (map fst _get_expected_tables)).
  { apply expected_indices_in_manifest. rewrite Ei. discriminate. }
  destruct (H t Hm) as [_ [_ Hidx]]. rewrite Ei in Hidx.
  rewrite filter_none; [reflexivity|].
  intros x Hx. apply negb_false_iff. apply str_in_In. now apply Hidx.
Qed.

(** The schema of the manifest itself, and the same with a column, an
    index and a table the manifest does not know. *)
Definition manifest_schema : Schema :=
  map (fun tc => mkTable (fst tc) (snd tc) (_get_expected_indices (fst tc)))
      _get_expected_tables.

Definition schema_com_extras : Schema :=
  mkTable "anexos" [("id", "INTEGER"); ("caminho", "TEXT")]%string ["idx_anexos"]%string
  :: map (fun t => mkTable (name t) (columns t ++ [("extra", "BLOB")]%string)
                            ("idx_extra"%string :: indices t))
         manifest_schema.

Fixpoint inclb (a b : list string) : bool :=
  match a with
  | [] => true
  | x :: a' => Py.str_in x b && inclb a' b
  end.

Lemma inclb_incl (a b : list string) : inclb a b = true -> incl a b.
Proof.
  induction a as [|x a IH]; simpl; intros H y Hy; [contradiction|].
  apply andb_true_iff in H. destruct H as [Hx Ha].
  destruct Hy as [<-|Hy]; [now apply str_in_In | now apply IH].
Qed.

Definition contains_manifestb (db : Schema) : bool :=
  forallb (fun t =>
             Py.str_in t (_get_existing_tables db)
             && inclb (map fst (dict_get _get_expected_tables t))
                      (map fst (_get_table_columns db t))
             && inclb (_get_expected_indices t) (_get_table_indices db t))
          (map fst _get_expected_tables).

Lemma contains_manifestb_sound (db : Schema) :
  contains_manifestb db = true -> contains_manifest db.
Proof.
  unfold contains_manifestb. rewrite forallb_forall. intros H t Ht.
  specialize (H t Ht). apply andb_true_iff in H. destruct H as [H H3].
  apply andb_true_iff in H. destruct H as [H1 H2].
  split; [now apply str_in_In|]. split; now apply inclb_incl.
Qed.

Lemma C6_validate_schema_witness :
  contains_manifest schema_com_extras
  /\ validate_schema schema_com_extras = (true, []).
Proof.
  assert (H : contains_manifest schema_com_extras)
    by (apply contains_manifestb_sound; vm_compute; reflexivity).
  split; [exact H|].
  exact (C6_validate_schema_only_absence H).
Defined.

(** ** C7: email uniqueness across [Usuario.save] *)

(** The user table keeps its primary key and its emails free of repeats. *)
Definition usuarios_ok (db : Db) : Prop :=
  match usuarios db with
  | Some rows => NoDup (map Usuario.id rows) /\ NoDup (map Usuario.email rows)
  | None => True
  end.

(** The row rewrite of the UPDATE. *)
Definition usuario_update (self : Usuario.t) (i : Z) (r : Usuario.t) : Usuario.t :=
  match Usuario.id r with
  | Some j => if j =? i then usuario_row self i (Usuario.data_criacao r) else r
  | None => r
  end.

Lemma usuario_update_id self i r : Usuario.id (usuario_update self i r) = Usuario.id r.
Proof.
  unfold usuario_update. destruct (Usuario.id r) as [j|] eqn:E; [|exact E].
  destruct (j =? i) eqn:Ej; [|exact E].
  apply Z.eqb_eq in Ej. subst. reflexivity.
Qed.

Lemma usuario_update_email self i r :
  Usuario.email (usuario_update self i r)
  = if id_is i (Usuario.id r) then Usuario.email self else Usuario.email r.
Proof.
  unfold usuario_update, id_is. destruct (Usuario.id r) as [j|]; [|reflexivity].
  destruct (j =? i); reflexivity.
Qed.

Lemma update_keeps_emails_unique (self : Usuario.t) (i : Z) (rows : list Usuario.t) :
  NoDup (map Usuario.id rows) ->
  NoDup (map Usuario.email rows) ->
  (forall r, In r rows -> Usuario.email r = Usuario.email self -> Usuario.id r = Some i) ->
  NoDup (map Usuario.email (map (usuario_update self i) rows)).
Proof.
  induction rows as [|a l IH]; intros Hid Hem Hown; simpl; [constructor|].
  simpl in Hid, Hem.
  apply NoDup_cons_iff in Hid. destruct Hid as [Ha_id Hid].
  apply NoDup_cons_iff in Hem. destruct Hem as [Ha_em Hem].
  constructor.
  - rewrite map_map. intros Hin. apply in_map_iff in Hin.
    destruct Hin as [r [Heq Hr]].
    rewrite !usuario_update_email in Heq.
    destruct (id_is i (Usuario.id r)) eqn:Er, (id_is i (Usuario.id a)) eqn:Ea.
    + apply id_is_true in Er, Ea. apply Ha_id. rewrite Ea, <- Er. now apply in_map.
    + assert (Hown_a : Usuario.id a = Some i)
        by (apply Hown; [now left | now symmetry]).
      apply id_is_true in Hown_a. congruence.
    + assert (Hown_r : Usuario.id r = Some i)
        by (apply Hown; [now right | exact Heq]).
      apply id_is_true in Hown_r. congruence.
    + apply Ha_em. rewrite <- Heq. now apply in_map.
  - apply IH; auto. intros r Hr. apply Hown. now right.
Qed.

Lemma update_keeps_ids (self : Usuario.t) (i : Z) (rows : list Usuario.t) :
  map Usuario.id (map (usuario_update self i) rows) = map Usuario.id rows.
Proof.
  rewrite map_map. apply map_ext. intros r. apply usuario_update_id.
Qed.

(** C7 (code bug): email uniqueness is an invariant of Usuario.save, but
    not by save returning false.  From every store whose user table has no
    two rows with one email (and none with one id, the primary key), the
    store after save, insert or update alike, again has no two user rows
    with one email.  When a stored row holds the email of a valid user
    being saved, be it another user's row or, on an update, the user's own,
    save does not return false: it raises TypeError, from the constructor
    that get_by_email calls on the row it found; every table is as it was
    and the SELECT of get_by_email is all the gateway was handed. *)
Theorem C7_save_raises_when_email_is_held :
  forall (self : Usuario.t) (db : Db),
    usuarios_ok db ->
    usuarios_ok (snd (Raises.Usuario_save self db))
    /\ forall rows r,
         usuarios db = Some rows -> In r rows ->
         Usuario.email r = Usuario.email self ->
         Usuario.validate self = [] ->
         Raises.Usuario_save self db
         = ((inl Raises.TypeError, self),
            set_issued db (issued db ++ [SELECT "usuarios"])).
Proof.
  intros self db Hok.
  unfold Raises.Usuario_save.
  destruct (Py.truthy_list (Usuario.validate self)) eqn:Hval.
  { split; [exact Hok|]. intros rows r _ _ _ Hvalid.
    rewrite Hvalid in Hval. discriminate Hval. }
  destruct db as [im un us at_ de se lo iss].
  unfold usuarios_ok in Hok. simpl in Hok.
  destruct us as [rows0|].
  2:{ split.
      - destruct (Usuario.id self); reflexivity.
      - intros rows r Hrows. discriminate Hrows. }
  destruct Hok as [Hids Hems].
  destruct (Usuario.id self) as [i|] eqn:Hself;
    unfold Raises.Usuario_get_by_email, select, insert, update, bind, issue, commit, ret;
    cbn [usuarios set_issued issued fst snd];
    destruct (fetchone (Some (filter (fun u => (Usuario.email u =? Usuario.email self)%string) rows0)))
      as [e|] eqn:Hfetch; cbn [Raises.found Raises.Usuario_from_db_row
                                 Raises.Usuario___init__ Raises.BaseModel___init__].
  - (* update, a row holds the email *)
    split; [unfold usuarios_ok; simpl; now split|].
    intros rows r _ _ _ _. reflexivity.
  - (* update, nobody holds the email *)
    pose proof (fetchone_filter_none _ _ Hfetch) as Hnone.
    split.
    + unfold usuarios_ok. simpl. fold (usuario_update self i). split.
      * rewrite update_keeps_ids. exact Hids.
      * apply update_keeps_emails_unique; auto.
        intros r Hr Hr_em. specialize (Hnone r Hr). simpl in Hnone.
        apply String.eqb_neq in Hnone. contradiction.
    + intros rows r Hrows Hr Hr_em _. injection Hrows as <-.
      specialize (Hnone r Hr). simpl in Hnone.
      apply String.eqb_neq in Hnone. contradiction.
  - (* insert, a row holds the email *)
    split; [unfold usuarios_ok; simpl; now split|].
    intros rows r _ _ _ _. reflexivity.
  - (* insert, the email is free *)
    pose proof (fetchone_filter_none _ _ Hfetch) as Hnone.
    split.
    + unfold usuarios_ok. simpl. rewrite !map_app. simpl. split.
      * apply NoDup_snoc; [exact Hids|]. apply lastrowid_not_in.
      * apply NoDup_snoc; [exact Hems|]. intros Hin.
        apply in_map_iff in Hin. destruct Hin as [r [Hr_em Hr]].
        specialize (Hnone r Hr). simpl in Hnone.
        apply String.eqb_neq in Hnone. contradiction.
    + intros rows r Hrows Hr Hr_em _. injection Hrows as <-.
      specialize (Hnone r Hr). simpl in Hnone.
      apply String.eqb_neq in Hnone. contradiction.
Qed.

Definition ana : Usuario.t :=
  Usuario.mk (Some 1) "Ana" "ana@example.org" (Some "00:00"%string) (Some 1) true None.

Definition outra_ana : Usuario.t :=
  Usuario.mk None "Ana Paula" "ana@example.org" (Some "00:00"%string) (Some 2) true None.

Definition db_ana : Db :=
  mkDb (Some []) (Some []) (Some [ana]) (Some []) (Some []) (Some []) (Some []) [].

(** A new user with the email of a stored one, and the stored user saved
    again with nothing changed. *)
Lemma C7_save_raises_witness :
  usuarios_ok db_ana
  /\ usuarios_ok (snd (Raises.Usuario_save outra_ana db_ana))
  /\ Raises.Usuario_save outra_ana db_ana
     = ((inl Raises.TypeError, outra_ana), set_issued db_ana [SELECT "usuarios"])
  /\ Raises.Usuario_save ana db_ana
     = ((inl Raises.TypeError, ana), set_issued db_ana [SELECT "usuarios"]).
Proof.
  assert (Hok : usuarios_ok db_ana).
  { unfold usuarios_ok. simpl. split; repeat constructor; simpl; intros []. }
  split; [exact Hok|].
  destruct (C7_save_raises_when_email_is_held outra_ana db_ana Hok) as [Hinv Hnew].
  destruct (C7_save_raises_when_email_is_held ana db_ana Hok) as [_ Hown].
  split; [exact Hinv|]. split.
  - exact (Hnew [ana] ana eq_refl (or_introl eq_refl) eq_refl eq_refl).
  - exact (Hown [ana] ana eq_refl (or_introl eq_refl) eq_refl eq_refl).
Defined.

(** ** C8: completing an assignment twice *)

Lemma Forall_map_same {A} (P : A -> Prop) (f : A -> A) (l : list A) :
  (forall x, P x -> P (f x)) -> Forall P l -> Forall P (map f l).
Proof.
  intros Hf H. induction H; simpl; constructor; auto.
Qed.

Lemma map_idempotent {A} (f : A -> A) (l : list A) :
  (forall x, f (f x) = f x) -> map f (map f l) = map f l.
Proof.
  intros Hf. rewrite map_map. apply map_ext. exact Hf.
Qed.

(** The row rewrite of [UPDATE designacoes SET status = 'concluido' WHERE id = ?]. *)
Definition conclui_linha (i : Z) (r : Designacao.t) : Designacao.t :=
  match Designacao.id r with
  | Some j => if j =? i then Designacao.with_status r "concluido" else r
  | None => r
  end.

Lemma conclui_linha_idempotent (i : Z) (r : Designacao.t) :
  conclui_linha i (conclui_linha i r) = conclui_linha i r.
Proof.
  unfold conclui_linha. destruct (Designacao.id r) as [j|] eqn:E.
  - destruct (j =? i) eqn:Ej; simpl; rewrite E; rewrite Ej; reflexivity.
  - rewrite E. reflexivity.
Qed.

Definition status_ok (s : string) : Prop := In s Designacao.status_validos.

Lemma conclui_linha_status (i : Z) (r : Designacao.t) :
  status_ok (Designacao.status r) -> status_ok (Designacao.status (conclui_linha i r)).
Proof.
  unfold conclui_linha. intros H. destruct (Designacao.id r) as [j|]; [|exact H].
  destruct (j =? i); [|exact H]. simpl. right. now left.
Qed.

Lemma conclui_linha_of_id (i : Z) (r : Designacao.t) :
  Designacao.id r = Some i -> conclui_linha i r = Designacao.with_status r "concluido".
Proof. unfold conclui_linha. intros ->. now rewrite Z.eqb_refl. Qed.

Lemma conclui_linha_other (i : Z) (r : Designacao.t) :
  Designacao.id r <> Some i -> conclui_linha i r = r.
Proof.
  unfold conclui_linha. intros H. destruct (Designacao.id r) as [j|]; [|reflexivity].
  destruct (Z.eqb_spec j i) as [->|_]; [now contradiction H|reflexivity].
Qed.

Lemma conclui_linha_id (i : Z) (r : Designacao.t) :
  Designacao.id (conclui_linha i r) = Designacao.id r.
Proof.
  unfold conclui_linha. destruct (Designacao.id r) as [j|] eqn:E; [|exact E].
  destruct (j =? i); [|exact E]. exact E.
Qed.

(** C8: concluir on an Assignment with a non-null id is idempotent, in
    the object and in the table.  The first call sets the status of the
    object to "concluido"; a second call on the same Assignment leaves the
    object and the table exactly as the first call left them and returns
    what the first returned.  With the assignment table in place both
    calls return true, and after the first call (hence after the second)
    the stored table is the old one with the status of every row of that
    id set to "concluido": each such row is stored with that status and
    its other columns unchanged, no stored row of that id has another
    status, and the rows of other ids are as they were; the status, of the
    object and of every stored row that had one of the two values before,
    stays within {"ativo", "concluido"}.  Without the table the UPDATE
    fails and both calls return false. *)
Theorem C8_concluir_is_idempotent :
  forall (self : Designacao.t) (db : Db) (i : Z),
    Designacao.id self = Some i ->
    let first := Designacao_concluir self db in
    let second := Designacao_concluir (snd (fst first)) (snd first) in
    Designacao.status (snd (fst first)) = "concluido"%string
    /\ fst (fst second) = fst (fst first)
    /\ snd (fst second) = snd (fst first)
    /\ designacoes (snd second) = designacoes (snd first)
    /\ status_ok (Designacao.status (snd (fst second)))
    /\ (forall rows : list Designacao.t,
           designacoes db = Some rows ->
           fst (fst first) = true
           /\ fst (fst second) = true
           /\ designacoes (snd first) = Some (map (conclui_linha i) rows)
           /\ (forall r, In r rows -> Designacao.id r = Some i ->
                         In (Designacao.with_status r "concluido")
                            (map (conclui_linha i) rows))
           /\ (forall r, In r rows -> Designacao.id r <> Some i ->
                         In r (map (conclui_linha i) rows))
           /\ (forall r', In r' (map (conclui_linha i) rows) ->
                          Designacao.id r' = Some i ->
                          Designacao.status r' = "concluido"%string)
           /\ (Forall (fun r => status_ok (Designacao.status r)) rows ->
               exists rows', designacoes (snd second) = Some rows'
                             /\ Forall (fun r => status_ok (Designacao.status r)) rows'))
    /\ (designacoes db = None ->
        fst (fst first) = false /\ fst (fst second) = false
        /\ designacoes (snd second) = None).
Proof.
  intros self db i Hid first second.
  subst first second. unfold Designacao_concluir. rewrite Hid.
  destruct db as [im un us at_ de se lo iss].
  destruct de as [rows0|];
    unfold update, bind, issue, commit, ret; simpl; rewrite ?Hid; simpl.
  - fold (conclui_linha i).
    split; [reflexivity|]. split; [reflexivity|]. split; [reflexivity|].
    split; [now rewrite map_idempotent by apply conclui_linha_idempotent|].
    split; [right; now left|]. split; [|discriminate].
    intros rows Hrows. injection Hrows as <-.
    split; [reflexivity|]. split; [reflexivity|]. split; [reflexivity|].
    split; [|split; [|split]].
    + intros r Hr Hri. rewrite <- (@conclui_linha_of_id i r Hri). now apply in_map.
    + intros r Hr Hri. rewrite <- (@conclui_linha_other i r Hri) at 1. now apply in_map.
    + intros r' Hr' Hri. apply in_map_iff in Hr'. destruct Hr' as [r [<- Hr]].
      rewrite conclui_linha_id in Hri. now rewrite (@conclui_linha_of_id i r Hri).
    + intros Hall. eexists. split; [reflexivity|].
      rewrite map_idempotent by apply conclui_linha_idempotent.
      apply Forall_map_same; [|exact Hall]. intros x. apply conclui_linha_status.
  - split; [reflexivity|]. split; [reflexivity|]. split; [reflexivity|].
    split; [reflexivity|]. split; [right; now left|]. split; [discriminate|].
    intros _. repeat split.
Qed.

Definition designacao7 : Designacao.t :=
  Designacao.mk (Some 7) (Some 1) (Some 1) "2024-05-01" None None "ativo".

Definition db_designacao7 : Db :=
  mkDb (Some []) (Some []) (Some []) (Some []) (Some [designacao7]) (Some []) (Some []) [].

Lemma C8_concluir_witness :
  fst (fst (Designacao_concluir designacao7 db_designacao7)) = true
  /\ Designacao.status (snd (fst (Designacao_concluir designacao7 db_designacao7)))
     = "concluido"%string
  /\ designacoes (snd (Designacao_concluir designacao7 db_designacao7))
     = Some [Designacao.with_status designacao7 "concluido"].
Proof.
  destruct (@C8_concluir_is_idempotent designacao7 db_designacao7 7 eq_refl)
    as [H1 [_ [_ [_ [_ [Hrows _]]]]]].
  destruct (Hrows [designacao7] eq_refl) as [H2 [_ [H3 _]]].
  split; [exact H2|]. split; [exact H1|exact H3].
Defined.

(** ** C9: password verification fails closed *)

(** C9 (amended): password verification is total and fails closed.  For
    every stored password hash that is not two fields around exactly one
    colon, each field a run of two-digit hex bytes with ASCII white space
    allowed between the bytes as bytes.fromhex reads it (so: None or empty,
    a missing or repeated separator, an odd digit, any other character),
    verificar_senha and _verificar_senha return false, every exception of
    the body ending in the except branch; and they return true only when
    the recomputed PBKDF2 hash equals the stored hash bytes. *)
Theorem C9_verification_fails_closed :
  forall (pbkdf2 : bytes -> bytes -> Z -> bytes) (senha : string)
         (stored : option string) (self : Usuario.t),
    (~ bem_formado stored -> AuthService__verificar_senha pbkdf2 senha stored = false)
    /\ (~ bem_formado (Usuario.senha_hash self) ->
        Usuario_verificar_senha pbkdf2 self senha = false)
    /\ (AuthService__verificar_senha pbkdf2 senha stored = true ->
        hash_confere pbkdf2 senha stored)
    /\ (Usuario_verificar_senha pbkdf2 self senha = true ->
        hash_confere pbkdf2 senha (Usuario.senha_hash self)).
Proof.
  intros pbkdf2 senha stored self. repeat split.
  - apply malformed_is_false.
  - rewrite Usuario_verificar_senha_eq. apply malformed_is_false.
  - apply verificar_true_iff.
  - rewrite Usuario_verificar_senha_eq. apply verificar_true_iff.
Qed.

Lemma no_colon_not_bem_formado (s : string) :
  Py.contains_char ":"%char s = false -> ~ bem_formado (Some s).
Proof.
  intros Hs [a [b [Heq _]]]. injection Heq as ->.
  assert (Hc : Py.contains_char ":"%char (a ++ ":" ++ b)%string = true).
  { clear Hs. induction a as [|c a IH]; simpl; [reflexivity|].
    simpl in IH. rewrite IH. apply orb_true_r. }
  simpl in Hc. congruence.
Qed.

Definition usuario_hash_ruim : Usuario.t :=
  Usuario.mk (Some 3) "Rui" "rui@example.org" (Some "sem separador"%string) (Some 1) true None.

Lemma C9_verification_witness :
  AuthService__verificar_senha toy_pbkdf2 "segredo" (Some "sem separador"%string) = false
  /\ Usuario_verificar_senha toy_pbkdf2 usuario_hash_ruim "segredo" = false
  /\ hash_confere toy_pbkdf2 "ab" (Some "0102:01026162"%string).
Proof.
  destruct (C9_verification_fails_closed toy_pbkdf2 "segredo"
              (Some "sem separador"%string) usuario_hash_ruim) as [H1 [H2 _]].
  destruct (C9_verification_fails_closed toy_pbkdf2 "ab"
              (Some "0102:01026162"%string) usuario_hash_ruim) as [_ [_ [H3 _]]].
  split; [|split].
  - apply H1. apply no_colon_not_bem_formado. reflexivity.
  - apply H2. apply no_colon_not_bem_formado. reflexivity.
  - apply H3. reflexivity.
Defined.

(** C9 as stated fails on white space: a stored value whose salt field
    holds a blank between two bytes is not made of hex digits and a colon
    only, yet it is accepted, for any hash function and any password, once
    its hash field is the hash under the salt the field decodes to.  The
    same holds of the model's method. *)
Lemma C9_counterexample :
  (forall (pbkdf2 : bytes -> bytes -> Z -> bytes) (senha : string),
      let salt := String (ascii_of_N 171) (String (ascii_of_N 205) EmptyString) in
      let stored :=
        ("ab cd:" ++ hex (pbkdf2 (encode_utf8 senha) salt DEFAULT_PASSWORD_ITERATIONS))%string in
      is_hex " "%char = false
      /\ Py.contains_char " "%char stored = true
      /\ AuthService__verificar_senha pbkdf2 senha (Some stored) = true)
  /\ (forall (pbkdf2 : bytes -> bytes -> Z -> bytes) (self : Usuario.t) (senha : string),
         let salt := String (ascii_of_N 171) (String (ascii_of_N 205) EmptyString) in
         let stored :=
           ("ab cd:" ++ hex (pbkdf2 (encode_utf8 senha) salt DEFAULT_PASSWORD_ITERATIONS))%string in
         Usuario.senha_hash self = Some stored ->
         Usuario_verificar_senha pbkdf2 self senha = true).
Proof.
  assert (Hmain : forall (pbkdf2 : bytes -> bytes -> Z -> bytes) (senha : string),
             AuthService__verificar_senha pbkdf2 senha
               (Some ("ab cd:" ++ hex (pbkdf2 (encode_utf8 senha)
                        (String (ascii_of_N 171) (String (ascii_of_N 205) EmptyString))
                        DEFAULT_PASSWORD_ITERATIONS))%string) = true).
  { intros pbkdf2 senha. apply verificar_true_iff.
    eexists "ab cd"%string, _, _, _. split; [reflexivity|].
    split; [reflexivity|]. split; [apply fromhex_hex|reflexivity]. }
  split.
  - intros pbkdf2 senha salt stored. split; [reflexivity|]. split; [reflexivity|].
    apply Hmain.
  - intros pbkdf2 self senha salt stored Hself.
    rewrite Usuario_verificar_senha_eq, Hself. apply Hmain.
Qed.

(** ** What the pruning keeps, by name *)

(** The backups the age rule deletes and the ones the count rule deletes. *)
Definition too_old (cutoff_time : Z) (d : Dir) : list File :=
  filter (fun f => mtime f <? cutoff_time) (filter is_backup d).

Definition excess (max_files : Z) (d : Dir) : list File :=
  skipn (Z.to_nat max_files) (sort_by newer_first (filter is_backup d)).

Definition survives (max_days max_files now : Z) (d : Dir) (f : File) : bool :=
  (if 0 <? max_days then names_out (too_old (now - max_days * 86400) d) f else true)
  && (if 0 <? max_files then names_out (excess max_files d) f else true).

Lemma fold_left_age (cutoff : Z) (l : list File) (d : Dir) :
  fold_left (fun acc f => if mtime f <? cutoff then remove (filename f) acc else acc) l d
  = filter (names_out (filter (fun f => mtime f <? cutoff) l)) d.
Proof.
  rewrite <- fold_left_remove. revert d.
  induction l as [|a l IH]; intros d; simpl; [reflexivity|].
  destruct (mtime a <? cutoff); simpl; apply IH.
Qed.

Lemma clean_old_backups_survivors (config : Config) (now : Z) (d : Dir)
      (max_days max_files : option Z) :
  clean_old_backups config now (Some d) max_days max_files
  = Some (filter (survives (or_config max_days (backup_retention_days config) 30)
                           (or_config max_files (max_backup_files config) 10) now d) d).
Proof.
  unfold clean_old_backups, survives, too_old, excess. f_equal.
  destruct (0 <? or_config max_days (backup_retention_days config) 30);
    destruct (0 <? or_config max_files (max_backup_files config) 10).
  - rewrite fold_left_remove, fold_left_age, filter_filter. reflexivity.
  - rewrite fold_left_age. apply filter_ext. intros f. now rewrite andb_true_r.
  - rewrite fold_left_remove. reflexivity.
  - symmetry. now apply filter_all.
Qed.

Lemma is_backup_by_name (f g : File) : filename f = filename g -> is_backup f = is_backup g.
Proof. unfold is_backup. now intros ->. Qed.

Lemma names_out_other_kind (rs : list File) (f : File) :
  (forall r, In r rs -> is_backup r = true) -> is_backup f = false -> names_out rs f = true.
Proof.
  intros Hrs Hf. destruct (names_out rs f) eqn:E; [reflexivity|].
  apply names_out_false in E. destruct E as [r [Hr Hname]].
  rewrite <- (is_backup_by_name r f Hname), (Hrs r Hr) in Hf. discriminate.
Qed.

Lemma too_old_backups (c : Z) (d : Dir) (r : File) :
  In r (too_old c d) -> In r d /\ is_backup r = true /\ mtime r < c.
Proof.
  unfold too_old. rewrite !filter_In, Z.ltb_lt. tauto.
Qed.

Lemma excess_backups (k : Z) (d : Dir) (r : File) :
  In r (excess k d) -> In r d /\ is_backup r = true.
Proof.
  unfold excess. intros H.
  assert (Hs : In r (sort_by newer_first (filter is_backup d))).
  { rewrite <- (firstn_skipn (Z.to_nat k)). apply in_or_app. now right. }
  apply (Permutation_in _ (Permutation_sym (sort_by_perm newer_first _))) in Hs.
  now apply filter_In in Hs.
Qed.

Lemma survives_other_kind (D F now : Z) (d : Dir) (f : File) :
  is_backup f = false -> survives D F now d f = true.
Proof.
  intros Hf. unfold survives. apply andb_true_iff. split.
  - destruct (0 <? D); [|reflexivity]. apply names_out_other_kind; [|exact Hf].
    intros r Hr. now apply too_old_backups in Hr.
  - destruct (0 <? F); [|reflexivity]. apply names_out_other_kind; [|exact Hf].
    intros r Hr. now apply excess_backups in Hr.
Qed.

Lemma kept_and_excess_apart (kept gone : list File) (f : File) :
  NoDup (kept ++ gone) -> In f kept -> In f gone -> False.
Proof.
  induction kept as [|a kept IH]; simpl; intros Hnd Hk Hg; [contradiction|].
  apply NoDup_cons_iff in Hnd. destruct Hnd as [Ha Hnd].
  destruct Hk as [<-|Hk]; [|now apply IH].
  apply Ha. apply in_or_app. now right.
Qed.

Lemma distinct_name_same_file (d : Dir) (r f : File) :
  NoDup (map filename d) -> In r d -> In f d -> filename r = filename f -> r = f.
Proof. intros Hnd Hr Hf Hn. now apply (NoDup_map_inj filename d). Qed.

(** On a directory with distinct names, what [survives] says of a backup
    in terms of its time and its place in the sorted list. *)
Lemma survives_iff (D F now : Z) (d : Dir) (f : File) :
  NoDup (map filename d) -> In f d -> is_backup f = true ->
  survives D F now d f = true
  <-> (0 < D -> now - D * 86400 <= mtime f)
      /\ (0 < F -> In f (firstn (Z.to_nat F) (sort_by newer_first (filter is_backup d)))).
Proof.
  intros Hnd Hf Hb.
  pose proof (sort_by_perm newer_first (filter is_backup d)) as Hperm.
  assert (Hsplit : sort_by newer_first (filter is_backup d)
                   = firstn (Z.to_nat F) (sort_by newer_first (filter is_backup d))
                            ++ excess F d)
    by (unfold excess; now rewrite firstn_skipn).
  assert (Hnds : NoDup (sort_by newer_first (filter is_backup d))).
  { apply (Permutation_NoDup Hperm). apply NoDup_filter.
    now apply (NoDup_map_NoDup filename). }
  unfold survives. rewrite andb_true_iff. split.
  - intros [Hage Hcount]. split.
    + intros HD. apply Z.ltb_lt in HD. rewrite HD in Hage.
      destruct (Z.lt_ge_cases (mtime f) (now - D * 86400)) as [Hlt|Hge]; [|exact Hge].
      exfalso.
      assert (Hno : names_out (too_old (now - D * 86400) d) f = false).
      { apply names_out_false. exists f. split; [|reflexivity].
        unfold too_old. rewrite !filter_In, Z.ltb_lt. tauto. }
      congruence.
    + intros HF. apply Z.ltb_lt in HF. rewrite HF in Hcount.
      assert (Hs : In f (sort_by newer_first (filter is_backup d))).
      { apply (Permutation_in _ Hperm). apply filter_In. now split. }
      rewrite Hsplit in Hs. apply in_app_or in Hs. destruct Hs as [Hs|Hs]; [exact Hs|].
      exfalso.
      assert (Hno : names_out (excess F d) f = false)
        by (apply names_out_false; now exists f).
      congruence.
  - intros [Hage Hcount]. split.
    + destruct (0 <? D) eqn:HD; [|reflexivity]. apply Z.ltb_lt in HD.
      destruct (names_out (too_old (now - D * 86400) d) f) eqn:E; [reflexivity|].
      exfalso. apply names_out_false in E. destruct E as [r [Hr Hname]].
      apply too_old_backups in Hr. destruct Hr as [Hr [_ Hlt]].
      assert (r = f) by (now apply (distinct_name_same_file d)). subst r.
      specialize (Hage HD). lia.
    + destruct (0 <? F) eqn:HF; [|reflexivity]. apply Z.ltb_lt in HF.
      destruct (names_out (excess F d) f) eqn:E; [reflexivity|].
      exfalso. apply names_out_false in E. destruct E as [r [Hr Hname]].
      pose proof (excess_backups _ _ _ Hr) as [Hrd _].
      assert (r = f) by (now apply (distinct_name_same_file d)). subst r.
      specialize (Hcount HF). rewrite Hsplit in Hnds.
      now apply (kept_and_excess_apart _ _ f Hnds).
Qed.

Lemma doze_backups_distinct : NoDup (map filename doze_backups).
Proof.
  simpl. repeat (constructor; [simpl; intuition discriminate|]). constructor.
Qed.

(** *** The same when a removal may fail *)

Definition removable (can_remove : string -> bool) (f : File) : bool :=
  can_remove (filename f).

Definition survives_os (can_remove : string -> bool) (max_days max_files now : Z)
           (d : Dir) (f : File) : bool :=
  (if 0 <? max_days
   then names_out (filter (removable can_remove) (too_old (now - max_days * 86400) d)) f
   else true)
  && (if 0 <? max_files
      then names_out (filter (removable can_remove) (excess max_files d)) f
      else true).

Lemma os_fold_remove (can_remove : string -> bool) (rs : list File) (d : Dir) :
  fold_left (fun acc f => Os.remove can_remove (filename f) acc) rs d
  = filter (names_out (filter (removable can_remove) rs)) d.
Proof.
  rewrite <- fold_left_remove. revert d.
  induction rs as [|a rs IH]; intros d; simpl; [reflexivity|].
  unfold Os.remove at 2. unfold removable at 1.
  destruct (can_remove (filename a)); simpl; apply IH.
Qed.

Lemma os_fold_age (can_remove : string -> bool) (cutoff : Z) (l : list File) (d : Dir) :
  fold_left (fun acc f => if mtime f <? cutoff
                          then Os.remove can_remove (filename f) acc else acc) l d
  = filter (names_out (filter (removable can_remove)
                              (filter (fun f => mtime f <? cutoff) l))) d.
Proof.
  rewrite <- fold_left_remove. revert d.
  induction l as [|a l IH]; intros d; simpl; [reflexivity|].
  destruct (mtime a <? cutoff); simpl; [|apply IH].
  unfold Os.remove at 2. unfold removable at 1.
  destruct (can_remove (filename a)); simpl; apply IH.
Qed.

Lemma os_clean_survivors (can_remove : string -> bool) (config : Config) (now : Z)
      (d : Dir) (max_days max_files : option Z) :
  Os.clean_old_backups can_remove config now (Some d) max_days max_files
  = Some (filter (survives_os can_remove
                              (or_config max_days (backup_retention_days config) 30)
                              (or_config max_files (max_backup_files config) 10) now d) d).
Proof.
  unfold Os.clean_old_backups, survives_os, too_old, excess. apply (f_equal Some).
  destruct (0 <? or_config max_days (backup_retention_days config) 30);
    destruct (0 <? or_config max_files (max_backup_files config) 10).
  - rewrite os_fold_remove, os_fold_age, filter_filter. reflexivity.
  - rewrite os_fold_age. apply filter_ext. intros f. now rewrite andb_true_r.
  - rewrite os_fold_remove. reflexivity.
  - symmetry. now apply filter_all.
Qed.

(** A name that cannot be removed is out of reach of both rules; for a
    name that can, nothing changes. *)
Lemma names_out_removable (can_remove : string -> bool) (rs : list File) (f : File) :
  names_out (filter (removable can_remove) rs) f
  = negb (can_remove (filename f)) || names_out rs f.
Proof.
  destruct (can_remove (filename f)) eqn:Ec; simpl.
  - destruct (names_out rs f) eqn:E.
    + destruct (names_out (filter (removable can_remove) rs) f) eqn:E'; [reflexivity|].
      apply names_out_false in E'. destruct E' as [r [Hr Hn]].
      apply filter_In in Hr. destruct Hr as [Hr _].
      assert (Hno : names_out rs f = false) by (apply names_out_false; now exists r).
      congruence.
    + apply names_out_false in E. destruct E as [r [Hr Hn]].
      apply names_out_false. exists r. split; [|exact Hn].
      apply filter_In. split; [exact Hr|]. unfold removable. now rewrite Hn.
  - destruct (names_out (filter (removable can_remove) rs) f) eqn:E'; [reflexivity|].
    apply names_out_false in E'. destruct E' as [r [Hr Hn]].
    apply filter_In in Hr. destruct Hr as [_ Hr]. unfold removable in Hr.
    rewrite Hn in Hr. congruence.
Qed.

Lemma survives_os_eq (can_remove : string -> bool) (D F now : Z) (d : Dir) (f : File) :
  survives_os can_remove D F now d f
  = negb (can_remove (filename f)) || survives D F now d f.
Proof.
  unfold survives_os, survives. rewrite !names_out_removable.
  destruct (can_remove (filename f)); simpl; [reflexivity|].
  destruct (0 <? D), (0 <? F); reflexivity.
Qed.

(** An old backup that can be removed is gone after the age rule. *)
Lemma os_age_rule_deletes (can_remove : string -> bool) (D F now : Z) (d : Dir) (f : File) :
  0 < D -> In f d -> is_backup f = true -> can_remove (filename f) = true ->
  mtime f < now - D * 86400 ->
  ~ In (filename f) (map filename (filter (survives_os can_remove D F now d) d)).
Proof.
  intros HD Hf Hb Hc Hold Hin.
  apply in_map_iff in Hin. destruct Hin as [g [Hname Hg]].
  apply filter_In in Hg. destruct Hg as [_ Hs].
  rewrite survives_os_eq, Hname, Hc in Hs. simpl in Hs.
  unfold survives in Hs. apply andb_true_iff in Hs. destruct Hs as [Hs _].
  apply Z.ltb_lt in HD. rewrite HD in Hs.
  assert (Hno : names_out (too_old (now - D * 86400) d) g = false).
  { apply names_out_false. exists f. split; [|now symmetry].
    unfold too_old. rewrite !filter_In, Z.ltb_lt. tauto. }
  congruence.
Qed.

(** After the count rule at most [F] backups that can be removed are left. *)
Lemma os_count_rule_bounds (can_remove : string -> bool) (D F now : Z) (d : Dir) :
  NoDup (map filename d) -> 0 < F ->
  (List.length (filter (fun f => is_backup f && can_remove (filename f))
                       (filter (survives_os can_remove D F now d) d))
   <= Z.to_nat F)%nat.
Proof.
  intros Hnd HF.
  set (L := filter (fun f => is_backup f && can_remove (filename f))
                   (filter (survives_os can_remove D F now d) d)).
  assert (HndL : NoDup L).
  { unfold L. apply NoDup_filter, NoDup_filter. now apply (NoDup_map_NoDup filename). }
  assert (Hincl : incl L (firstn (Z.to_nat F) (sort_by newer_first (filter is_backup d)))).
  { intros x Hx. unfold L in Hx. apply filter_In in Hx. destruct Hx as [Hx Hbc].
    apply andb_true_iff in Hbc. destruct Hbc as [Hb Hc].
    apply filter_In in Hx. destruct Hx as [Hxd Hs].
    rewrite survives_os_eq, Hc in Hs. simpl in Hs.
    apply (survives_iff D F now d x Hnd Hxd Hb) in Hs. destruct Hs as [_ Hs].
    now apply Hs. }
  pose proof (NoDup_incl_length HndL Hincl) as Hlen.
  pose proof (firstn_le_length (Z.to_nat F) (sort_by newer_first (filter is_backup d))) as Hk.
  lia.
Qed.

(** ** C10: a threshold of zero is no threshold given *)

Definition um_backup_velho : Dir := [mkFile "backup_velho.db" 0].

(** C10: passing 0 for either pruning threshold of clean_old_backups does
    not switch that rule off: the 0 is taken as no argument and replaced by
    the configured value, or by 30 days and 10 files when the configuration
    has none, so files may still be deleted (a backup older than 30 days is,
    under thresholds 0 and 0).  Whether removals succeed or fail, a call
    with 0 is the call with the configured value (or 30, or 10) passed in
    its place; under a days argument of 0 a backup older than the
    configured number of days is deleted when it can be removed; under a
    files argument of 0 at most the configured number of removable backups
    stays; and only a configured 0 leaves the directory alone. *)
Theorem C10_zero_threshold_is_unset :
  forall (config : Config) (now : Z) (dir : option Dir) (max_days max_files : option Z),
    clean_old_backups config now dir (Some 0) max_files
    = clean_old_backups config now dir None max_files
    /\ clean_old_backups config now dir max_days (Some 0)
       = clean_old_backups config now dir max_days None
    /\ clean_old_backups config_padrao now dir (Some 0) (Some 0)
       = clean_old_backups config_padrao now dir (Some 30) (Some 10)
    /\ clean_old_backups config_padrao (31 * 86400) (Some um_backup_velho) (Some 0) (Some 0)
       = Some []
    /\ (forall can_remove : string -> bool,
           Os.clean_old_backups can_remove config now dir (Some 0) max_files
           = Os.clean_old_backups can_remove config now dir
               (Some match backup_retention_days config with Some v => v | None => 30 end)
               max_files
           /\ Os.clean_old_backups can_remove config now dir max_days (Some 0)
              = Os.clean_old_backups can_remove config now dir max_days
                  (Some match max_backup_files config with Some v => v | None => 10 end))
    /\ (forall (can_remove : string -> bool) (d : Dir) (f : File),
           dir = Some d -> In f d -> is_backup f = true ->
           can_remove (filename f) = true ->
           0 < match backup_retention_days config with Some v => v | None => 30 end ->
           mtime f < now - match backup_retention_days config with
                           | Some v => v | None => 30 end * 86400 ->
           exists d' : Dir,
             Os.clean_old_backups can_remove config now dir (Some 0) max_files = Some d'
             /\ ~ In (filename f) (map filename d'))
    /\ (forall (can_remove : string -> bool) (d : Dir),
           dir = Some d -> NoDup (map filename d) ->
           0 < match max_backup_files config with Some v => v | None => 10 end ->
           exists d' : Dir,
             Os.clean_old_backups can_remove config now dir max_days (Some 0) = Some d'
             /\ (List.length (filter (fun f => is_backup f && can_remove (filename f)) d')
                 <= Z.to_nat match max_backup_files config with
                             | Some v => v | None => 10 end)%nat)
    /\ (backup_retention_days config = Some 0 -> max_backup_files config = Some 0 ->
        forall can_remove : string -> bool,
          Os.clean_old_backups can_remove config now dir (Some 0) (Some 0) = dir).
Proof.
  intros config now dir max_days max_files.
  split; [reflexivity|]. split; [reflexivity|]. split; [reflexivity|].
  split; [reflexivity|].
  assert (Hdays : forall v, or_config (Some v) (backup_retention_days config) 30
                            = v \/ v = 0) by (intros [| |]; simpl; auto).
  split; [|split; [|split]].
  - intros can_remove. split.
    + unfold Os.clean_old_backups.
      assert (E : or_config (Some 0) (backup_retention_days config) 30
                  = or_config (Some match backup_retention_days config with
                                    | Some v => v | None => 30 end)
                              (backup_retention_days config) 30).
      { unfold or_config. cbn [Py.truthy_int Z.eqb negb].
        destruct (backup_retention_days config) as [[|v|v]|]; reflexivity. }
      now rewrite E.
    + unfold Os.clean_old_backups.
      assert (E : or_config (Some 0) (max_backup_files config) 10
                  = or_config (Some match max_backup_files config with
                                    | Some v => v | None => 10 end)
                              (max_backup_files config) 10).
      { unfold or_config. cbn [Py.truthy_int Z.eqb negb].
        destruct (max_backup_files config) as [[|v|v]|]; reflexivity. }
      now rewrite E.
  - intros can_remove d f -> Hf Hb Hc HD Hold.
    rewrite os_clean_survivors. eexists. split; [reflexivity|].
    apply os_age_rule_deletes; assumption.
  - intros can_remove d -> Hnd HF.
    rewrite os_clean_survivors. eexists. split; [reflexivity|].
    apply os_count_rule_bounds; assumption.
  - intros Hd0 Hf0 can_remove. destruct dir as [d|]; [|reflexivity].
    rewrite os_clean_survivors. apply (f_equal Some).
    unfold or_config. rewrite Hd0, Hf0. cbn [Py.truthy_int Z.eqb negb].
    apply filter_all. intros f _. reflexivity.
Qed.

(** * Further properties of the modelled code *)

(** ** What save of a new property writes *)

(** X1: save of a new Property (id unset, validation passed, its integers
    within 64 bits, property table present) inserts the Property under a
    new id, which the object
    then carries, hands the gateway that INSERT and nothing else, and
    leaves the unit table as it was.  It returns true when no unit is due;
    when one is due, the kind being "predio" or "vila" and total_unidades
    positive, it raises TypeError from the constructor of the first unit,
    the Property already committed.  A building with a negative
    total_unidades passes validation and is saved without units. *)
Theorem X1_new_property_is_written_without_units :
  forall (self : Imovel.t) (db : Db) (rows : list Imovel.t),
    Imovel.id self = None ->
    Imovel.validate self = [] ->
    bindable (Imovel.rua_id self) ->
    bindable (Imovel.total_unidades self) ->
    imoveis db = Some rows ->
    exists i : Z,
      ~ In (Some i) (map Imovel.id rows)
      /\ snd (fst (Raises.Imovel_save self db)) = Imovel.with_id self (Some i)
      /\ imoveis (snd (Raises.Imovel_save self db))
         = Some (rows ++ [Imovel.with_id self (Some i)])
      /\ unidades (snd (Raises.Imovel_save self db)) = unidades db
      /\ issued (snd (Raises.Imovel_save self db)) = issued db ++ [INSERT "imoveis"]
      /\ fst (fst (Raises.Imovel_save self db))
         = if Py.str_in (Imovel.tipo self) ["predio"; "vila"]%string
              && match Imovel.total_unidades self with
                 | Some n => 0 <? n
                 | None => false
                 end
           then inl Raises.TypeError
           else inr true.
Proof.
  intros self db rows Hid Hval _ _ Himo.
  exists (lastrowid Imovel.id rows). split; [apply lastrowid_not_in|].
  set (i := lastrowid Imovel.id rows).
  assert (Hgera : gera_unidades (Imovel.with_id self (Some i))
                  = Py.str_in (Imovel.tipo self) ["predio"; "vila"]%string
                    && match Imovel.total_unidades self with
                       | Some n => 0 <? n
                       | None => false
                       end).
  { unfold gera_unidades. cbn [Imovel.with_id Imovel.tipo Imovel.total_unidades].
    destruct (Py.str_in (Imovel.tipo self) ["predio"; "vila"]%string); [|reflexivity].
    destruct (Imovel.total_unidades self) as [n|]; [|reflexivity].
    cbn [Py.truthy_int andb]. destruct (Z.ltb_spec 0 n) as [Hn|Hn].
    - assert (E : (n =? 0) = false) by (apply Z.eqb_neq; lia). now rewrite E.
    - now rewrite andb_false_r. }
  unfold Raises.Imovel_save. rewrite Hval, Hid. cbn [Py.truthy_list].
  unfold bind at 1. unfold insert, bind, issue. cbn [imoveis set_issued].
  rewrite Himo. fold i. unfold commit, ret. rewrite Hgera.
  destruct (Py.str_in (Imovel.tipo self) ["predio"; "vila"]%string); cbn [andb];
    [|repeat split].
  destruct (Imovel.total_unidades self) as [n|] eqn:Htot; [|repeat split].
  destruct (Z.ltb_spec 0 n) as [Hn|Hn]; [|repeat split].
  rewrite (@criar_unidades_raises (Imovel.with_id self (Some i)) n); [|exact Htot|exact Hn].
  repeat split.
Qed.

Definition vila3 : Imovel.t :=
  Imovel.mk None (Some 1) "12" "vila" None (Some 3) None None None.

Definition predio_negativo : Imovel.t :=
  Imovel.mk None (Some 1) "14" "predio" None (Some (-3)) None None None.

Lemma X1_new_property_witness :
  (exists i, fst (Raises.Imovel_save vila3 empty_db)
             = (inl Raises.TypeError, Imovel.with_id vila3 (Some i))
             /\ unidades (snd (Raises.Imovel_save vila3 empty_db)) = Some [])
  /\ (exists i, fst (Raises.Imovel_save predio_negativo empty_db)
                = (inr true, Imovel.with_id predio_negativo (Some i))
                /\ unidades (snd (Raises.Imovel_save predio_negativo empty_db)) = Some []).
Proof.
  split.
  - assert (Ha : bindable (Imovel.rua_id vila3)) by (simpl; unfold int64; lia).
    assert (Hb : bindable (Imovel.total_unidades vila3)) by (simpl; unfold int64; lia).
    destruct (@X1_new_property_is_written_without_units vila3 empty_db []
                eq_refl eq_refl Ha Hb eq_refl) as [i [_ [H1 [_ [H2 [_ H3]]]]]].
    exists i. split; [|exact H2].
    rewrite (surjective_pairing (fst (Raises.Imovel_save vila3 empty_db))).
    now rewrite H1, H3.
  - assert (Ha : bindable (Imovel.rua_id predio_negativo)) by (simpl; unfold int64; lia).
    assert (Hb : bindable (Imovel.total_unidades predio_negativo))
      by (simpl; unfold int64; lia).
    destruct (@X1_new_property_is_written_without_units predio_negativo empty_db []
                eq_refl eq_refl Ha Hb eq_refl) as [i [_ [H1 [_ [H2 [_ H3]]]]]].
    exists i. split; [|exact H2].
    rewrite (surjective_pairing (fst (Raises.Imovel_save predio_negativo empty_db))).
    now rewrite H1, H3.
Defined.

(** ** A property that is no building *)

Definition table_of (s : Stmt) : string :=
  match s with
  | SELECT t | INSERT t | UPDATE t | DELETE t => t
  end.

(** X2: saving a Property whose kind is neither "predio" nor "vila" never
    creates units, whatever its total_unidades: the unit table is left as it
    was, and every statement the save hands to the gateway is on the
    property table. *)
Theorem X2_other_kinds_create_no_units :
  forall (self : Imovel.t) (db : Db),
    Py.str_in (Imovel.tipo self) ["predio"; "vila"]%string = false ->
    unidades (snd (Imovel_save self db)) = unidades db
    /\ exists stmts,
         issued (snd (Imovel_save self db)) = issued db ++ stmts
         /\ Forall (fun s => table_of s = "imoveis"%string) stmts.
Proof.
  intros self db Htipo. unfold Imovel_save.
  destruct (Py.truthy_list (Imovel.validate self)).
  { split; [reflexivity|]. exists []. now rewrite app_nil_r. }
  destruct db as [im un us at_ de se lo iss].
  destruct (Imovel.id self) as [i|] eqn:Hid;
    unfold bind, insert, update, issue, commit, ret; simpl; destruct im as [rows|]; simpl.
  - split; [reflexivity|]. exists [UPDATE "imoveis"]. split; [reflexivity|]. repeat constructor.
  - split; [reflexivity|]. exists [UPDATE "imoveis"]. split; [reflexivity|]. repeat constructor.
  - assert (Hg : gera_unidades (Imovel.with_id self (Some (lastrowid Imovel.id rows))) = false).
    { unfold gera_unidades. destruct self; simpl in *. now rewrite Htipo. }
    rewrite Hg. simpl.
    split; [reflexivity|]. exists [INSERT "imoveis"]. split; [reflexivity|]. repeat constructor.
  - split; [reflexivity|]. exists [INSERT "imoveis"]. split; [reflexivity|]. repeat constructor.
Qed.

Definition casa_com_total : Imovel.t :=
  Imovel.mk None (Some 1) "123" "residencial" None (Some 40) None None None.

Lemma X2_other_kinds_witness :
  fst (fst (Imovel_save casa_com_total empty_db)) = true
  /\ unidades (snd (Imovel_save casa_com_total empty_db)) = Some [].
Proof.
  split; [reflexivity|].
  exact (proj1 (X2_other_kinds_create_no_units casa_com_total empty_db eq_refl)).
Defined.

(** ** Save, look up and delete a unit *)

Lemma fetchone_app_new {A} (f : A -> bool) (rows : list A) (x : A) :
  (forall r, In r rows -> f r = false) -> f x = true ->
  fetchone (Some (filter f (rows ++ [x]))) = Some x.
Proof.
  intros Hold Hx. rewrite filter_app, (filter_none f rows Hold). simpl. now rewrite Hx.
Qed.

Lemma id_is_other (i j : Z) : j <> i -> id_is j (Some i) = false.
Proof. intros H. apply id_is_false. congruence. Qed.

(** [get_by_id] builds an object from the row its SELECT fetched: it
    raises when there is one and returns None when there is none. *)
Lemma get_by_id_raises_on_a_row (j : Z) (db : Db) :
  fst (Raises.Unidade_get_by_id j db)
  = match fst (Unidade_get_by_id j db) with
    | Some _ => inl Raises.TypeError
    | None => inr None
    end.
Proof.
  unfold Raises.Unidade_get_by_id, Unidade_get_by_id, select, bind, issue, ret.
  cbn [fst snd]. destruct (unidades _) as [rows|]; [|reflexivity].
  destruct (filter _ rows); reflexivity.
Qed.

(** The row the SELECT of [get_by_id] fetches after an insert. *)
Lemma unidade_insert_row (self : Unidade.t) (db : Db) (urows : list Unidade.t) :
  Unidade.id self = None ->
  Unidade.validate self = [] ->
  unidades db = Some urows ->
  let i := lastrowid Unidade.id urows in
  Unidade_save self db
  = ((true, Unidade.with_id self (Some i)),
     set_unidades (set_issued db (issued db ++ [INSERT "unidades"]))
                  (Some (urows ++ [Unidade.with_id self (Some i)])))
  /\ fst (Unidade_get_by_id i (snd (Unidade_save self db)))
     = Some (Unidade.with_id self (Some i)).
Proof.
  intros Hid Hval Hu i.
  unfold Unidade_save. rewrite Hval, Hid. cbn [Py.truthy_list].
  destruct db as [im un us at_ de se lo iss]. simpl in Hu. subst un.
  unfold Unidade_get_by_id, bind, insert, select, issue, commit, ret. simpl. fold i.
  split; [reflexivity|].
  change (fetchone (Some (filter (fun u => id_is i (Unidade.id u))
                                 (urows ++ [Unidade.with_id self (Some i)])))
          = Some (Unidade.with_id self (Some i))).
  apply fetchone_app_new.
  - intros r Hr. apply id_is_false. intros Hri.
    pose proof (lastrowid_above Unidade.id urows r Hr Hri). fold i in H. lia.
  - destruct self. simpl. apply Z.eqb_refl.
Qed.

(** X3: a valid unit saved with no id (its property id within 64 bits, unit
    table present) is stored: save returns true, the
    object carries a new id, the unit table gains the one row of that id
    with the unit's columns and the INSERT is the only statement.  But
    get_by_id on the new id cannot return the unit: it finds the row and
    raises TypeError from the constructor. *)
Theorem X3_unidade_insert_then_get :
  forall (self : Unidade.t) (db : Db) (urows : list Unidade.t),
    Unidade.id self = None ->
    Unidade.validate self = [] ->
    bindable (Unidade.imovel_id self) ->
    unidades db = Some urows ->
    exists i : Z,
      ~ In (Some i) (map Unidade.id urows)
      /\ fst (Unidade_save self db) = (true, Unidade.with_id self (Some i))
      /\ unidades (snd (Unidade_save self db))
         = Some (urows ++ [Unidade.with_id self (Some i)])
      /\ issued (snd (Unidade_save self db)) = issued db ++ [INSERT "unidades"]
      /\ fst (Raises.Unidade_get_by_id i (snd (Unidade_save self db)))
         = inl Raises.TypeError.
Proof.
  intros self db urows Hid Hval _ Hu.
  exists (lastrowid Unidade.id urows). split; [apply lastrowid_not_in|].
  destruct (unidade_insert_row self db Hid Hval Hu) as [Hsave Hrow].
  cbv zeta in Hsave, Hrow.
  split; [now rewrite Hsave|]. split; [now rewrite Hsave|].
  split; [now rewrite Hsave|].
  rewrite get_by_id_raises_on_a_row. now rewrite Hrow.
Qed.

Definition apto_solto : Unidade.t := Unidade.mk None (Some 4) "Apto 21" None.

Lemma X3_unidade_insert_witness :
  exists i : Z,
    fst (Unidade_save apto_solto empty_db) = (true, Unidade.with_id apto_solto (Some i))
    /\ fst (Raises.Unidade_get_by_id i (snd (Unidade_save apto_solto empty_db)))
       = inl Raises.TypeError.
Proof.
  assert (Hb : bindable (Unidade.imovel_id apto_solto)) by (simpl; unfold int64; lia).
  destruct (@X3_unidade_insert_then_get apto_solto empty_db [] eq_refl eq_refl Hb eq_refl)
    as [i [_ [H1 [_ [_ H2]]]]].
  exists i. split; [exact H1|exact H2].
Defined.

Lemma filter_map_replace (self : Unidade.t) (i j : Z) (rows : list Unidade.t) :
  Unidade.id self = Some i ->
  filter (fun u => id_is j (Unidade.id u))
         (map (fun r => match Unidade.id r with
                        | Some k => if k =? i then self else r
                        | None => r
                        end) rows)
  = map (fun r => if id_is i (Unidade.id r) then self else r)
        (filter (fun u => id_is j (Unidade.id u)) rows).
Proof.
  intros Hself. induction rows as [|r rows IH]; [reflexivity|].
  cbn [map filter]. destruct (Unidade.id r) as [k|] eqn:Ek.
  - cbn [id_is]. destruct (k =? i) eqn:Eki.
    + apply Z.eqb_eq in Eki. subst k. rewrite Hself. cbn [id_is].
      destruct (i =? j); [|exact IH].
      cbn [map]. rewrite Ek. cbn [id_is]. rewrite Z.eqb_refl. now rewrite IH.
    + rewrite Ek. cbn [id_is]. destruct (k =? j); [|exact IH].
      cbn [map]. rewrite Ek. cbn [id_is]. rewrite Eki. now rewrite IH.
  - rewrite Ek. exact IH.
Qed.

(** The rows the SELECT of [get_by_id] fetches after an update. *)
Lemma unidade_update_rows (self : Unidade.t) (db : Db) (urows : list Unidade.t) (i : Z) :
  Unidade.id self = Some i ->
  Unidade.validate self = [] ->
  unidades db = Some urows ->
  let res := Unidade_save self db in
  fst res = (true, self)
  /\ issued (snd res) = issued db ++ [UPDATE "unidades"]
  /\ unidades (snd res)
     = Some (map (fun r => if id_is i (Unidade.id r) then self else r) urows)
  /\ ((exists r, In r urows /\ Unidade.id r = Some i) ->
      fst (Unidade_get_by_id i (snd res)) = Some self)
  /\ ((forall r, In r urows -> Unidade.id r <> Some i) ->
      fst (Unidade_get_by_id i (snd res)) = None)
  /\ (forall j, j <> i ->
                fst (Unidade_get_by_id j (snd res)) = fst (Unidade_get_by_id j db)).
Proof.
  intros Hid Hval Hu res. subst res.
  unfold Unidade_save. rewrite Hval, Hid. cbn [Py.truthy_list].
  destruct db as [im un us at_ de se lo iss]. simpl in Hu. subst un.
  unfold Unidade_get_by_id, bind, update, select, issue, commit, ret. simpl.
  split; [reflexivity|]. split; [reflexivity|]. split; [|split; [|split]].
  - f_equal. apply map_ext. intros r. unfold id_is. destruct (Unidade.id r); reflexivity.
  - intros [r [Hr Hri]]. rewrite (@filter_map_replace self i i urows Hid).
    destruct (filter (fun u => id_is i (Unidade.id u)) urows) as [|a l] eqn:Ef.
    + exfalso. assert (Hin : In r (filter (fun u => id_is i (Unidade.id u)) urows)).
      { apply filter_In. split; [exact Hr|]. now apply id_is_true. }
      rewrite Ef in Hin. exact Hin.
    + assert (Ha : In a (filter (fun u => id_is i (Unidade.id u)) urows))
        by (rewrite Ef; now left).
      apply filter_In in Ha. destruct Ha as [_ Ha]. cbn [map]. now rewrite Ha.
  - intros Hnone. rewrite (@filter_map_replace self i i urows Hid).
    rewrite (filter_none (fun u => id_is i (Unidade.id u)) urows); [reflexivity|].
    intros r Hr. apply id_is_false. now apply Hnone.
  - intros j Hj. rewrite (@filter_map_replace self i j urows Hid). f_equal.
    destruct (filter (fun u => id_is j (Unidade.id u)) urows) as [|a l] eqn:Ef; [reflexivity|].
    assert (Ha : In a (filter (fun u => id_is j (Unidade.id u)) urows))
      by (rewrite Ef; now left).
    apply filter_In in Ha. destruct Ha as [_ Ha]. apply id_is_true in Ha.
    cbn [map]. rewrite Ha.
    assert (Hij : i <> j) by congruence. now rewrite (id_is_other Hij).
Qed.

(** X4: saving a valid unit that has an id (the id and the property id
    within 64 bits, unit table present) returns
    true whether or not a row of that id is stored: the UPDATE rewrites
    the rows of that id with the unit's columns and leaves the others, so
    with no such row the table is unchanged and the save is lost without a
    sign.  Afterwards get_by_id on the id raises TypeError when a row of
    the id is stored and returns None when none is, and on every other id
    it does what it did before the save. *)
Theorem X4_unidade_update_then_get :
  forall (self : Unidade.t) (db : Db) (urows : list Unidade.t) (i : Z),
    Unidade.id self = Some i ->
    Unidade.validate self = [] ->
    int64 i ->
    bindable (Unidade.imovel_id self) ->
    unidades db = Some urows ->
    let res := Unidade_save self db in
    fst res = (true, self)
    /\ issued (snd res) = issued db ++ [UPDATE "unidades"]
    /\ unidades (snd res)
       = Some (map (fun r => if id_is i (Unidade.id r) then self else r) urows)
    /\ ((exists r, In r urows /\ Unidade.id r = Some i) ->
        fst (Raises.Unidade_get_by_id i (snd res)) = inl Raises.TypeError)
    /\ ((forall r, In r urows -> Unidade.id r <> Some i) ->
        unidades (snd res) = Some urows
        /\ fst (Raises.Unidade_get_by_id i (snd res)) = inr None)
    /\ (forall j, j <> i ->
                  fst (Raises.Unidade_get_by_id j (snd res))
                  = fst (Raises.Unidade_get_by_id j db)).
Proof.
  intros self db urows i Hid Hval _ _ Hu res.
  destruct (unidade_update_rows self db Hid Hval Hu) as [H1 [H2 [H3 [H4 [H5 H6]]]]].
  fold res in H1, H2, H3, H4, H5, H6.
  split; [exact H1|]. split; [exact H2|]. split; [exact H3|]. split; [|split].
  - intros Hrow. rewrite get_by_id_raises_on_a_row. now rewrite (H4 Hrow).
  - intros Hnone. split.
    + rewrite H3. f_equal. rewrite <- (map_id urows) at 2. apply map_ext_in.
      intros r Hr. rewrite id_is_false; [reflexivity|]. now apply Hnone.
    + rewrite get_by_id_raises_on_a_row. now rewrite (H5 Hnone).
  - intros j Hj. rewrite !get_by_id_raises_on_a_row. now rewrite (H6 j Hj).
Qed.

Definition apto7 : Unidade.t := Unidade.mk (Some 7) (Some 4) "Apto 21" None.
Definition apto7_novo : Unidade.t := Unidade.mk (Some 7) (Some 4) "Apto 22" (Some "fundos"%string).

Definition db_apto7 : Db :=
  mkDb (Some []) (Some [apto7]) (Some []) (Some []) (Some []) (Some []) (Some []) [].

Lemma X4_unidade_update_witness :
  fst (Unidade_save apto7_novo db_apto7) = (true, apto7_novo)
  /\ unidades (snd (Unidade_save apto7_novo db_apto7)) = Some [apto7_novo]
  /\ fst (Raises.Unidade_get_by_id 7 (snd (Unidade_save apto7_novo db_apto7)))
     = inl Raises.TypeError.
Proof.
  assert (H7 : int64 7) by (unfold int64; lia).
  assert (Hb : bindable (Unidade.imovel_id apto7_novo)) by (simpl; unfold int64; lia).
  destruct (@X4_unidade_update_then_get apto7_novo db_apto7 [apto7] 7
              eq_refl eq_refl H7 Hb eq_refl)
    as [H1 [_ [H3 [H4 _]]]].
  split; [exact H1|]. split; [exact H3|].
  apply H4. exists apto7. split; [now left|reflexivity].
Defined.

(** X5: delete on a unit with an id (unit table present) returns true,
    after which get_by_id on that id returns None while every other id
    returns what it returned before; delete on a unit without id returns
    false and hands nothing to the gateway. *)
Theorem X5_unidade_delete_then_get :
  forall (self : Unidade.t) (db : Db),
    (Unidade.id self = None -> Unidade_delete self db = (false, db))
    /\ (forall i urows,
           Unidade.id self = Some i ->
           unidades db = Some urows ->
           fst (Unidade_delete self db) = true
           /\ fst (Unidade_get_by_id i (snd (Unidade_delete self db))) = None
           /\ forall j, j <> i ->
                        fst (Unidade_get_by_id j (snd (Unidade_delete self db)))
                        = fst (Unidade_get_by_id j db)).
Proof.
  intros self db. unfold Unidade_delete, delete_by_id. split.
  - intros ->. reflexivity.
  - intros i urows Hid Hu. rewrite Hid.
    destruct db as [im un us at_ de se lo iss]. simpl in Hu. subst un.
    unfold Unidade_get_by_id, bind, delete_rows, select, issue, commit, ret. simpl.
    split; [reflexivity|]. split.
    + rewrite filter_filter. rewrite filter_none; [reflexivity|].
      intros r _. destruct (id_is i (Unidade.id r)); reflexivity.
    + intros j Hj. rewrite filter_filter.
      rewrite (filter_ext (fun x => negb (id_is i (Unidade.id x)) && id_is j (Unidade.id x))
                          (fun u => id_is j (Unidade.id u))); [reflexivity|].
      intros r. destruct (id_is j (Unidade.id r)) eqn:Ej; [|apply andb_false_r].
      apply id_is_true in Ej. rewrite Ej. rewrite andb_true_r.
      apply negb_true_iff. apply id_is_other. congruence.
Qed.

Lemma X5_unidade_delete_witness :
  fst (Unidade_delete apto7 db_apto7) = true
  /\ fst (Unidade_get_by_id 7 (snd (Unidade_delete apto7 db_apto7))) = None
  /\ Unidade_delete apto_solto db_apto7 = (false, db_apto7).
Proof.
  destruct (X5_unidade_delete_then_get apto7 db_apto7) as [_ H].
  destruct (H 7 [apto7] eq_refl eq_refl) as [H1 [H2 _]].
  split; [exact H1|]. split; [exact H2|].
  exact (proj1 (X5_unidade_delete_then_get apto_solto db_apto7) eq_refl).
Defined.

(** ** Users: save, look up, passwords and the two ways to log in *)

(** X6: a valid new user whose email no stored user holds is inserted:
    save returns true, the object carries a new id, and the user table
    gains the one row of that id with the user's name, email, hash, level
    and active flag.  From then on neither look-up can return the user:
    get_by_email on the email and get_by_id on the new id find the row and
    raise TypeError from the constructor. *)
Theorem X6_usuario_insert_then_get :
  forall (self : Usuario.t) (db : Db) (rows : list Usuario.t),
    Usuario.id self = None ->
    Usuario.validate self = [] ->
    usuarios db = Some rows ->
    (forall r, In r rows -> Usuario.email r <> Usuario.email self) ->
    exists i : Z,
      ~ In (Some i) (map Usuario.id rows)
      /\ fst (Raises.Usuario_save self db) = (inr true, Usuario.with_id self (Some i))
      /\ usuarios (snd (Raises.Usuario_save self db))
         = Some (rows ++ [usuario_row self i None])
      /\ fst (Raises.Usuario_get_by_email (Usuario.email self)
                                          (snd (Raises.Usuario_save self db)))
         = inl Raises.TypeError
      /\ fst (Raises.Usuario_get_by_id i (snd (Raises.Usuario_save self db)))
         = inl Raises.TypeError.
Proof.
  intros self db rows Hid Hval Hu Hfree.
  exists (lastrowid Usuario.id rows). split; [apply lastrowid_not_in|].
  set (i := lastrowid Usuario.id rows).
  unfold Raises.Usuario_save. rewrite Hval, Hid. cbn [Py.truthy_list].
  destruct db as [im un us at_ de se lo iss]. simpl in Hu. subst us.
  assert (Hnone : filter (fun u => (Usuario.email u =? Usuario.email self)%string) rows = []).
  { apply filter_none. intros r Hr. apply String.eqb_neq. now apply Hfree. }
  unfold Raises.Usuario_get_by_email, Raises.Usuario_get_by_id,
    insert, select, bind, issue, commit, ret.
  simpl. rewrite Hnone. simpl. fold i.
  split; [reflexivity|]. split; [reflexivity|]. split.
  - assert (E : fetchone (Some (filter (fun u => (Usuario.email u =? Usuario.email self)%string)
                                       (rows ++ [usuario_row self i None])))
                = Some (usuario_row self i None)).
    { apply fetchone_app_new.
      + intros r Hr. apply String.eqb_neq. now apply Hfree.
      + simpl. apply String.eqb_refl. }
    simpl in E. now rewrite E.
  - assert (E : fetchone (Some (filter (fun u => id_is i (Usuario.id u))
                                       (rows ++ [usuario_row self i None])))
                = Some (usuario_row self i None)).
    { apply fetchone_app_new.
      + intros r Hr. apply id_is_false. intros Hri.
        pose proof (lastrowid_above Usuario.id rows r Hr Hri). fold i in H. lia.
      + simpl. apply Z.eqb_refl. }
    simpl in E. now rewrite E.
Qed.

Definition caio : Usuario.t :=
  Usuario.mk None "Caio" "caio@example.org" (Some "0102:01026162"%string) (Some 2) true None.

Lemma X6_usuario_insert_witness :
  exists i : Z,
    fst (Raises.Usuario_save caio db_ana) = (inr true, Usuario.with_id caio (Some i))
    /\ fst (Raises.Usuario_get_by_email "caio@example.org"
                                        (snd (Raises.Usuario_save caio db_ana)))
       = inl Raises.TypeError.
Proof.
  assert (Hfree : forall r, In r [ana] -> Usuario.email r <> Usuario.email caio).
  { intros r [<-|[]]. simpl. discriminate. }
  destruct (@X6_usuario_insert_then_get caio db_ana [ana] eq_refl eq_refl eq_refl Hfree)
    as [i [_ [H1 [_ [H2 _]]]]].
  exists i. split; [exact H1|exact H2].
Defined.

(** X7: a password set with definir_senha is checked against exactly that
    password's hash: verificar_senha on a candidate returns true when the
    candidate's PBKDF2 hash under the stored salt equals the hash of the
    password that was set, and false otherwise; so the password itself is
    always accepted, whatever the salt. *)
Theorem X7_definir_then_verificar :
  forall (pbkdf2 : bytes -> bytes -> Z -> bytes) (self : Usuario.t)
         (salt : bytes) (senha candidata : string),
    Usuario_verificar_senha pbkdf2 (Usuario_definir_senha pbkdf2 self salt senha) candidata
    = (pbkdf2 (encode_utf8 candidata) salt DEFAULT_PASSWORD_ITERATIONS
       =? pbkdf2 (encode_utf8 senha) salt DEFAULT_PASSWORD_ITERATIONS)%string
    /\ Usuario_verificar_senha pbkdf2 (Usuario_definir_senha pbkdf2 self salt senha) senha = true.
Proof.
  intros pbkdf2 self salt senha candidata.
  assert (H : forall c,
             Usuario_verificar_senha pbkdf2 (Usuario_definir_senha pbkdf2 self salt senha) c
             = (pbkdf2 (encode_utf8 c) salt DEFAULT_PASSWORD_ITERATIONS
                =? pbkdf2 (encode_utf8 senha) salt DEFAULT_PASSWORD_ITERATIONS)%string).
  { intros c. rewrite Usuario_verificar_senha_eq.
    unfold AuthService__verificar_senha, verificar_try.
    cbn [Usuario_definir_senha Usuario.senha_hash].
    rewrite split_two by apply hex_no_colon.
    now rewrite !fromhex_hex. }
  split; [apply H|]. rewrite H. apply String.eqb_refl.
Qed.

(** The first active row with the email decides [authenticate]. *)
Lemma authenticate_by_first_row (pbkdf2 : bytes -> bytes -> Z -> bytes) (env : Env)
      (email senha : string) (db : Db) (rows : list Usuario.t) :
  usuarios db = Some rows ->
  let res := AuthService_authenticate pbkdf2 env email senha db in
  match filter (fun u => (Usuario.email u =? email)%string && Usuario.ativo u) rows with
  | [] => res = ((false, None), set_issued db (issued db ++ [SELECT "usuarios"]))
  | u :: _ =>
      if AuthService__verificar_senha pbkdf2 senha (Usuario.senha_hash u)
      then fst res = (true, Some (u, token_hex env))
      else res = ((false, None), set_issued db (issued db ++ [SELECT "usuarios"]))
  end.
Proof.
  intros Hu res. subst res.
  destruct db as [im un us at_ de se lo iss]. simpl in Hu. subst us.
  unfold AuthService_authenticate, bind, select, issue, ret. simpl.
  destruct (filter (fun u => (Usuario.email u =? email)%string && Usuario.ativo u) rows)
    as [|u l]; [reflexivity|]. simpl.
  destruct (AuthService__verificar_senha pbkdf2 senha (Usuario.senha_hash u)); simpl;
    [|reflexivity].
  unfold toca_ultima_atividade, AuthService_criar_sessao, AuthService__registrar_login,
    insert_plain, update, bind, issue, commit, ret.
  destruct (Usuario.id u); simpl; destruct se, lo; reflexivity.
Qed.

(** X8: a failed authenticate writes nothing: whenever it returns false,
    every table is as before and all it handed to the gateway is the one
    SELECT on the user table (no session, no log entry, no update). *)
Theorem X8_failed_login_writes_nothing :
  forall (pbkdf2 : bytes -> bytes -> Z -> bytes) (env : Env)
         (email senha : string) (db : Db),
    fst (fst (AuthService_authenticate pbkdf2 env email senha db)) = false ->
    AuthService_authenticate pbkdf2 env email senha db
    = ((false, None), set_issued db (issued db ++ [SELECT "usuarios"])).
Proof.
  intros pbkdf2 env email senha db Hfail.
  destruct (usuarios db) as [rows|] eqn:Hu.
  - pose proof (authenticate_by_first_row pbkdf2 env email senha db Hu) as H.
    cbv zeta in H.
    destruct (filter (fun u => (Usuario.email u =? email)%string && Usuario.ativo u) rows)
      as [|u l]; [exact H|].
    destruct (AuthService__verificar_senha pbkdf2 senha (Usuario.senha_hash u)); [|exact H].
    rewrite H in Hfail. discriminate Hfail.
  - destruct db as [im un us at_ de se lo iss]. simpl in Hu. subst us. reflexivity.
Qed.

Lemma X8_failed_login_witness :
  AuthService_authenticate toy_pbkdf2 env0 "bia@example.org" "errada" db_bia
  = ((false, None), set_issued db_bia [SELECT "usuarios"]).
Proof.
  exact (X8_failed_login_writes_nothing toy_pbkdf2 env0 "bia@example.org" "errada" db_bia
           eq_refl).
Defined.

Lemma filter_unique_email (email : string) (rows : list Usuario.t) :
  NoDup (map Usuario.email rows) ->
  filter (fun u => (Usuario.email u =? email)%string) rows = []
  \/ exists u, filter (fun u => (Usuario.email u =? email)%string) rows = [u].
Proof.
  induction rows as [|a l IH]; intros Hnd; [now left|].
  simpl in Hnd. apply NoDup_cons_iff in Hnd. destruct Hnd as [Ha Hnd].
  simpl. destruct (Usuario.email a =? email)%string eqn:E; [|now apply IH].
  right. exists a. f_equal. apply filter_none. intros r Hr.
  apply String.eqb_neq. intros Hre. apply String.eqb_eq in E.
  apply Ha. rewrite E, <- Hre. now apply in_map.
Qed.

(** X9: the two login paths do not agree.  Usuario.verificar_credenciais
    never returns a user: when a stored row holds the email it raises
    TypeError, from the constructor that get_by_email calls, whatever the
    password and whether or not the user is active; when none does it
    returns None, and AuthService.authenticate, which builds no object,
    returns (False, None).  For an active user with the right password
    (emails unique) authenticate succeeds where verificar_credenciais
    raises. *)
Theorem X9_verificar_credenciais_never_logs_in :
  forall (pbkdf2 : bytes -> bytes -> Z -> bytes) (env : Env)
         (email senha : string) (db : Db) (rows : list Usuario.t),
    usuarios db = Some rows ->
    (forall u, fst (Raises.Usuario_verificar_credenciais pbkdf2 email senha db)
               <> inr (Some u))
    /\ ((exists r, In r rows /\ Usuario.email r = email) ->
        fst (Raises.Usuario_verificar_credenciais pbkdf2 email senha db)
        = inl Raises.TypeError)
    /\ ((forall r, In r rows -> Usuario.email r <> email) ->
        fst (Raises.Usuario_verificar_credenciais pbkdf2 email senha db) = inr None
        /\ fst (AuthService_authenticate pbkdf2 env email senha db) = (false, None))
    /\ (forall r, NoDup (map Usuario.email rows) ->
                  In r rows -> Usuario.email r = email -> Usuario.ativo r = true ->
                  AuthService__verificar_senha pbkdf2 senha (Usuario.senha_hash r) = true ->
                  fst (AuthService_authenticate pbkdf2 env email senha db)
                  = (true, Some (r, token_hex env))).
Proof.
  intros pbkdf2 env email senha db rows Hu.
  assert (Hcred :
            fst (Raises.Usuario_verificar_credenciais pbkdf2 email senha db)
            = match filter (fun u => (Usuario.email u =? email)%string) rows with
              | [] => inr None
              | _ :: _ => inl Raises.TypeError
              end).
  { destruct db as [im un us at_ de se lo iss]. simpl in Hu. subst us.
    unfold Raises.Usuario_verificar_credenciais, Raises.Usuario_get_by_email,
      select, bind, issue, ret. simpl.
    destruct (filter (fun u => (Usuario.email u =? email)%string) rows); reflexivity. }
  pose proof (authenticate_by_first_row pbkdf2 env email senha db Hu) as H. cbv zeta in H.
  split; [|split; [|split]].
  - intros u. rewrite Hcred.
    destruct (filter (fun u0 => (Usuario.email u0 =? email)%string) rows); discriminate.
  - intros [r [Hr Hemail]]. rewrite Hcred.
    assert (Hin : In r (filter (fun u => (Usuario.email u =? email)%string) rows))
      by (apply filter_In; split; [exact Hr|now apply String.eqb_eq]).
    destruct (filter (fun u => (Usuario.email u =? email)%string) rows);
      [contradiction|reflexivity].
  - intros Hnone.
    assert (E : filter (fun u => (Usuario.email u =? email)%string) rows = []).
    { apply filter_none. intros r Hr. apply String.eqb_neq. now apply Hnone. }
    rewrite Hcred, E. split; [reflexivity|].
    assert (E2 : filter (fun u => (Usuario.email u =? email)%string && Usuario.ativo u) rows
                 = []).
    { apply filter_none. intros r Hr.
      assert (Hf : (Usuario.email r =? email)%string = false)
        by (apply String.eqb_neq; now apply Hnone).
      now rewrite Hf. }
    rewrite E2 in H. now rewrite H.
  - intros r Hnd Hr Hemail Hat Hpw.
    assert (Hin : In r (filter (fun u => (Usuario.email u =? email)%string) rows))
      by (apply filter_In; split; [exact Hr|now apply String.eqb_eq]).
    assert (E : filter (fun u => (Usuario.email u =? email)%string && Usuario.ativo u) rows
                = [r]).
    { rewrite <- filter_filter.
      destruct (filter_unique_email email rows Hnd) as [E|[u E]]; rewrite E in Hin |- *.
      - contradiction.
      - destruct Hin as [->|[]]. simpl. now rewrite Hat. }
    rewrite E, Hpw in H. exact H.
Qed.

Lemma X9_verificar_credenciais_witness :
  fst (Raises.Usuario_verificar_credenciais toy_pbkdf2 "bia@example.org" "ab" db_bia)
  = inl Raises.TypeError
  /\ fst (AuthService_authenticate toy_pbkdf2 env0 "bia@example.org" "ab" db_bia)
     = (true, Some (bia, token_hex env0)).
Proof.
  destruct (@X9_verificar_credenciais_never_logs_in toy_pbkdf2 env0 "bia@example.org" "ab"
              db_bia [bia] eq_refl) as [_ [H2 [_ H4]]].
  split.
  - apply H2. exists bia. split; [now left|reflexivity].
  - apply H4; try reflexivity.
    + simpl. repeat constructor. intros [].
    + now left.
Defined.

(** ** What save lets into the tables *)

Lemma if_nil {A} (b : bool) (x : A) : (if b then [x] else []) = [] -> b = false.
Proof. destruct b; [discriminate|reflexivity]. Qed.

Lemma Forall_snoc {A} (P : A -> Prop) (l : list A) (x : A) :
  Forall P l -> P x -> Forall P (l ++ [x]).
Proof. intros Hl Hx. apply Forall_app. split; [exact Hl|now constructor]. Qed.

Lemma Forall_map_id_or {A} (P : A -> Prop) (id : A -> option Z) (i : Z) (f : A -> A)
      (l : list A) :
  (forall r, P r -> P (f r)) -> Forall P l ->
  Forall P (map (fun r => match id r with
                          | Some j => if j =? i then f r else r
                          | None => r
                          end) l).
Proof.
  intros Hf Hl. induction Hl as [|r l Hr _ IH]; simpl; constructor; [|exact IH].
  destruct (id r) as [j|]; [|exact Hr]. destruct (j =? i); [now apply Hf|exact Hr].
Qed.

Lemma designacao_valid_status (self : Designacao.t) :
  Designacao.validate self = [] -> status_ok (Designacao.status self).
Proof.
  unfold Designacao.validate. intros H. apply app_eq_nil in H. destruct H as [_ H].
  unfold status_ok. apply str_in_In.
  destruct (Py.str_in (Designacao.status self) Designacao.status_validos);
    [reflexivity|discriminate].
Qed.

(** X10: the assignment table only ever holds the two status values: when
    every stored assignment has status "ativo" or "concluido", so has every
    stored assignment after any save (insert or update, accepted or not)
    and after any concluir. *)
Theorem X10_stored_status_stays_valid :
  forall (self : Designacao.t) (db : Db) (rows : list Designacao.t),
    designacoes db = Some rows ->
    Forall (fun r => status_ok (Designacao.status r)) rows ->
    (exists rows', designacoes (snd (Designacao_save self db)) = Some rows'
                   /\ Forall (fun r => status_ok (Designacao.status r)) rows')
    /\ (exists rows', designacoes (snd (Designacao_concluir self db)) = Some rows'
                      /\ Forall (fun r => status_ok (Designacao.status r)) rows').
Proof.
  intros self db rows Hd Hall.
  destruct db as [im un us at_ de se lo iss]. simpl in Hd. subst de. split.
  - unfold Designacao_save.
    destruct (Designacao.validate self) as [|e es] eqn:Hval; cbn [Py.truthy_list].
    2:{ exists rows. now split. }
    pose proof (designacao_valid_status self Hval) as Hok.
    destruct (Designacao.id self) as [i|];
      unfold bind, insert, update, issue, commit, ret; simpl; eexists; (split; [reflexivity|]).
    + apply Forall_map_id_or; [|exact Hall]. intros _ _. exact Hok.
    + apply Forall_snoc; [exact Hall|]. destruct self; exact Hok.
  - unfold Designacao_concluir. destruct (Designacao.id self) as [i|].
    2:{ exists rows. now split. }
    unfold bind, update, issue, commit, ret; simpl. eexists. split; [reflexivity|].
    apply Forall_map_id_or; [|exact Hall]. intros r _. simpl. right. now left.
Qed.

Definition designacao_invalida : Designacao.t :=
  Designacao.mk None (Some 1) (Some 1) "2024-05-01" None None "pendente".

Lemma X10_stored_status_witness :
  designacoes (snd (Designacao_save designacao_invalida db_designacao7)) = Some [designacao7]
  /\ exists rows', designacoes (snd (Designacao_concluir designacao7 db_designacao7)) = Some rows'
                   /\ Forall (fun r => status_ok (Designacao.status r)) rows'.
Proof.
  assert (Hall : Forall (fun r => status_ok (Designacao.status r)) [designacao7]).
  { constructor; [|constructor]. simpl. now left. }
  destruct (@X10_stored_status_stays_valid designacao7 db_designacao7 [designacao7]
              eq_refl Hall) as [_ H].
  split; [reflexivity|exact H].
Defined.

(** A stored property is well-formed: its kind is one of the four, and a
    building or village-block has a unit count that is not zero. *)
Definition imovel_ok (r : Imovel.t) : Prop :=
  In (Imovel.tipo r) Imovel.tipos_validos
  /\ (In (Imovel.tipo r) ["predio"; "vila"]%string -> Py.truthy_int (Imovel.total_unidades r) = true).

Lemma imovel_valid_ok (self : Imovel.t) : Imovel.validate self = [] -> imovel_ok self.
Proof.
  unfold Imovel.validate. intros H.
  apply app_eq_nil in H. destruct H as [Hreq H].
  apply app_eq_nil in H. destruct H as [Htipo Htot].
  apply if_nil in Htipo. apply if_nil in Htot.
  unfold Validation.validate_required_fields in Hreq. apply map_eq_nil in Hreq.
  split.
  - apply str_in_In.
    destruct (Py.str_in (Imovel.tipo self) Imovel.tipos_validos) eqn:E; [reflexivity|].
    rewrite andb_true_r in Htipo. unfold Py.truthy_str in Htipo.
    apply negb_false_iff in Htipo. apply String.eqb_eq in Htipo.
    exfalso. cbn [filter fst Validation.missing] in Hreq. rewrite Htipo in Hreq.
    cbn [Py.blank] in Hreq.
    destruct (Validation.missing (Py.of_int (Imovel.rua_id self)));
      destruct (Py.blank (Imovel.numero self)); discriminate Hreq.
  - intros Hin. apply str_in_In in Hin. rewrite Hin in Htot. simpl in Htot.
    now apply negb_false_iff in Htot.
Qed.

(** X11: the property table only ever holds well-formed properties: when
    every stored property has one of the four kinds and, if it is a
    "predio" or a "vila", a unit count other than zero, the same holds of
    every stored property after any save. *)
Theorem X11_stored_imoveis_stay_valid :
  forall (self : Imovel.t) (db : Db) (rows : list Imovel.t),
    imoveis db = Some rows ->
    Forall imovel_ok rows ->
    exists rows', imoveis (snd (Imovel_save self db)) = Some rows' /\ Forall imovel_ok rows'.
Proof.
  intros self db rows Hd Hall.
  unfold Imovel_save.
  destruct (Imovel.validate self) as [|e es] eqn:Hval; cbn [Py.truthy_list].
  2:{ exists rows. now split. }
  pose proof (imovel_valid_ok self Hval) as Hok.
  destruct (Imovel.id self) as [i|] eqn:Hid.
  - destruct db as [im un us at_ de se lo iss]. simpl in Hd. subst im.
    unfold bind, update, issue, commit, ret; simpl. eexists. split; [reflexivity|].
    apply Forall_map_id_or; [|exact Hall]. intros _ _. exact Hok.
  - destruct db as [im un us at_ de se lo iss]. simpl in Hd. subst im.
    unfold bind at 1. unfold insert, bind, issue. cbn [fst snd imoveis set_issued set_imoveis].
    unfold commit, ret at 1. cbn beta iota.
    set (i := lastrowid Imovel.id rows).
    set (db1 := mkDb (Some (rows ++ [Imovel.with_id self (Some i)])) un us at_ de se lo
                     (iss ++ [INSERT "imoveis"])).
    assert (Hnew : Forall imovel_ok (rows ++ [Imovel.with_id self (Some i)])).
    { apply Forall_snoc; [exact Hall|]. destruct self; exact Hok. }
    assert (Hkeep : forall prefixo range d,
               imoveis (snd (criar_numeradas prefixo (Some i) range d)) = imoveis d).
    { intros prefixo range. induction range as [|k range IH]; intros d; [reflexivity|].
      cbn [criar_numeradas]. unfold bind.
      destruct (Unidade_save (Unidade.mk None (Some i) (prefixo ++ Py.fmt_02d k)%string None) d)
        as [r d1] eqn:Es.
      rewrite IH.
      assert (Hs : imoveis (snd (Unidade_save
                                   (Unidade.mk None (Some i) (prefixo ++ Py.fmt_02d k)%string None) d))
                   = imoveis d).
      { unfold Unidade_save.
        destruct (Py.truthy_list (Unidade.validate
                    (Unidade.mk None (Some i) (prefixo ++ Py.fmt_02d k)%string None)));
          [reflexivity|].
        cbn [Unidade.id]. unfold bind, insert, issue, commit, ret.
        destruct d as [im' un' us' at' de' se' lo' iss']. simpl. destruct un'; reflexivity. }
      now rewrite Es in Hs. }
    exists (rows ++ [Imovel.with_id self (Some i)]). split; [|exact Hnew].
    destruct (gera_unidades (Imovel.with_id self (Some i))); [|reflexivity].
    unfold Imovel__criar_unidades, bind, ret.
    destruct (Imovel.total_unidades (Imovel.with_id self (Some i))) as [n|]; [|reflexivity].
    replace (Imovel.id (Imovel.with_id self (Some i))) with (Some i)
      by (destruct self; reflexivity).
    destruct (Imovel.tipo (Imovel.with_id self (Some i)) =? "predio")%string;
      match goal with
      | |- context [criar_numeradas _ _ _ ?d] => change d with db1
      end.
    + pose proof (Hkeep "Apto "%string (seq 1 (Z.to_nat n)) db1) as Hk.
      destruct (criar_numeradas "Apto " (Some i) (seq 1 (Z.to_nat n)) db1). exact Hk.
    + pose proof (Hkeep "Casa "%string (seq 1 (Z.to_nat n)) db1) as Hk.
      destruct (criar_numeradas "Casa " (Some i) (seq 1 (Z.to_nat n)) db1). exact Hk.
Qed.

Lemma X11_stored_imoveis_witness :
  exists rows', imoveis (snd (Imovel_save predio5 empty_db)) = Some rows'
                /\ Forall imovel_ok rows'.
Proof.
  exact (@X11_stored_imoveis_stay_valid predio5 empty_db [] eq_refl (Forall_nil _)).
Defined.

(** ** The schema validator and its repair *)

Lemma filter_nil_none {A} (f : A -> bool) (l : list A) :
  filter f l = [] -> forall x, In x l -> f x = false.
Proof.
  intros H x Hx. destruct (f x) eqn:E; [|reflexivity].
  assert (Hin : In x (filter f l)) by (apply filter_In; now split).
  rewrite H in Hin. contradiction.
Qed.

Lemma flat_map_nil_each {A B} (f : A -> list B) (l : list A) :
  flat_map f l = [] -> forall x, In x l -> f x = [].
Proof.
  induction l as [|a l IH]; simpl; intros H x Hx; [contradiction|].
  apply app_eq_nil in H. destruct H as [Ha Hl].
  destruct Hx as [<-|Hx]; [exact Ha|now apply IH].
Qed.

Lemma truthy_list_false {A} (l : list A) : Py.truthy_list l = false -> l = [].
Proof. destruct l; [reflexivity|discriminate]. Qed.

Lemma set_minus_nil_incl (a b : list string) : set_minus a b = [] -> incl a b.
Proof.
  intros H x Hx. apply str_in_In.
  pose proof (filter_nil_none _ _ H x Hx) as Hf. now apply negb_false_iff in Hf.
Qed.

(** X12: validate_schema misses nothing the manifest names: whenever it
    answers valid, its list of problems is empty and the live schema has
    every manifest table, every manifest column of each and every expected
    index. *)
Theorem X12_valid_means_manifest_present :
  forall db : Schema,
    fst (validate_schema db) = true ->
    snd (validate_schema db) = [] /\ contains_manifest db.
Proof.
  intros db H. unfold validate_schema in *. cbn [fst snd] in *.
  apply Nat.eqb_eq in H. apply length_zero_iff_nil in H.
  split; [exact H|].
  apply app_eq_nil in H. destruct H as [H1 H].
  apply app_eq_nil in H. destruct H as [H2 H3].
  assert (Hall : incl (map fst _get_expected_tables) (_get_existing_tables db)).
  { apply set_minus_nil_incl. apply truthy_list_false.
    destruct (Py.truthy_list (set_minus (map fst _get_expected_tables) (_get_existing_tables db)));
      [discriminate H1|reflexivity]. }
  intros t Ht. split; [now apply Hall|]. split.
  - apply set_minus_nil_incl. apply truthy_list_false.
    assert (Hin : In t (set_inter (map fst _get_expected_tables) (_get_existing_tables db))).
    { apply filter_In. split; [exact Ht|]. apply str_in_In. now apply Hall. }
    pose proof (flat_map_nil_each _ _ H2 t Hin) as Hc. cbv beta zeta in Hc.
    destruct (Py.truthy_list
                (set_minus (map fst (dict_get _get_expected_tables t))
                           (map fst (_get_table_columns db t))));
      [discriminate Hc|reflexivity].
  - pose proof (flat_map_nil_each _ _ H3 t (Hall t Ht)) as Hi. cbv beta zeta in Hi.
    intros x Hx. apply str_in_In.
    assert (Hnil : filter (fun idx => negb (Py.str_in idx (_get_table_indices db t)))
                          (_get_expected_indices t) = []).
    { apply truthy_list_false.
      destruct (Py.truthy_list
                  (filter (fun idx => negb (Py.str_in idx (_get_table_indices db t)))
                          (_get_expected_indices t)));
        [discriminate Hi|reflexivity]. }
    pose proof (filter_nil_none _ _ Hnil x Hx) as Hf. now apply negb_false_iff in Hf.
Qed.

Lemma X12_valid_means_manifest_witness :
  snd (validate_schema schema_com_extras) = [] /\ contains_manifest schema_com_extras.
Proof.
  apply X12_valid_means_manifest_present. vm_compute. reflexivity.
Defined.

Lemma flat_map_nil_perm (f g : string -> list string) (l l' : list string) :
  Permutation l' l ->
  (forall x, f x = [] <-> g x = []) ->
  flat_map f l' = [] <-> flat_map g l = [].
Proof.
  intros Hp Hfg. split; intros H; apply flat_map_nil; intros x Hx.
  - apply Hfg. apply (flat_map_nil_each _ _ H).
    apply (Permutation_in _ (Permutation_sym Hp)). exact Hx.
  - apply Hfg. apply (flat_map_nil_each _ _ H).
    apply (Permutation_in _ Hp). exact Hx.
Qed.

Lemma no_problems_iff (a b c a' b' : list string) :
  (a = [] <-> a' = []) -> (b = [] <-> b' = []) ->
  (List.length (a ++ b ++ c) =? 0)%nat = (List.length (a' ++ b' ++ c) =? 0)%nat.
Proof.
  intros Ha Hb.
  destruct a as [|x a]; destruct a' as [|x' a']; try reflexivity;
    try (destruct Ha as [Ha1 Ha2]; (discriminate (Ha1 eq_refl) || discriminate (Ha2 eq_refl))).
  destruct b as [|y b]; destruct b' as [|y' b']; try reflexivity;
    destruct Hb as [Hb1 Hb2]; (discriminate (Hb1 eq_refl) || discriminate (Hb2 eq_refl)).
Qed.

(** X13: a manifest table that the live schema lacks is reported by name,
    in whatever order Python goes through its sets: validate_schema
    answers invalid, and its first problem is the message
    "Tabelas ausentes: " followed by the missing tables in the order of the
    set, that table among them.  Whether the schema is valid does not
    depend on that order. *)
Theorem X13_missing_table_is_reported :
  forall (iter_set : list string -> list string) (db : Schema) (t : string),
    (forall l, Permutation (iter_set l) l) ->
    In t (map fst _get_expected_tables) ->
    ~ In t (_get_existing_tables db) ->
    fst (SetOrder.validate_schema iter_set db) = false
    /\ fst (SetOrder.validate_schema iter_set db) = fst (validate_schema db)
    /\ exists rest,
         snd (SetOrder.validate_schema iter_set db)
         = ("Tabelas ausentes: "
              ++ Py.join ", " (iter_set (set_minus (map fst _get_expected_tables)
                                                   (_get_existing_tables db))))%string
             :: rest
         /\ In t (iter_set (set_minus (map fst _get_expected_tables)
                                      (_get_existing_tables db))).
Proof.
  intros iter_set db t Hperm Ht Hno.
  assert (Hin : In t (set_minus (map fst _get_expected_tables) (_get_existing_tables db))).
  { apply filter_In. split; [exact Ht|]. apply negb_true_iff.
    destruct (Py.str_in t (_get_existing_tables db)) eqn:E; [|reflexivity].
    apply str_in_In in E. contradiction. }
  assert (Hsame : fst (SetOrder.validate_schema iter_set db) = fst (validate_schema db)).
  { unfold SetOrder.validate_schema, validate_schema. cbn [fst].
    apply no_problems_iff.
    - destruct (Py.truthy_list (set_minus (map fst _get_expected_tables)
                                          (_get_existing_tables db)));
        split; intros H; (reflexivity || discriminate H).
    - apply flat_map_nil_perm; [apply Hperm|]. intros x.
      destruct (Py.truthy_list
                  (set_minus (map fst (dict_get _get_expected_tables x))
                             (map fst (_get_table_columns db x))));
        split; intros H; (reflexivity || discriminate H). }
  split; [|split; [exact Hsame|]].
  - unfold SetOrder.validate_schema. cbn [fst].
    destruct (set_minus (map fst _get_expected_tables) (_get_existing_tables db));
      [contradiction|reflexivity].
  - unfold SetOrder.validate_schema. cbn [snd].
    destruct (set_minus (map fst _get_expected_tables) (_get_existing_tables db))
      as [|m ms] eqn:Em; [contradiction|].
    cbn [Py.truthy_list app]. eexists. split; [reflexivity|].
    apply (Permutation_in _ (Permutation_sym (Hperm (m :: ms)))). exact Hin.
Qed.

(** A database without tables, its sets gone through from the last
    element to the first. *)
Lemma X13_missing_table_witness :
  fst (SetOrder.validate_schema (@rev string) []) = false
  /\ hd ""%string (snd (SetOrder.validate_schema (@rev string) []))
     = ("Tabelas ausentes: " ++ Py.join ", " (rev (map fst _get_expected_tables)))%string.
Proof.
  assert (Hin : In "notificacoes"%string (map fst _get_expected_tables))
    by (simpl; tauto).
  assert (Hperm : forall l : list string, Permutation (rev l) l)
    by (intros l; apply Permutation_sym, Permutation_rev).
  split.
  - exact (proj1 (@X13_missing_table_is_reported (@rev string) [] "notificacoes"
                    Hperm Hin (fun H => H))).
  - vm_compute. reflexivity.
Defined.

(** X14: fix_schema_issues reports success only for a schema that
    validates: when the schema is already valid it returns success with its
    one-line log and leaves the database alone, without reading or running
    any script; and whenever it returns success, validate_schema accepts
    the database it leaves. *)
Theorem X14_fix_success_means_valid :
  forall (read_file : string -> string + string)
         (sqlite_execute : string -> Schema -> exec_result) (db : Schema),
    (fst (validate_schema db) = true ->
     fix_schema_issues read_file sqlite_execute db
     = ((true, ["O esquema do banco de dados já está correto, nenhuma ação necessária."]%string),
        db))
    /\ (fst (fst (fix_schema_issues read_file sqlite_execute db)) = true ->
        fst (validate_schema (snd (fix_schema_issues read_file sqlite_execute db))) = true).
Proof.
  intros read_file sqlite_execute db. unfold fix_schema_issues.
  destruct (validate_schema db) as [[|] problemas] eqn:Ev.
  - split; [reflexivity|]. intros _. cbn [snd]. now rewrite Ev.
  - split; [discriminate|].
    destruct (executar_arquivos read_file sqlite_execute schema_files db [])
      as [[acoes|acoes] db']; [discriminate|].
    destruct (validate_schema db') as [[|] restantes] eqn:Ev'; [|discriminate].
    intros _. cbn [snd]. now rewrite Ev'.
Qed.

(** An engine that creates the whole manifest on the base script. *)
Definition install_manifest (sql : string) (db : Schema) : exec_result :=
  if (sql =? "schema_base.sql")%string then Executed manifest_schema else Executed db.

Lemma X14_fix_success_witness :
  fst (fst (fix_schema_issues toy_read_file install_manifest [])) = true
  /\ fst (validate_schema (snd (fix_schema_issues toy_read_file install_manifest []))) = true.
Proof.
  assert (H : fst (fst (fix_schema_issues toy_read_file install_manifest [])) = true)
    by (vm_compute; reflexivity).
  split; [exact H|].
  exact (proj2 (X14_fix_success_means_valid toy_read_file install_manifest []) H).
Defined.

Lemma executar_arquivos_app (read_file : string -> string + string)
      (sqlite_execute : string -> Schema -> exec_result) (l1 l2 : list string) :
  forall (db : Schema) (acoes : list string),
    executar_arquivos read_file sqlite_execute (l1 ++ l2) db acoes
    = match executar_arquivos read_file sqlite_execute l1 db acoes with
      | (inr acoes', db') => executar_arquivos read_file sqlite_execute l2 db' acoes'
      | stopped => stopped
      end.
Proof.
  induction l1 as [|f l1 IH]; intros db acoes; [reflexivity|].
  cbn [app executar_arquivos]. destruct (read_file f) as [msg|sql]; [reflexivity|].
  destruct (execute sqlite_execute sql db) as [[msg|c] db']; [reflexivity|apply IH].
Qed.

(** X15: the loop of fix_schema_issues stops at the first schema file that
    cannot be read, or whose script makes the engine raise something other
    than sqlite3.Error: the log is the log of the files before it plus one
    "Erro ao executar <file>: <message>" entry, the database is as those
    files left it, and the files after it play no part. *)
Theorem X15_raised_error_stops_the_loop :
  forall (read_file : string -> string + string)
         (sqlite_execute : string -> Schema -> exec_result)
         (before after : list string) (schema_file msg : string)
         (db db' : Schema) (acoes acoes' : list string),
    executar_arquivos read_file sqlite_execute before db acoes = (inr acoes', db') ->
    (read_file schema_file = inl msg
     \/ exists sql, read_file schema_file = inr sql /\ sqlite_execute sql db' = Raised msg) ->
    executar_arquivos read_file sqlite_execute (before ++ schema_file :: after) db acoes
    = (inl (acoes' ++ [erro_ao_executar schema_file msg]), db').
Proof.
  intros read_file sqlite_execute before after schema_file msg db db' acoes acoes' Hb Hfail.
  rewrite executar_arquivos_app, Hb. cbn [executar_arquivos].
  destruct Hfail as [Hr|[sql [Hr He]]]; rewrite Hr; [reflexivity|].
  unfold execute. now rewrite He.
Qed.

(** A migration directory without the users script. *)
Definition read_without_usuarios (schema_file : string) : string + string :=
  if (schema_file =? "schema_usuarios.sql")%string
  then inl "No such file or directory"%string else inr schema_file.

Lemma X15_raised_error_witness :
  fix_schema_issues read_without_usuarios install_manifest []
  = ((false, [executado "schema_base.sql";
              erro_ao_executar "schema_usuarios.sql" "No such file or directory"]),
     manifest_schema).
Proof.
  pose proof (@X15_raised_error_stops_the_loop read_without_usuarios install_manifest
                ["schema_base.sql"%string] ["schema_relatorios.sql"%string]
                "schema_usuarios.sql" "No such file or directory"
                [] manifest_schema [] [executado "schema_base.sql"]
                eq_refl (or_introl eq_refl)) as H.
  unfold fix_schema_issues.
  change (validate_schema []) with (false, snd (validate_schema [])).
  cbv iota beta. unfold schema_files.
  change ["schema_base.sql"%string; "schema_usuarios.sql"%string; "schema_relatorios.sql"%string]
    with (["schema_base.sql"%string] ++ "schema_usuarios.sql"%string
            :: ["schema_relatorios.sql"%string]).
  rewrite H. reflexivity.
Defined.

(** ** What the pruning of backups keeps *)

(** X16: clean_old_backups only deletes, and only backups it can remove:
    what it leaves is the directory with some entries dropped, in the same
    order; every file that is not named backup_*.db stays, and so does
    every entry on which os.remove fails; and when the age rule is on (a
    positive number of days), no backup that can be removed and is older
    than the cut-off is left, whatever the count rule does.  A directory
    that is not there is left alone. *)
Theorem X16_pruning_only_deletes_backups :
  forall (can_remove : string -> bool) (config : Config) (now : Z) (d : Dir)
         (max_days max_files : option Z),
    Os.clean_old_backups can_remove config now None max_days max_files = None
    /\ exists d' : Dir,
         Os.clean_old_backups can_remove config now (Some d) max_days max_files = Some d'
         /\ (exists keep, d' = filter keep d)
         /\ filter (fun f => negb (is_backup f)) d' = filter (fun f => negb (is_backup f)) d
         /\ (forall f, In f d -> can_remove (filename f) = false -> In f d')
         /\ (0 < or_config max_days (backup_retention_days config) 30 ->
             forall f, In f d' -> is_backup f = true -> can_remove (filename f) = true ->
                       now - or_config max_days (backup_retention_days config) 30 * 86400
                       <= mtime f).
Proof.
  intros can_remove config now d max_days max_files. split; [reflexivity|].
  rewrite os_clean_survivors.
  set (D := or_config max_days (backup_retention_days config) 30).
  set (F := or_config max_files (max_backup_files config) 10).
  eexists. split; [reflexivity|]. split; [|split; [|split]].
  - now exists (survives_os can_remove D F now d).
  - rewrite filter_filter. apply filter_ext. intros f.
    destruct (is_backup f) eqn:Eb; simpl; [now rewrite andb_false_r|].
    rewrite survives_os_eq, survives_other_kind by exact Eb.
    now rewrite orb_true_r.
  - intros f Hf Hc. apply filter_In. split; [exact Hf|].
    now rewrite survives_os_eq, Hc.
  - intros HD f Hf Hb Hc.
    destruct (Z.lt_ge_cases (mtime f) (now - D * 86400)) as [Hlt|Hge]; [|exact Hge].
    exfalso. pose proof Hf as Hf'. apply filter_In in Hf'. destruct Hf' as [Hfd _].
    apply (@os_age_rule_deletes can_remove D F now d f HD Hfd Hb Hc Hlt).
    now apply in_map.
Qed.

(** X17: in a directory whose names are distinct, a backup outlives
    clean_old_backups exactly when os.remove fails on it or both rules
    spare it: it is not older than the cut-off (when the number of days is
    positive) and it is among the first max_files backups by modification
    time, newest first, files of equal time in directory order (when
    max_files is positive). *)
Theorem X17_survivors_are_recent_and_newest :
  forall (can_remove : string -> bool) (config : Config) (now : Z) (d : Dir)
         (max_days max_files : option Z),
    NoDup (map filename d) ->
    exists d' : Dir,
      Os.clean_old_backups can_remove config now (Some d) max_days max_files = Some d'
      /\ forall f : File,
           In f d' /\ is_backup f = true
           <-> In f d /\ is_backup f = true
               /\ (can_remove (filename f) = false
                   \/ (0 < or_config max_days (backup_retention_days config) 30 ->
                       now - or_config max_days (backup_retention_days config) 30 * 86400
                       <= mtime f)
                      /\ (0 < or_config max_files (max_backup_files config) 10 ->
                          In f (firstn (Z.to_nat (or_config max_files
                                                            (max_backup_files config) 10))
                                       (sort_by newer_first (filter is_backup d))))).
Proof.
  intros can_remove config now d max_days max_files Hnd.
  rewrite os_clean_survivors.
  eexists. split; [reflexivity|]. intros f. rewrite filter_In, survives_os_eq. split.
  - intros [[Hf Hs] Hb]. split; [exact Hf|]. split; [exact Hb|].
    destruct (can_remove (filename f)); [right|now left].
    simpl in Hs. now apply survives_iff.
  - intros [Hf [Hb Hwhy]]. split; [|exact Hb]. split; [exact Hf|].
    destruct Hwhy as [Hc|Hboth]; [now rewrite Hc|].
    apply orb_true_iff. right. now apply survives_iff.
Qed.

(** The oldest of the twelve is a directory, which os.remove refuses. *)
Definition velho_fica (path : string) : bool := negb (path =? "backup_01.db")%string.

Lemma X17_survivors_witness :
  exists d' : Dir,
    Os.clean_old_backups velho_fica config_padrao 2000 (Some doze_backups) None None
    = Some d'
    /\ forall f : File,
         In f d' /\ is_backup f = true
         <-> In f doze_backups /\ is_backup f = true
             /\ (velho_fica (filename f) = false
                 \/ (0 < 30 -> 2000 - 30 * 86400 <= mtime f)
                    /\ (0 < 10 ->
                        In f (firstn 10 (sort_by newer_first (filter is_backup doze_backups))))).
Proof.
  exact (@X17_survivors_are_recent_and_newest velho_fica config_padrao 2000 doze_backups
           None None doze_backups_distinct).
Defined.

Lemma listed_insert_count (p : BackupInfo -> bool) (x : BackupInfo) (l : list BackupInfo) :
  List.length (filter p (insert_sorted newer_info_first x l))
  = List.length (filter p (x :: l)).
Proof.
  induction l as [|y l IH]; [reflexivity|].
  cbn [insert_sorted]. destruct (newer_info_first x y); [reflexivity|].
  cbn [filter] in *. destruct (p y), (p x); cbn [List.length] in *; lia.
Qed.

Lemma listed_count (p : BackupInfo -> bool) (d : Dir) :
  List.length (filter p (list_backups (Some d)))
  = List.length (filter (fun f => is_backup f && p (backup_info f)) d).
Proof.
  unfold list_backups. rewrite <- filter_filter.
  induction (filter is_backup d) as [|a l IH]; [reflexivity|].
  cbn [map sort_by fold_right]. rewrite listed_insert_count.
  fold (sort_by newer_info_first (map backup_info l)).
  cbn [filter]. destruct (p (backup_info a)); cbn [List.length]; now rewrite IH.
Qed.

(** X18: with a positive max_files and distinct names in the directory,
    after clean_old_backups list_backups shows at most max_files backups
    that os.remove can delete (those it cannot delete stay listed beyond
    that number). *)
Theorem X18_at_most_max_files_listed :
  forall (can_remove : string -> bool) (config : Config) (now : Z) (d : Dir)
         (max_days max_files : option Z),
    NoDup (map filename d) ->
    0 < or_config max_files (max_backup_files config) 10 ->
    (List.length
       (filter (fun e => can_remove (info_filename e))
               (list_backups (Os.clean_old_backups can_remove config now (Some d)
                                                   max_days max_files)))
     <= Z.to_nat (or_config max_files (max_backup_files config) 10))%nat.
Proof.
  intros can_remove config now d max_days max_files Hnd HF.
  rewrite os_clean_survivors, listed_count. cbn [backup_info info_filename].
  now apply os_count_rule_bounds.
Qed.

Lemma X18_at_most_max_files_witness :
  (List.length
     (filter (fun e => velho_fica (info_filename e))
             (list_backups (Os.clean_old_backups velho_fica config_padrao 2000%Z
                                                 (Some doze_backups) None (Some 5%Z))))
   <= Z.to_nat 5%Z)%nat.
Proof.
  apply (@X18_at_most_max_files_listed velho_fica config_padrao 2000 doze_backups
           None (Some 5) doze_backups_distinct).
  vm_compute. reflexivity.
Defined.

(** X19: clean_old_backups deletes nothing when no rule applies: every
    backup is within the age limit (or the number of days is not positive)
    and there are at most max_files backups (or max_files is not
    positive). *)
Theorem X19_pruning_within_limits_is_noop :
  forall (config : Config) (now : Z) (d : Dir) (max_days max_files : option Z),
    (0 < or_config max_days (backup_retention_days config) 30 ->
     forall f, In f d -> is_backup f = true ->
               now - or_config max_days (backup_retention_days config) 30 * 86400
               <= mtime f) ->
    (0 < or_config max_files (max_backup_files config) 10 ->
     (List.length (filter is_backup d)
      <= Z.to_nat (or_config max_files (max_backup_files config) 10))%nat) ->
    clean_old_backups config now (Some d) max_days max_files = Some d.
Proof.
  intros config now d max_days max_files Hage Hcount.
  rewrite clean_old_backups_survivors.
  set (D := or_config max_days (backup_retention_days config) 30) in *.
  set (F := or_config max_files (max_backup_files config) 10) in *.
  apply (f_equal Some). apply filter_all. intros f Hf. unfold survives. apply andb_true_iff. split.
  - destruct (0 <? D) eqn:HD; [|reflexivity]. apply Z.ltb_lt in HD.
    assert (Hnone : too_old (now - D * 86400) d = []).
    { unfold too_old. apply filter_none. intros x Hx. apply filter_In in Hx.
      apply Z.ltb_ge. now apply (Hage HD). }
    now rewrite Hnone.
  - destruct (0 <? F) eqn:HF; [|reflexivity]. apply Z.ltb_lt in HF.
    assert (Hnone : excess F d = []).
    { unfold excess. apply skipn_all2.
      rewrite <- (Permutation_length (sort_by_perm newer_first _)). now apply Hcount. }
    now rewrite Hnone.
Qed.

Lemma X19_pruning_noop_witness :
  clean_old_backups config_padrao 2000 (Some doze_backups) None (Some 12)
  = Some doze_backups.
Proof.
  apply X19_pruning_within_limits_is_noop.
  - intros _ f Hf _. simpl in Hf.
    repeat (destruct Hf as [<-|Hf]; [vm_compute; discriminate|]). contradiction.
  - intros _. vm_compute. lia.
Defined.

(** ** The backup just made and the pruning that follows it *)

Lemma copy2_has_dst (m : Z) (dst : string) (d : Dir) : In (mkFile dst m) (copy2 m dst d).
Proof.
  unfold copy2. destruct (existsb (fun f => (filename f =? dst)%string) d) eqn:E.
  - apply existsb_exists in E. destruct E as [f [Hf E]].
    apply in_map_iff. exists f. split; [|exact Hf]. now rewrite E.
  - apply in_or_app. right. now left.
Qed.

(** X20: shutil.copy2 gives the backup the modification time of the
    database file, and create_backup prunes right after copying. So when
    that time is older than the retention period (VACUUM was refused and
    the database has not been written for that long), create_backup returns
    the path of a backup that its own pruning has already deleted. *)
Theorem X20_stale_backup_is_pruned_at_once :
  forall (config : Config) (now : Z) (timestamp : string) (vacuum : option Z)
         (fs : FS) (m : Z),
    db_file fs = Some m ->
    0 < or_config None (backup_retention_days config) 30 ->
    copied_mtime vacuum m < now - or_config None (backup_retention_days config) 30 * 86400 ->
    fst (create_backup config now timestamp vacuum fs)
    = Some ("backup_" ++ timestamp ++ ".db")%string
    /\ exists d' : Dir,
         backup_dir (snd (create_backup config now timestamp vacuum fs)) = Some d'
         /\ ~ In ("backup_" ++ timestamp ++ ".db")%string (map filename d').
Proof.
  intros config now timestamp vacuum fs m Hdb HD Hold.
  unfold create_backup. rewrite Hdb. fold (copied_mtime vacuum m). cbn [fst snd backup_dir].
  split; [reflexivity|].
  rewrite clean_old_backups_survivors.
  set (D := or_config None (backup_retention_days config) 30) in *.
  set (F := or_config None (max_backup_files config) 10).
  set (name := ("backup_" ++ timestamp ++ ".db")%string).
  set (d1 := copy2 (copied_mtime vacuum m) name
                   match backup_dir fs with Some d => d | None => [] end).
  eexists. split; [reflexivity|].
  intros Hin. apply in_map_iff in Hin. destruct Hin as [g [Hname Hg]].
  apply filter_In in Hg. destruct Hg as [_ Hs].
  unfold survives in Hs. apply andb_true_iff in Hs. destruct Hs as [Hs _].
  apply Z.ltb_lt in HD. rewrite HD in Hs.
  assert (Hno : names_out (too_old (now - D * 86400) d1) g = false).
  { apply names_out_false. exists (mkFile name (copied_mtime vacuum m)).
    split; [|now rewrite Hname].
    unfold too_old. rewrite !filter_In. split; [split|].
    - apply copy2_has_dst.
    - apply backup_name_is_backup.
    - now apply Z.ltb_lt. }
  congruence.
Qed.

Lemma X20_stale_backup_witness :
  fst (create_backup config_padrao (40 * 86400) "20240102_030405" None fs_doze)
  = Some "backup_20240102_030405.db"%string
  /\ exists d' : Dir,
       backup_dir (snd (create_backup config_padrao (40 * 86400) "20240102_030405"
                                      None fs_doze)) = Some d'
       /\ ~ In "backup_20240102_030405.db"%string (map filename d').
Proof.
  apply (@X20_stale_backup_is_pruned_at_once config_padrao (40 * 86400)
           "20240102_030405" None fs_doze 1500 eq_refl).
  - vm_compute. reflexivity.
  - vm_compute. reflexivity.
Defined.

(** X21: the backup just made outlives the pruning of create_backup when
    its time is within the retention period and it is strictly newer than
    every backup already in the directory (names distinct, its own name
    new). *)
Theorem X21_fresh_backup_is_kept :
  forall (config : Config) (now : Z) (timestamp : string) (vacuum : option Z)
         (fs : FS) (m : Z) (d : Dir),
    db_file fs = Some m ->
    backup_dir fs = Some d ->
    NoDup (map filename d) ->
    ~ In (filename (new_backup timestamp (copied_mtime vacuum m))) (map filename d) ->
    (0 < or_config None (backup_retention_days config) 30 ->
     now - or_config None (backup_retention_days config) 30 * 86400
     <= copied_mtime vacuum m) ->
    (forall f, In f d -> is_backup f = true -> mtime f < copied_mtime vacuum m) ->
    exists d' : Dir,
      backup_dir (snd (create_backup config now timestamp vacuum fs)) = Some d'
      /\ In (new_backup timestamp (copied_mtime vacuum m)) d'.
Proof.
  intros config now timestamp vacuum fs m d Hdb Hdir Hnd Hfresh Hage Hnewest.
  set (new := new_backup timestamp (copied_mtime vacuum m)) in *.
  assert (Hnew : is_backup new = true) by apply backup_name_is_backup.
  unfold create_backup. rewrite Hdb, Hdir. fold (copied_mtime vacuum m).
  cbn [snd backup_dir].
  change (mkFile ("backup_" ++ timestamp ++ ".db") (copied_mtime vacuum m)) with new.
  rewrite copy2_fresh by exact Hfresh. fold new.
  rewrite clean_old_backups_survivors.
  set (D := or_config None (backup_retention_days config) 30) in *.
  set (F := or_config None (max_backup_files config) 10).
  set (dn := d ++ [new]).
  assert (Hndn : NoDup (map filename dn)).
  { unfold dn. rewrite map_app. simpl. now apply NoDup_snoc. }
  assert (Hin : In new dn) by (apply in_or_app; right; now left).
  eexists. split; [reflexivity|]. apply filter_In. split; [exact Hin|].
  apply survives_iff; [exact Hndn|exact Hin|exact Hnew|]. split; [exact Hage|].
  intros HF.
  pose proof (sort_by_perm newer_first (filter is_backup dn)) as Hperm.
  assert (Hs : In new (sort_by newer_first (filter is_backup dn))).
  { apply (Permutation_in _ Hperm). apply filter_In. now split. }
  assert (Hnds : NoDup (sort_by newer_first (filter is_backup dn))).
  { apply (Permutation_NoDup Hperm). apply NoDup_filter.
    now apply (NoDup_map_NoDup filename). }
  rewrite <- (firstn_skipn (Z.to_nat F)) in Hs. apply in_app_or in Hs.
  destruct Hs as [Hs|Hs]; [exact Hs|]. exfalso.
  destruct (sort_by newer_first (filter is_backup dn)) as [|h t] eqn:Es.
  { now rewrite skipn_nil in Hs. }
  assert (Hk : exists k, Z.to_nat F = S k) by (exists (Z.to_nat F - 1)%nat; lia).
  destruct Hk as [k Hk].
  assert (Hh : In h (firstn (Z.to_nat F) (sort_by newer_first (filter is_backup dn)))).
  { rewrite Es, Hk. now left. }
  assert (Hs' : In new (skipn (Z.to_nat F) (sort_by newer_first (filter is_backup dn))))
    by (now rewrite Es).
  pose proof (@sort_by_head_before_tail _ newer_first newer_first_total newer_first_trans
                (Z.to_nat F) (filter is_backup dn) h new Hh Hs') as Hle.
  unfold newer_first in Hle. apply Z.leb_le in Hle.
  assert (Hhd : In h (filter is_backup dn)).
  { apply (Permutation_in _ (Permutation_sym Hperm)). now left. }
  apply filter_In in Hhd. destruct Hhd as [Hhd Hhb].
  unfold dn in Hhd. apply in_app_or in Hhd. destruct Hhd as [Hhd|[Hhd|[]]].
  - pose proof (Hnewest h Hhd Hhb) as Hlt. unfold new, new_backup in Hle.
    cbn [mtime] in Hle. lia.
  - subst h. rewrite <- Es in Hnds.
    rewrite <- (firstn_skipn (Z.to_nat F)) in Hnds.
    now apply (kept_and_excess_apart _ _ new Hnds).
Qed.

Lemma X21_fresh_backup_witness :
  exists d' : Dir,
    backup_dir depois_do_backup = Some d'
    /\ In (new_backup "20240102_030405" 1999) d'.
Proof.
  apply (@X21_fresh_backup_is_kept config_padrao 2000 "20240102_030405" (Some 1999)
           fs_doze 1500 doze_backups eq_refl eq_refl doze_backups_distinct).
  - simpl. intuition discriminate.
  - intros _. vm_compute. discriminate.
  - intros f Hf _. simpl in Hf.
    repeat (destruct Hf as [<-|Hf]; [vm_compute; reflexivity|]). contradiction.
Defined.

(** ** The list of backups *)

Lemma newer_info_first_total (a b : BackupInfo) :
  newer_info_first a b = false -> newer_info_first b a = true.
Proof. unfold newer_info_first. intros H. apply Z.leb_gt in H. apply Z.leb_le. lia. Qed.

Lemma newer_info_first_trans (a b c : BackupInfo) :
  newer_info_first a b = true -> newer_info_first b c = true -> newer_info_first a c = true.
Proof.
  unfold newer_info_first. intros H1 H2. apply Z.leb_le in H1, H2. apply Z.leb_le. lia.
Qed.

(** X22: list_backups shows the backup files of the directory, each as
    often as the directory has it and nothing else, the most recently
    modified first, with the modification time of the file; a directory
    that is not there gives the empty list. *)
Theorem X22_list_backups_newest_first :
  forall d : Dir,
    Permutation (map (fun e => (info_filename e, info_mtime e)) (list_backups (Some d)))
                (map (fun f => (filename f, mtime f)) (filter is_backup d))
    /\ StronglySorted (fun a b => info_mtime b <= info_mtime a) (list_backups (Some d))
    /\ list_backups None = [].
Proof.
  intros d. split; [|split; [|reflexivity]].
  - unfold list_backups.
    rewrite <- (sort_by_perm newer_info_first (map backup_info (filter is_backup d))).
    rewrite map_map. reflexivity.
  - unfold list_backups.
    pose proof (@sort_by_ordered _ newer_info_first newer_info_first_total
                  newer_info_first_trans (map backup_info (filter is_backup d))) as Hs.
    induction Hs as [|a l Hl IH Ha]; constructor; [exact IH|].
    eapply Forall_impl; [|exact Ha]. intros b Hb.
    unfold newer_info_first in Hb. now apply Z.leb_le in Hb.
Qed.

Lemma two_chars (s : string) :
  String.length s = 2%nat -> exists a b, s = String a (String b EmptyString).
Proof.
  destruct s as [|a [|b [|c s]]]; simpl; intros H; try discriminate H.
  now exists a, b.
Qed.

Lemma four_chars (s : string) :
  String.length s = 4%nat ->
  exists a b c e, s = String a (String b (String c (String e EmptyString))).
Proof.
  destruct s as [|a [|b [|c [|e [|x s]]]]]; simpl; intros H; try discriminate H.
  now exists a, b, c, e.
Qed.

Lemma list_backups_timestamp (d : Dir) (e : BackupInfo) :
  In e (list_backups (Some d)) -> info_timestamp e = timestamp_from_name (info_filename e).
Proof.
  unfold list_backups. intros H.
  apply (Permutation_in _ (Permutation_sym (sort_by_perm newer_info_first _))) in H.
  apply in_map_iff in H. destruct H as [f [<- _]]. reflexivity.
Qed.

(** The digits of a strftime field: ASCII, so that a character of the
    name is one byte of the string and a slice by characters is the slice
    by bytes of [timestamp_from_name]. *)
Definition is_digit (c : ascii) : bool :=
  (48 <=? nat_of_ascii c)%nat && (nat_of_ascii c <=? 57)%nat.

Fixpoint all_digits (s : string) : bool :=
  match s with
  | EmptyString => true
  | String c s' => is_digit c && all_digits s'
  end.

(** X23: for a backup named as create_backup names it, backup_ then the
    strftime value YYYYMMDD_HHMMSS (decimal digits) then .db, list_backups
    shows the time stamp as YYYY-MM-DD HH:MM:SS, read off the name. *)
Theorem X23_listed_timestamp_reads_the_name :
  forall (d : Dir) (e : BackupInfo) (year month day hour minute second : string),
    String.length year = 4%nat -> String.length month = 2%nat ->
    String.length day = 2%nat -> String.length hour = 2%nat ->
    String.length minute = 2%nat -> String.length second = 2%nat ->
    all_digits (year ++ month ++ day ++ hour ++ minute ++ second)%string = true ->
    In e (list_backups (Some d)) ->
    info_filename e
    = ("backup_" ++ (year ++ month ++ day ++ "_" ++ hour ++ minute ++ second) ++ ".db")%string ->
    info_timestamp e
    = (year ++ "-" ++ month ++ "-" ++ day ++ " " ++ hour ++ ":" ++ minute ++ ":" ++ second)%string.
Proof.
  intros d e year month day hour minute second Hy Hmo Hd Hh Hmi Hs _ Hin Hname.
  rewrite (list_backups_timestamp d e Hin), Hname.
  destruct (four_chars year Hy) as [y1 [y2 [y3 [y4 ->]]]].
  destruct (two_chars month Hmo) as [m1 [m2 ->]].
  destruct (two_chars day Hd) as [d1 [d2 ->]].
  destruct (two_chars hour Hh) as [h1 [h2 ->]].
  destruct (two_chars minute Hmi) as [n1 [n2 ->]].
  destruct (two_chars second Hs) as [s1 [s2 ->]].
  reflexivity.
Qed.

Definition backup_de_janeiro : File := mkFile "backup_20240102_030405.db" 1999.

Lemma X23_listed_timestamp_witness :
  In (backup_info backup_de_janeiro) (list_backups (Some [backup_de_janeiro]))
  /\ info_timestamp (backup_info backup_de_janeiro) = "2024-01-02 03:04:05"%string.
Proof.
  assert (Hin : In (backup_info backup_de_janeiro) (list_backups (Some [backup_de_janeiro])))
    by (left; reflexivity).
  split; [exact Hin|].
  exact (@X23_listed_timestamp_reads_the_name [backup_de_janeiro]
           (backup_info backup_de_janeiro) "2024" "01" "02" "03" "04" "05"
           eq_refl eq_refl eq_refl eq_refl eq_refl eq_refl eq_refl Hin eq_refl).
Defined.

(** ** Restoring a backup *)

Section RestoreFacts.
Variable Content : Type.

Lemma copy2_some (src dst : string) (c : Content) (fs : Restore.Files Content) :
  src <> dst -> Restore.read src fs = Some c ->
  Restore.copy2 src dst fs = Some ((dst, c) :: fs).
Proof.
  intros Hne Hr. unfold Restore.copy2.
  apply String.eqb_neq in Hne. now rewrite Hne, Hr.
Qed.

Lemma temp_backup_is_another_path (db_path timestamp : string) :
  db_path <> (db_path ++ ".before_restore_" ++ timestamp)%string.
Proof.
  intros H. apply (f_equal String.length) in H.
  rewrite str_length_app in H. simpl in H. lia.
Qed.

(** X25: restore_backup never loses the database: whatever the arguments,
    the content the database had before the call is afterwards at the
    database path or at the path of the safety copy, and when the call
    returns false it is at the database path. Restoring from the database
    path itself is such a call. *)
Theorem X25_restore_keeps_the_old_database :
  forall (timestamp backup_path db_path : string) (fs : Restore.Files Content)
         (c : Content),
    Restore.read db_path fs = Some c ->
    let fs' := snd (Restore.restore_backup timestamp backup_path db_path fs) in
    (Restore.read db_path fs' = Some c
     \/ Restore.read (db_path ++ ".before_restore_" ++ timestamp)%string fs' = Some c)
    /\ (fst (Restore.restore_backup timestamp backup_path db_path fs) = false ->
        Restore.read db_path fs' = Some c)
    /\ (backup_path = db_path ->
        fst (Restore.restore_backup timestamp backup_path db_path fs) = false).
Proof.
  intros timestamp backup_path db_path fs c Hc fs'. subst fs'.
  pose proof (@temp_backup_is_another_path db_path timestamp) as Hother.
  set (temp := (db_path ++ ".before_restore_" ++ timestamp)%string) in *.
  assert (Eq1 : (temp =? db_path)%string = false)
    by (apply String.eqb_neq; congruence).
  unfold Restore.restore_backup, Restore.path_exists. fold temp. rewrite Hc.
  destruct (Restore.read backup_path fs) as [b|] eqn:Eb; cbn [negb].
  2:{ cbn [fst snd]. split; [now left|]. split; [auto|]. intros ->. congruence. }
  rewrite (@copy2_some db_path temp c fs Hother Hc).
  destruct (String.eqb_spec backup_path db_path) as [->|Hne].
  - assert (Hsame : Restore.copy2 db_path db_path ((temp, c) :: fs) = None)
      by (unfold Restore.copy2; now rewrite String.eqb_refl).
    rewrite Hsame. cbn [fst snd].
    unfold Restore.recover, Restore.path_exists. simpl. rewrite String.eqb_refl.
    rewrite (@copy2_some temp db_path c ((temp, c) :: fs)).
    + simpl. rewrite String.eqb_refl. auto.
    + congruence.
    + simpl. now rewrite String.eqb_refl.
  - assert (Hrb : exists b', Restore.read backup_path ((temp, c) :: fs) = Some b').
    { simpl. destruct (temp =? backup_path)%string; eauto. }
    destruct Hrb as [b' Hrb].
    rewrite (@copy2_some backup_path db_path b' ((temp, c) :: fs) Hne Hrb).
    assert (Eq4 : (db_path =? temp)%string = false)
      by (apply String.eqb_neq; congruence).
    cbn [fst snd]. simpl. rewrite ?Eq1, ?Eq4, !String.eqb_refl.
    split; [now right|]. split; [discriminate|]. intros E. contradiction.
Qed.
End RestoreFacts.

Definition arquivos : Restore.Files string :=
  [("data/territorios.db", "dados de hoje"); ("backups/backup_1.db", "dados de ontem")]%string.

Lemma X25_restore_keeps_witness :
  fst (Restore.restore_backup "20240102_030405" "data/territorios.db"
                              "data/territorios.db" arquivos) = false
  /\ Restore.read "data/territorios.db"
       (snd (Restore.restore_backup "20240102_030405" "data/territorios.db"
                                    "data/territorios.db" arquivos))
     = Some "dados de hoje"%string.
Proof.
  pose proof (@X25_restore_keeps_the_old_database string "20240102_030405"
                "data/territorios.db" "data/territorios.db" arquivos "dados de hoje"
                eq_refl) as H.
  destruct H as [_ [H2 H3]].
  split; [exact (H3 eq_refl)|exact (H2 (H3 eq_refl))].
Defined.

(** ** Restoring a backup, with paths that may lead to one file *)

Section SameFileFacts.
Variable Content : Type.
Variable file_of : string -> string.

Lemma samefile_copy2_some (src dst : string) (c : Content) (fs : SameFile.Files Content) :
  file_of src <> file_of dst -> SameFile.read file_of src fs = Some c ->
  SameFile.copy2 file_of src dst fs = Some ((file_of dst, c) :: fs).
Proof.
  intros Hne Hr. unfold SameFile.copy2.
  apply String.eqb_neq in Hne. now rewrite Hne, Hr.
Qed.

(** X24: restore_backup from a backup that exists.  When the backup path
    and the database path lead to one file (the same path spelled in
    another way, a link) it returns false.  When the backup, the database
    and the safety copy <db_path>.before_restore_<timestamp> are three
    files, it returns true; afterwards the database has the content of the
    backup, the backup is as it was, the content the database had before
    is at the path of the safety copy, and no path that leads to another
    file changes. *)
Theorem X24_restore_puts_the_backup_in_place :
  forall (timestamp backup_path db_path : string) (fs : SameFile.Files Content)
         (b : Content),
    SameFile.read file_of backup_path fs = Some b ->
    let temp_backup := (db_path ++ ".before_restore_" ++ timestamp)%string in
    let fs' := snd (SameFile.restore_backup file_of timestamp backup_path db_path fs) in
    (file_of backup_path = file_of db_path ->
     fst (SameFile.restore_backup file_of timestamp backup_path db_path fs) = false)
    /\ (file_of backup_path <> file_of db_path ->
        file_of backup_path <> file_of temp_backup ->
        file_of db_path <> file_of temp_backup ->
        fst (SameFile.restore_backup file_of timestamp backup_path db_path fs) = true
        /\ SameFile.read file_of db_path fs' = Some b
        /\ SameFile.read file_of backup_path fs' = Some b
        /\ (forall c, SameFile.read file_of db_path fs = Some c ->
                      SameFile.read file_of temp_backup fs' = Some c)
        /\ (forall p, file_of p <> file_of db_path ->
                      file_of p <> file_of temp_backup ->
                      SameFile.read file_of p fs' = SameFile.read file_of p fs)).
Proof.
  intros timestamp backup_path db_path fs b Hb temp fs'. subst fs'.
  unfold SameFile.restore_backup, SameFile.path_exists. rewrite Hb. cbn [negb].
  fold temp. split.
  - intros Hsame.
    assert (Hcopy : forall fs1 : SameFile.Files Content,
               SameFile.copy2 file_of backup_path db_path fs1 = None).
    { intros fs1. unfold SameFile.copy2. rewrite Hsame. now rewrite String.eqb_refl. }
    destruct (match SameFile.read file_of db_path fs with
              | Some _ => true
              | None => false
              end); [|now rewrite Hcopy].
    destruct (SameFile.copy2 file_of db_path temp fs); [now rewrite Hcopy|reflexivity].
  - intros Hdb Htemp Hother.
    assert (Eq1 : (file_of temp =? file_of db_path)%string = false)
      by (apply String.eqb_neq; congruence).
    assert (Eq2 : (file_of temp =? file_of backup_path)%string = false)
      by (apply String.eqb_neq; congruence).
    assert (Eq3 : (file_of db_path =? file_of backup_path)%string = false)
      by (apply String.eqb_neq; congruence).
    assert (Eq4 : (file_of db_path =? file_of temp)%string = false)
      by (apply String.eqb_neq; congruence).
    destruct (SameFile.read file_of db_path fs) as [c|] eqn:Edb.
    + rewrite (@samefile_copy2_some db_path temp c fs Hother Edb).
      rewrite (@samefile_copy2_some backup_path db_path b ((file_of temp, c) :: fs) Hdb)
        by (unfold SameFile.read in *; simpl; now rewrite Eq2).
      cbn [fst snd]. unfold SameFile.read in *. simpl.
      rewrite !String.eqb_refl, ?Eq1, ?Eq2, ?Eq3, ?Eq4.
      split; [reflexivity|]. split; [reflexivity|]. split; [exact Hb|].
      split; [intros c0 Hc0; exact Hc0|].
      intros p Hp1 Hp2.
      assert (E1 : (file_of db_path =? file_of p)%string = false)
        by (apply String.eqb_neq; congruence).
      assert (E2 : (file_of temp =? file_of p)%string = false)
        by (apply String.eqb_neq; congruence).
      now rewrite E1, E2.
    + rewrite (@samefile_copy2_some backup_path db_path b fs Hdb Hb).
      cbn [fst snd]. unfold SameFile.read in *. simpl.
      rewrite !String.eqb_refl, ?Eq3.
      split; [reflexivity|]. split; [reflexivity|]. split; [exact Hb|].
      split; [discriminate|].
      intros p Hp1 Hp2.
      assert (E1 : (file_of db_path =? file_of p)%string = false)
        by (apply String.eqb_neq; congruence).
      now rewrite E1.
Qed.
End SameFileFacts.

(** A path with [./] in front leads to the file of the path without it. *)
Definition sem_ponto (path : string) : string :=
  if Py.startswith "./" path then String.substring 2 (String.length path) path else path.

Lemma X24_restore_witness :
  fst (SameFile.restore_backup sem_ponto "20240102_030405" "./backups/backup_1.db"
                               "data/territorios.db" arquivos) = true
  /\ SameFile.read sem_ponto "./data/territorios.db"
       (snd (SameFile.restore_backup sem_ponto "20240102_030405" "./backups/backup_1.db"
                                     "data/territorios.db" arquivos))
     = Some "dados de ontem"%string
  /\ fst (SameFile.restore_backup sem_ponto "20240102_030405" "./data/territorios.db"
                                  "data/territorios.db" arquivos) = false.
Proof.
  pose proof (@X24_restore_puts_the_backup_in_place string sem_ponto "20240102_030405"
                "./backups/backup_1.db" "data/territorios.db" arquivos "dados de ontem"
                eq_refl) as H.
  pose proof (@X24_restore_puts_the_backup_in_place string sem_ponto "20240102_030405"
                "./data/territorios.db" "data/territorios.db" arquivos "dados de hoje"
                eq_refl) as H'.
  cbv zeta in H, H'. destruct H as [_ H]. destruct H' as [H' _].
  assert (H1 : sem_ponto "./backups/backup_1.db" <> sem_ponto "data/territorios.db")
    by (vm_compute; discriminate).
  assert (H2 : sem_ponto "./backups/backup_1.db"
               <> sem_ponto ("data/territorios.db" ++ ".before_restore_" ++ "20240102_030405"))
    by (vm_compute; discriminate).
  assert (H3 : sem_ponto "data/territorios.db"
               <> sem_ponto ("data/territorios.db" ++ ".before_restore_" ++ "20240102_030405"))
    by (vm_compute; discriminate).
  destruct (H H1 H2 H3) as [Ha [Hb _]].
  split; [exact Ha|]. split; [exact Hb|].
  exact (H' eq_refl).
Defined.

(** ** Deleting a user *)

(** X26: once delete has removed a user (user table present, no other row
    holding the email), the user is gone for every way in: get_by_id and
    get_by_email return None, authenticate with that email fails whatever
    the password, and the email is free again, so that save of a valid new
    user with it succeeds. *)
Theorem X26_deleted_user_is_gone :
  forall (pbkdf2 : bytes -> bytes -> Z -> bytes) (env : Env)
         (self : Usuario.t) (db : Db) (rows : list Usuario.t) (i : Z),
    Usuario.id self = Some i ->
    usuarios db = Some rows ->
    (forall r, In r rows -> Usuario.email r = Usuario.email self -> Usuario.id r = Some i) ->
    let db' := snd (Usuario_delete self db) in
    fst (Usuario_delete self db) = true
    /\ fst (Usuario_get_by_id i db') = None
    /\ fst (Usuario_get_by_email (Usuario.email self) db') = None
    /\ (forall senha,
           fst (AuthService_authenticate pbkdf2 env (Usuario.email self) senha db')
           = (false, None))
    /\ (forall novo,
           Usuario.id novo = None -> Usuario.validate novo = [] ->
           Usuario.email novo = Usuario.email self ->
           fst (fst (Usuario_save novo db')) = true).
Proof.
  intros pbkdf2 env self db rows i Hid Hu Honly db'. subst db'.
  unfold Usuario_delete, delete_by_id. rewrite Hid.
  destruct db as [im un us at_ de se lo iss]. simpl in Hu. subst us.
  set (rows' := filter (fun r => negb (id_is i (Usuario.id r))) rows).
  assert (Hmail : filter (fun u => (Usuario.email u =? Usuario.email self)%string) rows' = []).
  { apply filter_none. intros r Hr.
    destruct (Usuario.email r =? Usuario.email self)%string eqn:E; [|reflexivity].
    apply String.eqb_eq in E. unfold rows' in Hr. apply filter_In in Hr.
    destruct Hr as [Hr Hni].
    assert (Hi : id_is i (Usuario.id r) = true)
      by (apply id_is_true; now apply Honly).
    rewrite Hi in Hni. discriminate Hni. }
  assert (Hactive : filter (fun u => (Usuario.email u =? Usuario.email self)%string
                                     && Usuario.ativo u) rows' = []).
  { apply filter_none. intros r Hr.
    pose proof (filter_nil_none _ _ Hmail r Hr) as Hf. cbv beta in Hf. now rewrite Hf. }
  unfold bind, delete_rows, issue, commit, ret. simpl. fold rows'.
  split; [reflexivity|]. split; [|split; [|split]].
  - unfold Usuario_get_by_id, bind, select, issue, ret. simpl.
    unfold rows'. rewrite filter_filter. rewrite filter_none; [reflexivity|].
    intros r _. destruct (id_is i (Usuario.id r)); reflexivity.
  - unfold Usuario_get_by_email, bind, select, issue, ret. simpl. now rewrite Hmail.
  - intros senha.
    match goal with
    | |- fst (AuthService_authenticate _ _ _ _ ?d) = _ =>
        pose proof (@authenticate_by_first_row pbkdf2 env (Usuario.email self) senha
                      d rows' eq_refl) as H
    end.
    cbv zeta in H. rewrite Hactive in H. now rewrite H.
  - intros novo Hnid Hval Hemail.
    unfold Usuario_save. rewrite Hval, Hnid. cbn [Py.truthy_list].
    unfold Usuario_get_by_email, bind, insert, select, issue, commit, ret. simpl.
    rewrite Hemail, Hmail. reflexivity.
Qed.

Lemma X26_deleted_user_witness :
  fst (Usuario_delete bia db_bia) = true
  /\ fst (AuthService_authenticate toy_pbkdf2 env0 "bia@example.org" "segredo"
                                   (snd (Usuario_delete bia db_bia)))
     = (false, None).
Proof.
  assert (Honly : forall r, In r [bia] -> Usuario.email r = Usuario.email bia ->
                            Usuario.id r = Usuario.id bia).
  { intros r [<-|[]] _. reflexivity. }
  pose proof (@X26_deleted_user_is_gone toy_pbkdf2 env0 bia db_bia [bia] _
                eq_refl eq_refl Honly) as H.
  destruct H as [H1 [_ [_ [H4 _]]]].
  split; [exact H1|exact (H4 "segredo"%string)].
Defined.
